(** * RotaryEncoder: a shallow embedding of [RotaryEncoder.cpp]

    The class [RotaryEncoder] decodes the two quadrature phases of a rotary
    encoder and an optional push button.  Every member function of the class
    is embedded as a function on an explicit object state; the Arduino
    primitives the code calls ([digitalRead], [millis], [delay], [yield],
    [pinMode]) are modelled as sampled inputs and as an effect log. *)

From Stdlib Require Import ZArith List Bool Lia.
Import ListNotations.
Local Open Scope Z_scope.

(** ** Arduino constants *)

Definition LOW : Z := 0.
Definition HIGH : Z := 1.

(** The enumerators of [encoderStatus_t] ([RotaryEncoder.h], lines 51-58).
    A status value is a bit mask; it is kept as the integer the enumeration
    stores. *)
Module encoderStatus_t.
Definition None : Z := 0.
Definition Forward : Z := 1.
Definition Reverse : Z := 2.
Definition ButtonPressed : Z := 4.
Definition ButtonLongPressed : Z := 8.
Definition ButtonReleased : Z := 16.
End encoderStatus_t.

Abbreviation St_None := encoderStatus_t.None.
Abbreviation Forward := encoderStatus_t.Forward.
Abbreviation Reverse := encoderStatus_t.Reverse.
Abbreviation ButtonPressed := encoderStatus_t.ButtonPressed.
Abbreviation ButtonLongPressed := encoderStatus_t.ButtonLongPressed.
Abbreviation ButtonReleased := encoderStatus_t.ButtonReleased.

(** [operator |] on [encoderStatus_t]: both sides are cast to
    [unsigned int], or-ed, and cast back. *)
Definition status_or (X Y : Z) : Z := Z.lor X Y.

(** [contains r f]: the status [r] has the bit of the flag [f] set. *)
Definition contains (r f : Z) : bool := negb (Z.land r f =? 0).

(** The effects a member function performs on the board, in order. *)
Inductive effect : Type :=
| PinMode (pin : Z)
| Delay (ms : Z)
| Yield.

(** What one poll reads from the board: the levels of the two phase pins and
    of the switch pin (read only when a switch pin is configured), and the
    number of milliseconds since the board started. *)
Record Inputs : Type := mkInputs {
  sampleA : bool;
  sampleB : bool;
  sampleS : bool;
  clock : Z
}.

Definition digitalRead (level : bool) : Z := if level then HIGH else LOW.

(** ** The object state: the data members of the class *)

Record RotaryEncoder : Type := mkRotaryEncoder {
  phaseAPin : Z;
  phaseBPin : Z;
  switchPin : Z;
  lowerLimit : Z;
  upperLimit : Z;
  stepWidth : Z;
  count : Z;
  encoderStatus : Z;
  switchStatus : Z;
  timeout : Z;
  timePressed : Z;
  lastResult : Z
}.

Definition set_lowerLimit (e : RotaryEncoder) (v : Z) : RotaryEncoder :=
  mkRotaryEncoder (phaseAPin e) (phaseBPin e) (switchPin e) v (upperLimit e)
    (stepWidth e) (count e) (encoderStatus e) (switchStatus e) (timeout e)
    (timePressed e) (lastResult e).

Definition set_upperLimit (e : RotaryEncoder) (v : Z) : RotaryEncoder :=
  mkRotaryEncoder (phaseAPin e) (phaseBPin e) (switchPin e) (lowerLimit e) v
    (stepWidth e) (count e) (encoderStatus e) (switchStatus e) (timeout e)
    (timePressed e) (lastResult e).

Definition set_stepWidth (e : RotaryEncoder) (v : Z) : RotaryEncoder :=
  mkRotaryEncoder (phaseAPin e) (phaseBPin e) (switchPin e) (lowerLimit e)
    (upperLimit e) v (count e) (encoderStatus e) (switchStatus e) (timeout e)
    (timePressed e) (lastResult e).

Definition set_count (e : RotaryEncoder) (v : Z) : RotaryEncoder :=
  mkRotaryEncoder (phaseAPin e) (phaseBPin e) (switchPin e) (lowerLimit e)
    (upperLimit e) (stepWidth e) v (encoderStatus e) (switchStatus e)
    (timeout e) (timePressed e) (lastResult e).

Definition set_encoderStatus (e : RotaryEncoder) (v : Z) : RotaryEncoder :=
  mkRotaryEncoder (phaseAPin e) (phaseBPin e) (switchPin e) (lowerLimit e)
    (upperLimit e) (stepWidth e) (count e) v (switchStatus e) (timeout e)
    (timePressed e) (lastResult e).

Definition set_switchStatus (e : RotaryEncoder) (v : Z) : RotaryEncoder :=
  mkRotaryEncoder (phaseAPin e) (phaseBPin e) (switchPin e) (lowerLimit e)
    (upperLimit e) (stepWidth e) (count e) (encoderStatus e) v (timeout e)
    (timePressed e) (lastResult e).

Definition set_timeout (e : RotaryEncoder) (v : Z) : RotaryEncoder :=
  mkRotaryEncoder (phaseAPin e) (phaseBPin e) (switchPin e) (lowerLimit e)
    (upperLimit e) (stepWidth e) (count e) (encoderStatus e) (switchStatus e)
    v (timePressed e) (lastResult e).

Definition set_timePressed (e : RotaryEncoder) (v : Z) : RotaryEncoder :=
  mkRotaryEncoder (phaseAPin e) (phaseBPin e) (switchPin e) (lowerLimit e)
    (upperLimit e) (stepWidth e) (count e) (encoderStatus e) (switchStatus e)
    (timeout e) v (lastResult e).

Definition set_lastResult (e : RotaryEncoder) (v : Z) : RotaryEncoder :=
  mkRotaryEncoder (phaseAPin e) (phaseBPin e) (switchPin e) (lowerLimit e)
    (upperLimit e) (stepWidth e) (count e) (encoderStatus e) (switchStatus e)
    (timeout e) (timePressed e) v.

(** ** The transition table ([RotaryEncoder.cpp], lines 32-38)

    Column is status, row is input state. *)
Definition transition_table : list (list Z) :=
  (*  0   1   2   3   4   5   6 *)
  [ [ 0;  1;  2; -1;  4;  5; -2 ];   (* !a && !b *)
    [ 1;  1;  2;  3;  4;  6;  6 ];   (*  a && !b *)
    [ 4;  1;  3;  3;  4;  5;  6 ];   (* !a &&  b *)
    [ 0;  2;  2;  3;  5;  5;  6 ] ]. (*  a &&  b *)

(** [transition[row][col]].  An index outside the declared bounds
    [int[4][7]] is undefined behaviour in C++; the embedding answers [None]
    there. *)
Definition transition (row col : Z) : option Z :=
  if (row <? 0) || (col <? 0) then None
  else
    match nth_error transition_table (Z.to_nat row) with
    | Some r => nth_error r (Z.to_nat col)
    | None => None
    end.

(** ** Constructor, [begin], [end], [setSwitchTimeout] *)

Definition constructor (aPhaseAPin aPhaseBPin aSwitchPin : Z) : RotaryEncoder :=
  {| phaseAPin := aPhaseAPin;
     phaseBPin := aPhaseBPin;
     switchPin := aSwitchPin;
     lowerLimit := 0;
     upperLimit := 10;
     stepWidth := 1;
     count := 0;
     encoderStatus := 0;
     switchStatus := 0;
     timeout := 0;
     timePressed := 0;
     lastResult := St_None |}.

Definition begin (e : RotaryEncoder) : RotaryEncoder * list effect :=
  let fx := [PinMode (phaseAPin e); PinMode (phaseBPin e)] in
  let fx := if switchPin e >=? 0 then fx ++ [PinMode (switchPin e)] else fx in
  (set_switchStatus (set_encoderStatus e 0) 0, fx).

Definition end_ (e : RotaryEncoder) : RotaryEncoder := e.

Definition setSwitchTimeout (e : RotaryEncoder) (aTimeout : Z) : RotaryEncoder :=
  set_timeout e aTimeout.

(** ** [setCount], [getCount], [setRange] *)

Definition setCount (e : RotaryEncoder) (aCount : Z) : RotaryEncoder :=
  if (aCount >=? lowerLimit e) && (aCount <=? upperLimit e)
  then set_count e aCount
  else e.

Definition getCount (e : RotaryEncoder) : Z := count e.

Definition setRange (e : RotaryEncoder) (aLowerLimit aUpperLimit aStepWidth : Z)
  : RotaryEncoder :=
  let e := set_lowerLimit e aLowerLimit in
  let e := set_upperLimit e aUpperLimit in
  let e := set_stepWidth e aStepWidth in
  let e := if getCount e <? lowerLimit e then setCount e (lowerLimit e) else e in
  let e := if getCount e >? upperLimit e then setCount e (upperLimit e) else e in
  e.

Section Platform.

(** The widths of [int]/[unsigned int] and of [unsigned long] are fixed by
    the board (16 and 32 bits on the Arduino Uno, 32 and 32 bits on the
    ESP8266); the embedding is parametric in both. *)
Variable int_bits : positive.
Variable long_bits : positive.

Definition int_modulus : Z := 2 ^ Z.pos int_bits.
Definition INT_MAX : Z := int_modulus / 2 - 1.
Definition INT_MIN : Z := - (int_modulus / 2).
Definition long_modulus : Z := 2 ^ Z.pos long_bits.

(** Conversion of an [int] to [unsigned int], and back. *)
Definition to_unsigned (x : Z) : Z := x mod int_modulus.
Definition to_int (u : Z) : Z :=
  let u := u mod int_modulus in
  if u <=? INT_MAX then u else u - int_modulus.

(** [getCount() + stepWidth] and [getCount() - stepWidth]: the [int] is
    converted to [unsigned int], the operation wraps, and the result is
    converted to the [int] parameter of [setCount]. *)
Definition count_plus_step (e : RotaryEncoder) : Z :=
  to_int (to_unsigned (to_unsigned (getCount e) + stepWidth e)).
Definition count_minus_step (e : RotaryEncoder) : Z :=
  to_int (to_unsigned (to_unsigned (getCount e) - stepWidth e)).

(** [millis()]: the clock as an [unsigned long]. *)
Definition millis (i : Inputs) : Z := clock i mod long_modulus.

(** Subtraction on [unsigned long]. *)
Definition ulong_sub (x y : Z) : Z := (x - y) mod long_modulus.

(** ** [getStatus] ([RotaryEncoder.cpp], lines 135-214) *)

(** Lines 147-149. *)
Definition normalize (e : RotaryEncoder) : RotaryEncoder :=
  if encoderStatus e <? 0 then set_encoderStatus e 0 else e.

Definition lookup (row : Z) (e : RotaryEncoder) : option RotaryEncoder :=
  match transition row (encoderStatus e) with
  | Some n => Some (set_encoderStatus e n)
  | None => None
  end.

Definition when (c : bool) (f : RotaryEncoder -> option RotaryEncoder)
  (e : RotaryEncoder) : option RotaryEncoder :=
  if c then f e else Some e.

Definition bind {A B : Type} (m : option A) (f : A -> option B) : option B :=
  match m with
  | Some a => f a
  | None => None
  end.

(** Lines 151-165: four consecutive [if] statements. *)
Definition make_transition (a b : Z) (e : RotaryEncoder) : option RotaryEncoder :=
  bind (when ((a =? LOW) && (b =? LOW)) (lookup 0) e) (fun e =>
  bind (when ((a =? HIGH) && (b =? LOW)) (lookup 1) e) (fun e =>
  bind (when ((a =? LOW) && (b =? HIGH)) (lookup 2) e) (fun e =>
        when ((a =? HIGH) && (b =? HIGH)) (lookup 3) e))).

(** Lines 168-178: the [switch] on the new status. *)
Definition check_rotation (e : RotaryEncoder) : RotaryEncoder * Z :=
  if encoderStatus e =? -1 then (setCount e (count_plus_step e), Forward)
  else if encoderStatus e =? -2 then (setCount e (count_minus_step e), Reverse)
  else (e, St_None).

(** Lines 181-203: the switch. *)
Definition check_switch (s : Z) (i : Inputs) (e : RotaryEncoder) (result : Z)
  : RotaryEncoder * Z :=
  if negb (s =? switchStatus e) then
    let '(e, result) :=
      if s =? HIGH
      then (set_timePressed e (millis i), status_or result ButtonPressed)
      else (set_timePressed e 0, status_or result ButtonReleased) in
    (set_switchStatus e s, result)
  else if s =? HIGH then
    if negb (timePressed e =? 0) && negb (timeout e =? 0)
       && (ulong_sub (millis i) (timePressed e) >? timeout e)
    then (set_timePressed e 0, status_or result ButtonLongPressed)
    else (e, result)
  else (e, result).

(** Lines 207-213: the settling delay. *)
Definition settle (e : RotaryEncoder) (result : Z)
  : RotaryEncoder * Z * list effect :=
  let fx := if negb (result =? lastResult e) then [Delay 10] else [] in
  (set_lastResult e result, result, fx).

Definition getStatus (e : RotaryEncoder) (i : Inputs)
  : option (RotaryEncoder * Z * list effect) :=
  let a := digitalRead (sampleA i) in
  let b := digitalRead (sampleB i) in
  let s := if switchPin e >=? 0 then digitalRead (sampleS i) else LOW in
  bind (make_transition a b (normalize e)) (fun e =>
    let '(e, result) := check_rotation e in
    let '(e, result) := check_switch s i e result in
    Some (settle e result)).

(** ** [waitForStatus] ([RotaryEncoder.cpp], lines 220-229)

    The loop polls until a status other than [None] is produced.  It is run
    on the finite list of samples the board offers to the successive polls;
    when the list is used up before an event is seen the call has not
    returned yet. *)
Inductive waiting : Type :=
| Returned (e : RotaryEncoder) (s : Z)
| Polling (e : RotaryEncoder).

Fixpoint waitForStatus (e : RotaryEncoder) (samples : list Inputs)
  : option (waiting * list effect) :=
  match samples with
  | [] => Some (Polling e, [])
  | i :: rest =>
      match getStatus e i with
      | None => None
      | Some (e', s, fx) =>
          if s =? St_None then
            match waitForStatus e' rest with
            | Some (w, fx') => Some (w, fx ++ Yield :: fx')
            | None => None
            end
          else Some (Returned e' s, fx)
      end
  end.

(** ** Sequences of public operations *)

Inductive Op : Type :=
| OpBegin
| OpEnd
| OpSetSwitchTimeout (aTimeout : Z)
| OpSetRange (aLowerLimit aUpperLimit aStepWidth : Z)
| OpSetCount (aCount : Z)
| OpGetCount
| OpGetStatus (i : Inputs)
| OpWaitForStatus (samples : list Inputs).

(** [exec op e]: the object after the call, and whether the call has
    returned ([waitForStatus] is the only call that may still be polling). *)
Definition exec (op : Op) (e : RotaryEncoder) : option (RotaryEncoder * bool) :=
  match op with
  | OpBegin => Some (fst (begin e), true)
  | OpEnd => Some (end_ e, true)
  | OpSetSwitchTimeout t => Some (setSwitchTimeout e t, true)
  | OpSetRange l u s => Some (setRange e l u s, true)
  | OpSetCount v => Some (setCount e v, true)
  | OpGetCount => Some (e, true)
  | OpGetStatus i =>
      match getStatus e i with
      | Some (e', _, _) => Some (e', true)
      | None => None
      end
  | OpWaitForStatus samples =>
      match waitForStatus e samples with
      | Some (Returned e' _, _) => Some (e', true)
      | Some (Polling e', _) => Some (e', false)
      | None => None
      end
  end.

(** The calls of a program run one after the other; a call that has not
    returned keeps the rest of the program from running. *)
Fixpoint run (ops : list Op) (e : RotaryEncoder) : option RotaryEncoder :=
  match ops with
  | [] => Some e
  | op :: rest =>
      match exec op e with
      | Some (e', true) => run rest e'
      | Some (e', false) => Some e'
      | None => None
      end
  end.

(** [polls e l]: successive [getStatus] polls on the samples [l]; the
    object after the last poll, and the status and the effects of every
    poll. *)
Fixpoint polls (e : RotaryEncoder) (l : list Inputs)
  : option (RotaryEncoder * list (Z * list effect)) :=
  match l with
  | [] => Some (e, [])
  | i :: rest =>
      match getStatus e i with
      | Some (e', s, fx) =>
          match polls e' rest with
          | Some (e'', out) => Some (e'', (s, fx) :: out)
          | None => None
          end
      | None => None
      end
  end.

(** ** Helper notions used by the statements *)

(** The row of the table a pair of phase levels selects. *)
Definition input_index (a b : bool) : Z :=
  match a, b with
  | false, false => 0
  | true, false => 1
  | false, true => 2
  | true, true => 3
  end.

(** The counter lies inside the configured range. *)
Definition in_range (e : RotaryEncoder) : Prop :=
  lowerLimit e <= count e <= upperLimit e.

(** The stored quadrature status is an entry of the table or a state. *)
Definition status_ok (e : RotaryEncoder) : Prop :=
  -2 <= encoderStatus e <= 6.

(** A status a poll may return: at most one movement flag, at most one
    button flag. *)
Definition valid_status (r : Z) : Prop :=
  exists m k,
    r = status_or m k /\
    In m [St_None; Forward; Reverse] /\
    In k [St_None; ButtonPressed; ButtonLongPressed; ButtonReleased].

Definition range_ok (op : Op) : Prop :=
  match op with
  | OpSetRange l u _ => l <= u
  | _ => True
  end.

(** Number of polls whose status contains the flag [f]. *)
Definition count_flag (f : Z) (out : list (Z * list effect)) : nat :=
  length (filter (fun o => contains (fst o) f) out).

(** The part of [getStatus] that follows the table lookup (lines 167-213),
    for the switch level [s] read at the start of the poll. *)
Definition after_transition (s : Z) (i : Inputs) (e : RotaryEncoder)
  : RotaryEncoder * Z * list effect :=
  let '(e, result) := check_rotation e in
  let '(e, result) := check_switch s i e result in
  settle e result.

(** The switch level a poll works with (lines 136-144). *)
Definition switch_level (e : RotaryEncoder) (i : Inputs) : Z :=
  if switchPin e >=? 0 then digitalRead (sampleS i) else LOW.

(** The object a blocked or finished [waitForStatus] leaves behind. *)
Definition state_of (w : waiting) : RotaryEncoder :=
  match w with
  | Returned e _ => e
  | Polling e => e
  end.

(** No button flag in a status. *)
Definition no_button (r : Z) : Prop :=
  contains r ButtonPressed = false /\
  contains r ButtonLongPressed = false /\
  contains r ButtonReleased = false.

(** The pair of phase levels a poll reads. *)
Definition phases (i : Inputs) : bool * bool := (sampleA i, sampleB i).

(** One detent forward, and one detent in reverse, as pairs (A, B). *)
Definition forward_cycle : list (bool * bool) :=
  [(false, false); (true, false); (true, true); (false, true); (false, false)].
Definition reverse_cycle : list (bool * bool) :=
  [(false, false); (false, true); (true, true); (true, false); (false, false)].

(** A value an [int] can hold. *)
Definition in_int_range (x : Z) : Prop := INT_MIN <= x <= INT_MAX.

(** The condition of the long-press test (lines 194-198), for the switch
    level [s] of the poll. *)
Definition long_press_due (s : Z) (i : Inputs) (e : RotaryEncoder) : bool :=
  (s =? HIGH) && negb (timePressed e =? 0) && negb (timeout e =? 0)
  && (ulong_sub (millis i) (timePressed e) >? timeout e).

(** The switch is held down with the press time [t0] and the timeout [T]
    stored. *)
Definition pressed (e : RotaryEncoder) (t0 T : Z) : Prop :=
  encoderStatus e <= 6 /\ 0 <= switchPin e /\ switchStatus e = HIGH /\
  timePressed e = t0 /\ timeout e = T.

(** The long-press flag of every poll of a run. *)
Definition long_press_flags (out : list (Z * list effect)) : list bool :=
  map (fun o => contains (fst o) ButtonLongPressed) out.

(** The movement flag that goes with a freshly looked-up status. *)
Definition movement_of (n : Z) : Z :=
  if n =? -1 then Forward else if n =? -2 then Reverse else St_None.

(** The switch level the polls of an object see while the switch input is
    [s]. *)
Definition level_of (e : RotaryEncoder) (s : bool) : Z :=
  if switchPin e >=? 0 then digitalRead s else LOW.

(** The object is at rest for the phase levels [(a, b)] and the switch input
    [s]: the lookup returns the column it starts from, and the stored switch
    level is the one the polls see. *)
Definition steady (e : RotaryEncoder) (a b s : bool) : Prop :=
  encoderStatus e <= 6 /\
  transition (input_index a b) (encoderStatus (normalize e)) =
    Some (encoderStatus (normalize e)) /\
  switchStatus e = level_of e s.

(** No long press can become due: the switch is not held, or no timeout is
    configured, or the press time is cleared. *)
Definition no_long_press_pending (e : RotaryEncoder) (s : bool) : Prop :=
  level_of e s <> HIGH \/ timeout e = 0 \/ timePressed e = 0.

(** Every poll of a run performs the settling delay exactly when its status
    differs from the status of the poll before it ([prev] for the first). *)
Fixpoint delays_follow (prev : Z) (out : list (Z * list effect)) : Prop :=
  match out with
  | [] => True
  | (r, fx) :: out' =>
      fx = (if negb (r =? prev) then [Delay 10] else []) /\
      delays_follow r out'
  end.

(** The polls of [l] all read the phase levels [p]. *)
Definition dwell (p : bool * bool) (l : list Inputs) : Prop :=
  Forall (fun j => phases j = p) l.

(** [e'] has the counter, the limits and the step of [e]. *)
Definition same_counter (e e' : RotaryEncoder) : Prop :=
  lowerLimit e' = lowerLimit e /\ upperLimit e' = upperLimit e /\
  stepWidth e' = stepWidth e /\ count e' = count e.

(** The effects of a [waitForStatus] call whose polls before the last one
    produced [out]: every such poll is followed by one [yield()]. *)
Definition yielding (out : list (Z * list effect)) : list effect :=
  flat_map (fun o => snd o ++ [Yield]) out.

(** An operation other than [setRange]. *)
Definition no_setRange (op : Op) : Prop :=
  match op with
  | OpSetRange _ _ _ => False
  | _ => True
  end.


(** ** Boards and sample runs used by the examples *)

(** The Arduino Uno: 16-bit [int], 32-bit [unsigned long]. *)
Definition uno_int_bits : positive := 16.
Definition uno_long_bits : positive := 32.

(** One detent forward and one in reverse, switch input low, one poll per
    millisecond. *)
Definition forward_samples : list Inputs :=
  [ mkInputs false false false 0; mkInputs true false false 1;
    mkInputs true true false 2; mkInputs false true false 3;
    mkInputs false false false 4 ].
Definition reverse_samples : list Inputs :=
  [ mkInputs false false false 0; mkInputs false true false 1;
    mkInputs true true false 2; mkInputs true false false 3;
    mkInputs false false false 4 ].

(** The knob at rest with the switch held down, polled at time [t]. *)
Definition held_at (t : Z) : Inputs := mkInputs false false true t.

(** The knob at rest with the switch released, polled at time [t]. *)
Definition idle_at (t : Z) : Inputs := mkInputs false false false t.

(** * Properties *)

(** ** The counter: [setCount] and [setRange] *)

Ltac bool_to_prop :=
  repeat match goal with
    | H : _ && _ = true |- _ => apply andb_true_iff in H; destruct H
    | H : _ && _ = false |- _ => apply andb_false_iff in H
    | H : _ || _ = true |- _ => apply orb_true_iff in H
    | H : _ || _ = false |- _ => apply orb_false_iff in H; destruct H
    | H : negb _ = true |- _ => apply negb_true_iff in H
    | H : negb _ = false |- _ => apply negb_false_iff in H
    | H : (_ <? _) = true |- _ => apply Z.ltb_lt in H
    | H : (_ <? _) = false |- _ => apply Z.ltb_ge in H
    | H : (_ <=? _) = true |- _ => apply Z.leb_le in H
    | H : (_ <=? _) = false |- _ => apply Z.leb_gt in H
    | H : (_ >? _) = true |- _ => rewrite Z.gtb_ltb in H
    | H : (_ >? _) = false |- _ => rewrite Z.gtb_ltb in H
    | H : (_ >=? _) = true |- _ => rewrite Z.geb_leb in H
    | H : (_ >=? _) = false |- _ => rewrite Z.geb_leb in H
    | H : (_ =? _) = true |- _ => apply Z.eqb_eq in H
    | H : (_ =? _) = false |- _ => apply Z.eqb_neq in H
    end.

Lemma setCount_accepts (e : RotaryEncoder) (v : Z) :
  lowerLimit e <= v <= upperLimit e -> setCount e v = set_count e v.
Proof.
  intros [Hl Hu]. unfold setCount.
  rewrite Z.geb_leb.
  apply Z.leb_le in Hl, Hu. now rewrite Hl, Hu.
Qed.

Lemma setCount_rejects (e : RotaryEncoder) (v : Z) :
  v < lowerLimit e \/ v > upperLimit e -> setCount e v = e.
Proof.
  intros H. unfold setCount. rewrite Z.geb_leb.
  destruct (lowerLimit e <=? v) eqn:E1; [|reflexivity].
  destruct (v <=? upperLimit e) eqn:E2; [|reflexivity].
  bool_to_prop. lia.
Qed.

Lemma setCount_fields (e : RotaryEncoder) (v : Z) :
  lowerLimit (setCount e v) = lowerLimit e /\
  upperLimit (setCount e v) = upperLimit e /\
  stepWidth (setCount e v) = stepWidth e /\
  encoderStatus (setCount e v) = encoderStatus e /\
  switchStatus (setCount e v) = switchStatus e /\
  switchPin (setCount e v) = switchPin e /\
  timeout (setCount e v) = timeout e /\
  timePressed (setCount e v) = timePressed e /\
  lastResult (setCount e v) = lastResult e /\
  phaseAPin (setCount e v) = phaseAPin e /\
  phaseBPin (setCount e v) = phaseBPin e.
Proof.
  unfold setCount.
  destruct ((v >=? lowerLimit e) && (v <=? upperLimit e)); simpl; tauto.
Qed.

Lemma setCount_in_range (e : RotaryEncoder) (v : Z) :
  in_range e -> in_range (setCount e v).
Proof.
  unfold in_range, setCount. intros H.
  destruct ((v >=? lowerLimit e) && (v <=? upperLimit e)) eqn:E; simpl; [|exact H].
  bool_to_prop. lia.
Qed.

(** C5. [setCount(v)] leaves the whole object unchanged when [v] is below
    [lowerLimit] or above [upperLimit]; when [v] lies inside the range it
    stores exactly [v] in the counter and changes no other member.  The call
    yields nothing but the object: the caller gets no signal. *)
Theorem C5_setCount_rejects_or_stores (e : RotaryEncoder) (v : Z) :
  (v < lowerLimit e \/ v > upperLimit e -> setCount e v = e) /\
  (lowerLimit e <= v <= upperLimit e ->
   setCount e v =
   {| phaseAPin := phaseAPin e;
      phaseBPin := phaseBPin e;
      switchPin := switchPin e;
      lowerLimit := lowerLimit e;
      upperLimit := upperLimit e;
      stepWidth := stepWidth e;
      count := v;
      encoderStatus := encoderStatus e;
      switchStatus := switchStatus e;
      timeout := timeout e;
      timePressed := timePressed e;
      lastResult := lastResult e |}).
Proof.
  split.
  - apply setCount_rejects.
  - intros H. now rewrite setCount_accepts.
Qed.

Lemma setRange_unfold (e : RotaryEncoder) (l u s : Z) :
  setRange e l u s =
  let e1 := set_stepWidth (set_upperLimit (set_lowerLimit e l) u) s in
  let e2 := if count e1 <? l then setCount e1 l else e1 in
  if count e2 >? upperLimit e2 then setCount e2 (upperLimit e2) else e2.
Proof. reflexivity. Qed.

Lemma configured_fields (e : RotaryEncoder) (l u s : Z) :
  set_stepWidth (set_upperLimit (set_lowerLimit e l) u) s =
  {| phaseAPin := phaseAPin e;
     phaseBPin := phaseBPin e;
     switchPin := switchPin e;
     lowerLimit := l;
     upperLimit := u;
     stepWidth := s;
     count := count e;
     encoderStatus := encoderStatus e;
     switchStatus := switchStatus e;
     timeout := timeout e;
     timePressed := timePressed e;
     lastResult := lastResult e |}.
Proof. reflexivity. Qed.

(** [setRange] with ordered limits: the limits and the step are stored and
    the counter is clamped. *)
Lemma setRange_ordered (e : RotaryEncoder) (l u s : Z) :
  l <= u ->
  setRange e l u s =
  {| phaseAPin := phaseAPin e;
     phaseBPin := phaseBPin e;
     switchPin := switchPin e;
     lowerLimit := l;
     upperLimit := u;
     stepWidth := s;
     count := Z.max l (Z.min u (count e));
     encoderStatus := encoderStatus e;
     switchStatus := switchStatus e;
     timeout := timeout e;
     timePressed := timePressed e;
     lastResult := lastResult e |}.
Proof.
  intros Hlu. rewrite setRange_unfold, configured_fields. cbv zeta.
  cbn [count].
  destruct (count e <? l) eqn:E1; bool_to_prop.
  - rewrite setCount_accepts by (cbn; lia).
    unfold set_count. cbn.
    replace (l >? u) with false by (symmetry; rewrite Z.gtb_ltb; apply Z.ltb_ge; lia).
    f_equal. lia.
  - cbn.
    destruct (count e >? u) eqn:E2; bool_to_prop.
    + rewrite setCount_accepts by (cbn; lia).
      unfold set_count. cbn. f_equal. lia.
    + f_equal. lia.
Qed.

(** [setRange] with inverted limits: the limits and the step are stored and
    both reclamping calls are rejected. *)
Lemma setRange_inverted (e : RotaryEncoder) (l u s : Z) :
  l > u ->
  setRange e l u s =
  {| phaseAPin := phaseAPin e;
     phaseBPin := phaseBPin e;
     switchPin := switchPin e;
     lowerLimit := l;
     upperLimit := u;
     stepWidth := s;
     count := count e;
     encoderStatus := encoderStatus e;
     switchStatus := switchStatus e;
     timeout := timeout e;
     timePressed := timePressed e;
     lastResult := lastResult e |}.
Proof.
  intros Hlu. rewrite setRange_unfold, configured_fields. cbv zeta.
  cbn [count].
  destruct (count e <? l) eqn:E1.
  - rewrite setCount_rejects by (cbn; lia). cbn.
    destruct (count e >? u) eqn:E2; [|reflexivity].
    rewrite setCount_rejects by (cbn; lia). reflexivity.
  - cbn.
    destruct (count e >? u) eqn:E2; [|reflexivity].
    rewrite setCount_rejects by (cbn; lia). reflexivity.
Qed.

(** C6. After [setRange(l, u, s)] with [l <= u] the limits are [l] and [u],
    the step width is [s], and the counter is the old counter clamped into
    [l..u]: [l] when it was below [l], [u] when it was above [u], unchanged
    otherwise.  No other member changes. *)
Theorem C6_setRange_reclamps (e : RotaryEncoder) (l u s : Z) :
  l <= u ->
  lowerLimit (setRange e l u s) = l /\
  upperLimit (setRange e l u s) = u /\
  stepWidth (setRange e l u s) = s /\
  (count e < l -> count (setRange e l u s) = l) /\
  (count e > u -> count (setRange e l u s) = u) /\
  (l <= count e <= u -> count (setRange e l u s) = count e) /\
  phaseAPin (setRange e l u s) = phaseAPin e /\
  phaseBPin (setRange e l u s) = phaseBPin e /\
  switchPin (setRange e l u s) = switchPin e /\
  encoderStatus (setRange e l u s) = encoderStatus e /\
  switchStatus (setRange e l u s) = switchStatus e /\
  timeout (setRange e l u s) = timeout e /\
  timePressed (setRange e l u s) = timePressed e /\
  lastResult (setRange e l u s) = lastResult e.
Proof.
  intros Hlu. rewrite (setRange_ordered e l u s Hlu). cbn.
  repeat split; try reflexivity; intros; lia.
Qed.

(** C9. After [setRange(l, u, s)] with [l > u] the limits and the step width
    are updated and the counter keeps its old value, whatever that value is:
    both reclamping calls of [setCount] are rejected.  No other member
    changes. *)
Theorem C9_setRange_inverted_keeps_count (e : RotaryEncoder) (l u s : Z) :
  l > u ->
  lowerLimit (setRange e l u s) = l /\
  upperLimit (setRange e l u s) = u /\
  stepWidth (setRange e l u s) = s /\
  count (setRange e l u s) = count e /\
  setRange e l u s =
  set_stepWidth (set_upperLimit (set_lowerLimit e l) u) s.
Proof.
  intros Hlu. rewrite (setRange_inverted e l u s Hlu), configured_fields. cbn.
  repeat split; reflexivity.
Qed.

(** ** One poll *)

Lemma transition_entries (row col n : Z) :
  transition row col = Some n -> -2 <= n <= 6 /\ 0 <= row <= 3 /\ 0 <= col <= 6.
Proof.
  unfold transition. intros H.
  destruct ((row <? 0) || (col <? 0)) eqn:E; [discriminate|].
  bool_to_prop.
  assert (Hr : row = 0 \/ row = 1 \/ row = 2 \/ row = 3 \/ 4 <= row) by lia.
  assert (Hc : col = 0 \/ col = 1 \/ col = 2 \/ col = 3 \/ col = 4 \/
               col = 5 \/ col = 6 \/ 7 <= col) by lia.
  assert (Hbig : forall (A : Type) (l : list A) (k : Z),
             Z.of_nat (length l) <= k -> nth_error l (Z.to_nat k) = None).
  { intros A l k Hk. apply nth_error_None. lia. }
  destruct Hr as [-> | [-> | [-> | [-> | Hr]]]];
    try (rewrite Hbig in H by (simpl; lia); discriminate);
    simpl in H;
    (destruct Hc as [-> | [-> | [-> | [-> | [-> | [-> | [-> | Hc]]]]]]];
     [ simpl in H; inversion H; lia .. | ]);
    rewrite Hbig in H by (simpl; lia); discriminate.
Qed.

Lemma transition_defined (row col : Z) :
  0 <= row <= 3 -> 0 <= col <= 6 -> exists n, transition row col = Some n.
Proof.
  intros Hr Hc.
  assert (Hr' : row = 0 \/ row = 1 \/ row = 2 \/ row = 3) by lia.
  assert (Hc' : col = 0 \/ col = 1 \/ col = 2 \/ col = 3 \/ col = 4 \/
                col = 5 \/ col = 6) by lia.
  destruct Hr' as [-> | [-> | [-> | ->]]];
    destruct Hc' as [-> | [-> | [-> | [-> | [-> | [-> | ->]]]]]];
    eexists; reflexivity.
Qed.

Lemma input_index_bounds (a b : bool) : 0 <= input_index a b <= 3.
Proof. destruct a, b; simpl; lia. Qed.

Lemma normalize_status (e : RotaryEncoder) :
  0 <= encoderStatus (normalize e) /\
  (0 <= encoderStatus e -> normalize e = e) /\
  (encoderStatus e < 0 -> normalize e = set_encoderStatus e 0).
Proof.
  unfold normalize. destruct (encoderStatus e <? 0) eqn:E; bool_to_prop; simpl;
    repeat split; intros; try lia; reflexivity.
Qed.

(** The four consecutive [if] statements perform exactly one lookup, in the
    row the two levels select. *)
Lemma make_transition_lookup (a b : bool) (e : RotaryEncoder) :
  make_transition (digitalRead a) (digitalRead b) e = lookup (input_index a b) e.
Proof.
  unfold make_transition.
  destruct a, b; simpl; unfold when; simpl; destruct (lookup _ e); reflexivity.
Qed.

Lemma getStatus_eq (e : RotaryEncoder) (i : Inputs) :
  getStatus e i =
  match transition (input_index (sampleA i) (sampleB i))
          (encoderStatus (normalize e)) with
  | Some n =>
      Some (after_transition (switch_level e i) i
              (set_encoderStatus (normalize e) n))
  | None => None
  end.
Proof.
  unfold getStatus. rewrite make_transition_lookup. unfold lookup.
  destruct (transition _ _); simpl; [|reflexivity].
  unfold after_transition, switch_level.
  destruct (check_rotation _) as [e1 r1].
  destruct (check_switch _ _ _ _) as [e2 r2]. reflexivity.
Qed.

(** A poll is defined exactly when the stored status is at most 6. *)
Lemma getStatus_defined (e : RotaryEncoder) (i : Inputs) :
  encoderStatus e <= 6 ->
  exists e' r fx, getStatus e i = Some (e', r, fx).
Proof.
  intros H. rewrite getStatus_eq.
  destruct (normalize_status e) as (H0 & H1 & H2).
  assert (Hc : 0 <= encoderStatus (normalize e) <= 6).
  { split; [exact H0|].
    destruct (Z_lt_le_dec (encoderStatus e) 0) as [Hn|Hn].
    - rewrite (H2 Hn). simpl. lia.
    - rewrite (H1 Hn). exact H. }
  destruct (transition_defined _ _ (input_index_bounds (sampleA i) (sampleB i)) Hc)
    as [n Hn].
  rewrite Hn.
  destruct (after_transition _ _ _) as [[e' r] fx]. eauto.
Qed.

Lemma check_rotation_spec (e : RotaryEncoder) :
  (encoderStatus e = -1 /\
   check_rotation e = (setCount e (count_plus_step e), Forward)) \/
  (encoderStatus e = -2 /\
   check_rotation e = (setCount e (count_minus_step e), Reverse)) \/
  (encoderStatus e <> -1 /\ encoderStatus e <> -2 /\
   check_rotation e = (e, St_None)).
Proof.
  unfold check_rotation.
  destruct (encoderStatus e =? -1) eqn:E1; bool_to_prop; [left; auto|].
  destruct (encoderStatus e =? -2) eqn:E2; bool_to_prop; [right; left; auto|].
  right; right; auto.
Qed.

(** What the switch block leaves alone. *)
Lemma check_switch_frame (s : Z) (i : Inputs) (e : RotaryEncoder) (m : Z) :
  let e' := fst (check_switch s i e m) in
  phaseAPin e' = phaseAPin e /\ phaseBPin e' = phaseBPin e /\
  switchPin e' = switchPin e /\ lowerLimit e' = lowerLimit e /\
  upperLimit e' = upperLimit e /\ stepWidth e' = stepWidth e /\
  count e' = count e /\ encoderStatus e' = encoderStatus e /\
  timeout e' = timeout e /\ lastResult e' = lastResult e /\
  switchStatus e' = s.
Proof.
  unfold check_switch.
  destruct (negb (s =? switchStatus e)) eqn:E0.
  - destruct (s =? HIGH); simpl; tauto.
  - bool_to_prop.
    destruct (s =? HIGH); [|simpl; repeat split; congruence].
    destruct (_ && _); simpl; repeat split; congruence.
Qed.

(** The flag the switch block adds. *)
Lemma check_switch_flag (s : Z) (i : Inputs) (e : RotaryEncoder) (m : Z) :
  exists k,
    snd (check_switch s i e m) = status_or m k /\
    In k [St_None; ButtonPressed; ButtonLongPressed; ButtonReleased] /\
    (s = switchStatus e -> s <> HIGH -> k = St_None).
Proof.
  unfold check_switch.
  destruct (negb (s =? switchStatus e)) eqn:E0; bool_to_prop.
  - destruct (s =? HIGH); simpl.
    + exists ButtonPressed. simpl. intuition congruence.
    + exists ButtonReleased. simpl. intuition congruence.
  - destruct (s =? HIGH) eqn:E1; bool_to_prop.
    + destruct (_ && _); simpl.
      * exists ButtonLongPressed. simpl. intuition congruence.
      * exists St_None. unfold status_or. rewrite Z.lor_0_r. simpl. intuition.
    + exists St_None. unfold status_or. rewrite Z.lor_0_r. simpl. intuition.
Qed.

Lemma movement_cases (m k : Z) :
  In m [St_None; Forward; Reverse] ->
  In k [St_None; ButtonPressed; ButtonLongPressed; ButtonReleased] ->
  contains (status_or m k) Forward = (m =? Forward) /\
  contains (status_or m k) Reverse = (m =? Reverse) /\
  contains (status_or m k) ButtonPressed = (k =? ButtonPressed) /\
  contains (status_or m k) ButtonLongPressed = (k =? ButtonLongPressed) /\
  contains (status_or m k) ButtonReleased = (k =? ButtonReleased) /\
  (status_or m k = St_None <-> m = St_None /\ k = St_None).
Proof.
  simpl. intros Hm Hk.
  destruct Hm as [<- | [<- | [<- | []]]];
    destruct Hk as [<- | [<- | [<- | [<- | []]]]]; vm_compute;
    repeat split; try reflexivity; intros; try discriminate;
    match goal with H : _ /\ _ |- _ => destruct H; discriminate end.
Qed.

(** Everything one poll does, member by member. *)
Lemma getStatus_inv (e : RotaryEncoder) (i : Inputs)
      (e' : RotaryEncoder) (r : Z) (fx : list effect) :
  getStatus e i = Some (e', r, fx) ->
  exists n m k,
    transition (input_index (sampleA i) (sampleB i))
      (encoderStatus (normalize e)) = Some n /\
    encoderStatus e' = n /\
    phaseAPin e' = phaseAPin e /\ phaseBPin e' = phaseBPin e /\
    switchPin e' = switchPin e /\ lowerLimit e' = lowerLimit e /\
    upperLimit e' = upperLimit e /\ stepWidth e' = stepWidth e /\
    timeout e' = timeout e /\
    switchStatus e' = switch_level e i /\
    lastResult e' = r /\
    fx = (if negb (r =? lastResult e) then [Delay 10] else []) /\
    r = status_or m k /\
    In k [St_None; ButtonPressed; ButtonLongPressed; ButtonReleased] /\
    (switch_level e i = switchStatus e -> switch_level e i <> HIGH ->
     k = St_None) /\
    ((n = -1 /\ m = Forward /\
      count e' = count (setCount e (count_plus_step e))) \/
     (n = -2 /\ m = Reverse /\
      count e' = count (setCount e (count_minus_step e))) \/
     (n <> -1 /\ n <> -2 /\ m = St_None /\ count e' = count e)).
Proof.
  rewrite getStatus_eq.
  destruct (transition _ _) as [n|] eqn:Hn; [|discriminate].
  unfold after_transition.
  set (e1 := set_encoderStatus (normalize e) n).
  assert (Hnorm : phaseAPin e1 = phaseAPin e /\ phaseBPin e1 = phaseBPin e /\
                  switchPin e1 = switchPin e /\ lowerLimit e1 = lowerLimit e /\
                  upperLimit e1 = upperLimit e /\ stepWidth e1 = stepWidth e /\
                  count e1 = count e /\ timeout e1 = timeout e /\
                  switchStatus e1 = switchStatus e /\
                  lastResult e1 = lastResult e /\ encoderStatus e1 = n).
  { unfold e1, normalize. destruct (encoderStatus e <? 0); simpl; tauto. }
  destruct Hnorm as (N1 & N2 & N3 & N4 & N5 & N6 & N7 & N8 & N9 & N10 & N11).
  assert (Hplus : count_plus_step e1 = count_plus_step e)
    by (unfold count_plus_step, getCount; now rewrite N7, N6).
  assert (Hminus : count_minus_step e1 = count_minus_step e)
    by (unfold count_minus_step, getCount; now rewrite N7, N6).
  assert (Hset : forall v, count (setCount e1 v) = count (setCount e v)).
  { intros v. unfold setCount. rewrite N4, N5.
    destruct (_ && _); simpl; auto. }
  clearbody e1.
  destruct (check_rotation e1) as [e2 m] eqn:Hrot.
  pose proof (check_switch_frame (switch_level e i) i e2 m) as Hfr.
  pose proof (check_switch_flag (switch_level e i) i e2 m) as (k & Hk1 & Hk2 & Hk3).
  destruct (check_switch (switch_level e i) i e2 m) as [e3 r3] eqn:Hsw.
  simpl in Hfr, Hk1.
  destruct Hfr as (F1 & F2 & F3 & F4 & F5 & F6 & F7 & F8 & F9 & F10 & F11).
  unfold settle. intros H. inversion H; subst e' r fx; clear H. simpl.
  assert (Hframe2 : phaseAPin e2 = phaseAPin e1 /\ phaseBPin e2 = phaseBPin e1 /\
                    switchPin e2 = switchPin e1 /\ lowerLimit e2 = lowerLimit e1 /\
                    upperLimit e2 = upperLimit e1 /\ stepWidth e2 = stepWidth e1 /\
                    encoderStatus e2 = encoderStatus e1 /\
                    switchStatus e2 = switchStatus e1 /\
                    timeout e2 = timeout e1 /\ lastResult e2 = lastResult e1).
  { destruct (check_rotation_spec e1) as [[_ Hc] | [[_ Hc] | (_ & _ & Hc)]];
      rewrite Hc in Hrot; inversion Hrot; subst;
      try (pose proof (setCount_fields e1 (count_plus_step e1)));
      try (pose proof (setCount_fields e1 (count_minus_step e1)));
      intuition congruence. }
  destruct Hframe2 as (G1 & G2 & G3 & G4 & G5 & G6 & G7 & G8 & G9 & G10).
  exists n, m, k.
  repeat match goal with |- _ /\ _ => split end; try congruence.
  - rewrite F10, G10, N10. reflexivity.
  - exact Hk2.
  - intros Ha Hb. apply Hk3; congruence.
  - destruct (check_rotation_spec e1) as [[Hs Hc] | [[Hs Hc] | (Hs1 & Hs2 & Hc)]];
      rewrite Hc in Hrot; inversion Hrot; subst e2 m.
    + left. repeat split; try congruence;
        try (rewrite F7, <- Hplus; apply Hset).
    + right; left. repeat split; try congruence;
        try (rewrite F7, <- Hminus; apply Hset).
    + right; right. repeat split; congruence.
Qed.

Lemma getStatus_status_ok (e : RotaryEncoder) (i : Inputs)
      (e' : RotaryEncoder) (r : Z) (fx : list effect) :
  getStatus e i = Some (e', r, fx) -> status_ok e'.
Proof.
  intros H. apply getStatus_inv in H.
  destruct H as (n & m & k & Hn & Hes & _).
  apply transition_entries in Hn. unfold status_ok. lia.
Qed.

Lemma getStatus_in_range (e : RotaryEncoder) (i : Inputs)
      (e' : RotaryEncoder) (r : Z) (fx : list effect) :
  getStatus e i = Some (e', r, fx) -> in_range e -> in_range e'.
Proof.
  intros H Hin. apply getStatus_inv in H.
  destruct H as (n & m & k & _ & _ & _ & _ & _ & Hlo & Hup & _ & _ & _ & _ & _
                 & _ & _ & _ & Hc).
  unfold in_range. rewrite Hlo, Hup.
  destruct Hc as [(_ & _ & Hc) | [(_ & _ & Hc) | (_ & _ & _ & Hc)]]; rewrite Hc.
  - pose proof (setCount_in_range e (count_plus_step e) Hin) as H'.
    pose proof (setCount_fields e (count_plus_step e)) as (F1 & F2 & _).
    unfold in_range in H'. now rewrite F1, F2 in H'.
  - pose proof (setCount_in_range e (count_minus_step e) Hin) as H'.
    pose proof (setCount_fields e (count_minus_step e)) as (F1 & F2 & _).
    unfold in_range in H'. now rewrite F1, F2 in H'.
  - exact Hin.
Qed.

Lemma getStatus_valid_status (e : RotaryEncoder) (i : Inputs)
      (e' : RotaryEncoder) (r : Z) (fx : list effect) :
  getStatus e i = Some (e', r, fx) -> valid_status r.
Proof.
  intros H. apply getStatus_inv in H.
  destruct H as (n & m & k & _ & _ & _ & _ & _ & _ & _ & _ & _ & _ & _ & _
                 & Hr & Hk & _ & Hc).
  exists m, k. repeat split; auto.
  destruct Hc as [(_ & -> & _) | [(_ & -> & _) | (_ & _ & -> & _)]]; simpl; auto.
Qed.

(** ** Invariants along a program

    A property of the object that bounds the stored status by 6, and that
    every member function preserves, holds after every program; and no poll
    of such a program reads outside the table. *)
Section Invariant.

Variable P : RotaryEncoder -> Prop.
Variable Q : Op -> Prop.
Variable R : Z -> Prop.

Hypothesis P_status : forall e, P e -> encoderStatus e <= 6.
Hypothesis P_getStatus :
  forall e i e' r fx, P e -> getStatus e i = Some (e', r, fx) -> P e' /\ R r.
Hypothesis P_begin : forall e, P e -> P (fst (begin e)).
Hypothesis P_setSwitchTimeout : forall e t, P e -> P (setSwitchTimeout e t).
Hypothesis P_setRange :
  forall e l u s, Q (OpSetRange l u s) -> P e -> P (setRange e l u s).
Hypothesis P_setCount : forall e v, P e -> P (setCount e v).

Lemma waitForStatus_invariant (samples : list Inputs) (e : RotaryEncoder) :
  P e ->
  exists w fx,
    waitForStatus e samples = Some (w, fx) /\ P (state_of w) /\
    match w with
    | Returned _ r => R r /\ r <> St_None
    | Polling _ => True
    end.
Proof.
  revert e. induction samples as [|i rest IH]; intros e HP; simpl.
  - exists (Polling e), []. auto.
  - destruct (getStatus_defined e i (P_status e HP)) as (e' & r & fx & Hg).
    rewrite Hg. destruct (P_getStatus _ _ _ _ _ HP Hg) as [HP' HR].
    destruct (r =? St_None) eqn:E.
    + destruct (IH e' HP') as (w & fx' & Hw & Hs & Hm).
      rewrite Hw. eauto.
    + exists (Returned e' r), fx. bool_to_prop. simpl. auto.
Qed.

Lemma exec_invariant (op : Op) (e : RotaryEncoder) :
  Q op -> P e -> exists e' b, exec op e = Some (e', b) /\ P e'.
Proof.
  intros HQ HP.
  destruct op as [| | t | l u s | v | | i | samples]; cbn [exec]; unfold end_;
    eauto.
  - destruct (getStatus_defined e i (P_status e HP)) as (e' & r & fx & Hg).
    rewrite Hg. destruct (P_getStatus _ _ _ _ _ HP Hg). eauto.
  - destruct (waitForStatus_invariant samples e HP) as (w & fx & Hw & Hs & _).
    rewrite Hw. destruct w; simpl in Hs; eauto.
Qed.

Lemma run_invariant (ops : list Op) (e : RotaryEncoder) :
  Forall Q ops -> P e -> exists e', run ops e = Some e' /\ P e'.
Proof.
  intros HQ. revert e. induction HQ as [|op rest Hop Hrest IH]; intros e HP; simpl.
  - eauto.
  - destruct (exec_invariant op e Hop HP) as (e' & b & He & HP').
    rewrite He. destruct b; eauto.
Qed.

End Invariant.

Lemma setRange_in_range (e : RotaryEncoder) (l u s : Z) :
  l <= u -> in_range (setRange e l u s).
Proof.
  intros Hlu. rewrite (setRange_ordered e l u s Hlu). unfold in_range. cbn. lia.
Qed.

Lemma setRange_status (e : RotaryEncoder) (l u s : Z) :
  encoderStatus (setRange e l u s) = encoderStatus e /\
  switchPin (setRange e l u s) = switchPin e /\
  switchStatus (setRange e l u s) = switchStatus e.
Proof.
  destruct (Z_le_gt_dec l u) as [H|H].
  - rewrite (setRange_ordered e l u s H). cbn. auto.
  - rewrite (setRange_inverted e l u s H). cbn. auto.
Qed.

(** C4. From construction (counter 0, range 0..10) and along every program
    whose [setRange] calls all have [lowerLimit <= upperLimit], the counter
    lies between the limits after every operation of the program: each
    prefix of the program runs without reading outside the table and ends in
    such an object. *)
Theorem C4_count_within_limits
        (aPhaseAPin aPhaseBPin aSwitchPin : Z) (ops : list Op) (n : nat) :
  Forall range_ok ops ->
  exists e,
    run (firstn n ops) (constructor aPhaseAPin aPhaseBPin aSwitchPin) = Some e /\
    lowerLimit e <= count e <= upperLimit e.
Proof.
  intros Hops.
  assert (Hpre : Forall range_ok (firstn n ops)).
  { rewrite <- (firstn_skipn n ops) in Hops.
    apply Forall_app in Hops. tauto. }
  destruct (run_invariant (fun e => status_ok e /\ in_range e) range_ok
              (fun _ => True)) with (ops := firstn n ops)
    (e := constructor aPhaseAPin aPhaseBPin aSwitchPin) as (e & He & _ & Hin).
  - unfold status_ok. intros e [H _]. lia.
  - intros e i e' r fx [_ Hin] Hg. split; [split|exact I].
    + eapply getStatus_status_ok; eauto.
    + eapply getStatus_in_range; eauto.
  - intros e [_ Hin]. unfold status_ok, in_range in *. simpl. split; [lia|exact Hin].
  - intros e t HP. exact HP.
  - intros e l u s Hlu [Hst _]. split.
    + unfold status_ok in *. destruct (setRange_status e l u s) as (-> & _). exact Hst.
    + apply setRange_in_range. exact Hlu.
  - intros e v [Hst Hin]. split.
    + unfold status_ok in *.
      destruct (setCount_fields e v) as (_ & _ & _ & -> & _). exact Hst.
    + apply setCount_in_range. exact Hin.
  - exact Hpre.
  - unfold status_ok, in_range. simpl. lia.
  - exists e. auto.
Qed.

(** ** The stored quadrature status *)

Lemma table_entries_bounded :
  Forall (Forall (fun n => -2 <= n <= 6)) transition_table.
Proof. unfold transition_table. repeat constructor; lia. Qed.

Lemma status_ok_index (e : RotaryEncoder) :
  status_ok e -> 0 <= encoderStatus (normalize e) <= 6.
Proof.
  unfold status_ok, normalize. intros H.
  destruct (encoderStatus e <? 0) eqn:E; bool_to_prop; simpl; lia.
Qed.

(** C10. Every entry of the table lies in -2..6.  From construction, every
    program runs without an undefined lookup and leaves a stored status in
    -2..6; the index the next poll uses after the reset of negative values
    lies in 0..6, so that poll is defined as well and again stores a status
    in -2..6. *)
Theorem C10_status_stays_in_table
        (aPhaseAPin aPhaseBPin aSwitchPin : Z) (ops : list Op) (i : Inputs) :
  Forall (Forall (fun n => -2 <= n <= 6)) transition_table /\
  exists e e' r fx,
    run ops (constructor aPhaseAPin aPhaseBPin aSwitchPin) = Some e /\
    -2 <= encoderStatus e <= 6 /\
    0 <= encoderStatus (normalize e) <= 6 /\
    getStatus e i = Some (e', r, fx) /\
    -2 <= encoderStatus e' <= 6.
Proof.
  split; [exact table_entries_bounded|].
  destruct (run_invariant status_ok (fun _ => True) (fun _ => True))
    with (ops := ops) (e := constructor aPhaseAPin aPhaseBPin aSwitchPin)
    as (e & He & Hst).
  - unfold status_ok. intros; lia.
  - intros e i0 e' r fx _ Hg. split; [|exact I].
    eapply getStatus_status_ok; eauto.
  - intros e _. unfold status_ok. simpl. lia.
  - intros e t H. exact H.
  - intros e l u s _ H. unfold status_ok in *.
    destruct (setRange_status e l u s) as (-> & _). exact H.
  - intros e v H. unfold status_ok in *.
    destruct (setCount_fields e v) as (_ & _ & _ & -> & _). exact H.
  - apply Forall_forall. intros; exact I.
  - unfold status_ok. simpl. lia.
  - assert (H6 : encoderStatus e <= 6) by (unfold status_ok in Hst; lia).
    destruct (getStatus_defined e i H6) as (e' & r & fx & Hg).
    exists e, e', r, fx. repeat split; try (unfold status_ok in Hst; lia);
      try apply (status_ok_index e Hst); try exact He; try exact Hg;
      apply (getStatus_status_ok _ _ _ _ _ Hg).
Qed.

(** C3 (negative values only).  When the stored status is negative, a poll
    with any input is the poll of the same object with status 0: the status
    is reset before the lookup, the lookup uses column 0 of the table, and
    the status returned is a valid combination of flags.  Values above 6 are
    not reset by the code and are not covered. *)
Theorem C3_negative_status_heals (e : RotaryEncoder) (i : Inputs) :
  encoderStatus e < 0 ->
  getStatus e i = getStatus (set_encoderStatus e 0) i /\
  encoderStatus (normalize e) = 0 /\
  exists n e' r fx,
    transition (input_index (sampleA i) (sampleB i)) 0 = Some n /\
    getStatus e i = Some (e', r, fx) /\
    encoderStatus e' = n /\
    valid_status r.
Proof.
  intros Hneg.
  destruct (normalize_status e) as (_ & _ & Hn). specialize (Hn Hneg).
  assert (Heq : getStatus e i = getStatus (set_encoderStatus e 0) i).
  { rewrite !getStatus_eq. rewrite Hn.
    destruct (normalize_status (set_encoderStatus e 0)) as (_ & Hn0 & _).
    rewrite Hn0 by (simpl; lia). reflexivity. }
  split; [exact Heq|]. split; [rewrite Hn; reflexivity|].
  assert (H6 : encoderStatus e <= 6) by lia.
  destruct (getStatus_defined e i H6) as (e' & r & fx & Hg).
  destruct (getStatus_inv _ _ _ _ _ Hg) as (n & m & k & Ht & Hes & _).
  rewrite Hn in Ht. simpl in Ht.
  exists n, e', r, fx. repeat split; auto.
  eapply getStatus_valid_status; eauto.
Qed.

(** ** A disabled switch *)

Lemma getStatus_no_switch (e : RotaryEncoder) (i : Inputs)
      (e' : RotaryEncoder) (r : Z) (fx : list effect) :
  switchPin e < 0 -> switchStatus e = LOW ->
  getStatus e i = Some (e', r, fx) ->
  In r [St_None; Forward; Reverse] /\
  switchPin e' = switchPin e /\ switchStatus e' = LOW.
Proof.
  intros Hpin Hss Hg. apply getStatus_inv in Hg.
  destruct Hg as (n & m & k & _ & _ & _ & _ & Hsp & _ & _ & _ & _ & Hsw & _ & _
                  & Hr & Hk & Hk0 & Hc).
  assert (Hlvl : switch_level e i = LOW).
  { unfold switch_level. rewrite Z.geb_leb.
    replace (0 <=? switchPin e) with false by (symmetry; apply Z.leb_gt; lia).
    reflexivity. }
  rewrite Hlvl in *.
  assert (k = St_None) by (apply Hk0; [congruence | discriminate]).
  subst k r. unfold status_or. rewrite Z.lor_0_r.
  repeat split; auto.
  destruct Hc as [(_ & -> & _) | [(_ & -> & _) | (_ & _ & -> & _)]]; simpl; auto.
Qed.

Lemma movement_no_button (r : Z) :
  In r [St_None; Forward; Reverse] -> no_button r.
Proof.
  simpl. intros [<- | [<- | [<- | []]]]; vm_compute; auto.
Qed.

(** C8. An object constructed with switch pin -1 never reports a button
    flag: after any program, a [getStatus] poll is defined, returns a status
    without [ButtonPressed], [ButtonLongPressed] and [ButtonReleased], and
    does not depend on the level of the switch input; and a
    [waitForStatus] call on any samples returns, when it returns, a status
    without these flags. *)
Theorem C8_disabled_switch_reports_no_button
        (aPhaseAPin aPhaseBPin : Z) (ops : list Op) (i : Inputs)
        (samples : list Inputs) :
  exists e,
    run ops (constructor aPhaseAPin aPhaseBPin (-1)) = Some e /\
    (exists e' r fx,
        getStatus e i = Some (e', r, fx) /\ no_button r /\
        getStatus e (mkInputs (sampleA i) (sampleB i) (negb (sampleS i)) (clock i))
        = Some (e', r, fx)) /\
    (exists w fx,
        waitForStatus e samples = Some (w, fx) /\
        match w with
        | Returned _ r => no_button r /\ r <> St_None
        | Polling _ => True
        end).
Proof.
  set (P := fun e => status_ok e /\ switchPin e = -1 /\ switchStatus e = LOW).
  assert (P_status : forall e, P e -> encoderStatus e <= 6).
  { unfold P, status_ok. intros e (H & _). lia. }
  assert (P_poll : forall e i e' r fx,
             P e -> getStatus e i = Some (e', r, fx) -> P e' /\ no_button r).
  { intros e i0 e' r fx (Hst & Hpin & Hss) Hg.
    destruct (getStatus_no_switch e i0 e' r fx) as (Hr & Hp & Hs); auto; try lia.
    split; [|apply movement_no_button; exact Hr].
    repeat split; try congruence; apply (getStatus_status_ok _ _ _ _ _ Hg). }
  destruct (run_invariant P (fun _ => True) no_button P_status P_poll)
    with (ops := ops) (e := constructor aPhaseAPin aPhaseBPin (-1))
    as (e & He & HP).
  - intros e (Hst & Hpin & Hss). unfold P, status_ok. simpl. repeat split; auto; lia.
  - intros e t H. exact H.
  - intros e l u s _ (Hst & Hpin & Hss). unfold P, status_ok in *.
    destruct (setRange_status e l u s) as (-> & -> & ->). auto.
  - intros e v (Hst & Hpin & Hss). unfold P, status_ok in *.
    destruct (setCount_fields e v) as (_ & _ & _ & -> & -> & -> & _). auto.
  - apply Forall_forall. intros; exact I.
  - unfold P, status_ok. simpl. repeat split; auto; lia.
  - exists e. split; [exact He|]. split.
    + destruct (getStatus_defined e i (P_status e HP)) as (e' & r & fx & Hg).
      exists e', r, fx. split; [exact Hg|].
      split; [apply (P_poll _ _ _ _ _ HP Hg)|].
      rewrite <- Hg. rewrite !getStatus_eq. simpl.
      destruct HP as (_ & Hpin & _).
      unfold switch_level. rewrite Hpin. simpl.
      destruct (transition _ _); [|reflexivity].
      unfold after_transition, check_switch, millis. simpl. reflexivity.
    + destruct (waitForStatus_invariant P no_button P_status P_poll samples e HP)
        as (w & fx & Hw & _ & Hm).
      eauto.
Qed.

(** ** A detent *)

Lemma int_modulus_even : int_modulus = 2 * (int_modulus / 2) /\ 0 < int_modulus / 2.
Proof.
  unfold int_modulus.
  replace (Z.pos int_bits) with (Z.succ (Z.pos int_bits - 1)) by lia.
  rewrite Z.pow_succ_r by lia.
  rewrite Z.mul_comm, Z.div_mul by lia.
  split; [lia|]. apply Z.pow_pos_nonneg; lia.
Qed.

(** Without overflow the wrapped sum is the sum. *)
Lemma to_int_exact (x : Z) : in_int_range x -> to_int x = x.
Proof.
  unfold in_int_range, to_int. unfold INT_MIN, INT_MAX.
  destruct int_modulus_even as [He Hp]. intros H.
  destruct (Z_lt_le_dec x 0) as [Hn|Hn].
  - assert (Hm : x mod int_modulus = x + int_modulus).
    { symmetry. apply (Z.mod_unique _ _ (-1)); lia. }
    rewrite Hm.
    destruct (x + int_modulus <=? int_modulus / 2 - 1) eqn:E; bool_to_prop; lia.
  - rewrite Z.mod_small by lia.
    destruct (x <=? int_modulus / 2 - 1) eqn:E; bool_to_prop; lia.
Qed.

Lemma to_int_to_unsigned (x : Z) : to_int (to_unsigned x) = to_int x.
Proof.
  unfold to_int, to_unsigned. destruct int_modulus_even as [He Hp].
  rewrite Z.mod_mod by lia. reflexivity.
Qed.

Lemma count_plus_step_exact (e : RotaryEncoder) :
  in_int_range (count e + stepWidth e) ->
  count_plus_step e = count e + stepWidth e.
Proof.
  intros H. unfold count_plus_step, getCount.
  rewrite to_int_to_unsigned.
  destruct int_modulus_even as [He Hp].
  rewrite <- (to_int_exact _ H).
  unfold to_int, to_unsigned. rewrite Z.add_mod_idemp_l by lia. reflexivity.
Qed.

Lemma count_minus_step_exact (e : RotaryEncoder) :
  in_int_range (count e - stepWidth e) ->
  count_minus_step e = count e - stepWidth e.
Proof.
  intros H. unfold count_minus_step, getCount.
  rewrite to_int_to_unsigned.
  rewrite <- (to_int_exact _ H).
  unfold to_int, to_unsigned. rewrite Zminus_mod_idemp_l. reflexivity.
Qed.

(** One poll from a status whose reset value is the column [c]. *)
Lemma poll_step (e : RotaryEncoder) (i : Inputs) (c : Z) :
  encoderStatus (normalize e) = c -> 0 <= c <= 6 ->
  exists e' r fx n,
    getStatus e i = Some (e', r, fx) /\
    transition (input_index (sampleA i) (sampleB i)) c = Some n /\
    encoderStatus e' = n /\
    lowerLimit e' = lowerLimit e /\ upperLimit e' = upperLimit e /\
    stepWidth e' = stepWidth e /\
    ((n = -1 /\ contains r Forward = true /\ contains r Reverse = false /\
      count e' = count (setCount e (count_plus_step e))) \/
     (n = -2 /\ contains r Forward = false /\ contains r Reverse = true /\
      count e' = count (setCount e (count_minus_step e))) \/
     (n <> -1 /\ n <> -2 /\ contains r Forward = false /\
      contains r Reverse = false /\ count e' = count e)).
Proof.
  intros Hc Hb.
  assert (H6 : encoderStatus e <= 6).
  { unfold normalize in Hc. destruct (encoderStatus e <? 0) eqn:E;
      bool_to_prop; simpl in Hc; lia. }
  destruct (getStatus_defined e i H6) as (e' & r & fx & Hg).
  destruct (getStatus_inv _ _ _ _ _ Hg)
    as (n & m & k & Ht & Hes & _ & _ & _ & Hlo & Hup & Hst & _ & _ & _ & _
        & Hr & Hk & _ & Hcases).
  rewrite Hc in Ht.
  exists e', r, fx, n. repeat split; auto.
  assert (Hm : In m [St_None; Forward; Reverse]).
  { destruct Hcases as [(_ & -> & _) | [(_ & -> & _) | (_ & _ & -> & _)]];
      simpl; auto. }
  destruct (movement_cases m k Hm Hk) as (Mf & Mr & _).
  rewrite Hr, Mf, Mr.
  destruct Hcases as [(Hn & -> & Hcnt) | [(Hn & -> & Hcnt) | (Hn1 & Hn2 & -> & Hcnt)]].
  - left. auto.
  - right; left. auto.
  - right; right. auto.
Qed.

Lemma normalize_nonneg (e : RotaryEncoder) :
  0 <= encoderStatus e -> encoderStatus (normalize e) = encoderStatus e.
Proof.
  intros H. destruct (normalize_status e) as (_ & Hn & _). now rewrite Hn.
Qed.

Lemma normalize_nonpos (e : RotaryEncoder) :
  encoderStatus e <= 0 -> encoderStatus (normalize e) = 0.
Proof.
  intros H. unfold normalize.
  destruct (encoderStatus e <? 0) eqn:E; bool_to_prop; simpl; lia.
Qed.

(** A poll whose lookup yields a state: no movement flag, counter kept. *)
Lemma poll_quiet (e : RotaryEncoder) (i : Inputs) (c n : Z) :
  encoderStatus (normalize e) = c ->
  transition (input_index (sampleA i) (sampleB i)) c = Some n ->
  0 <= n ->
  exists e' r fx,
    getStatus e i = Some (e', r, fx) /\
    encoderStatus e' = n /\ encoderStatus (normalize e') = n /\
    lowerLimit e' = lowerLimit e /\ upperLimit e' = upperLimit e /\
    stepWidth e' = stepWidth e /\ count e' = count e /\
    contains r Forward = false /\ contains r Reverse = false.
Proof.
  intros Hc Ht Hn.
  destruct (transition_entries _ _ _ Ht) as (_ & _ & Hb).
  destruct (poll_step e i c Hc Hb)
    as (e' & r & fx & n' & Hg & Ht' & Hes & Hlo & Hup & Hst & Hm).
  rewrite Ht in Ht'. inversion Ht'; subst n'.
  exists e', r, fx. repeat split; auto.
  - rewrite normalize_nonneg; lia.
  - destruct Hm as [(? & _) | [(? & _) | (_ & _ & _ & _ & ?)]]; auto; lia.
  - destruct Hm as [(? & _) | [(? & _) | (_ & _ & ? & _ & _)]]; auto; lia.
  - destruct Hm as [(? & _) | [(? & _) | (_ & _ & _ & ? & _)]]; auto; lia.
Qed.

(** A poll whose lookup yields the forward sentinel. *)
Lemma poll_forward (e : RotaryEncoder) (i : Inputs) (c : Z) :
  encoderStatus (normalize e) = c ->
  transition (input_index (sampleA i) (sampleB i)) c = Some (-1) ->
  exists e' r fx,
    getStatus e i = Some (e', r, fx) /\
    encoderStatus e' = -1 /\
    lowerLimit e' = lowerLimit e /\ upperLimit e' = upperLimit e /\
    stepWidth e' = stepWidth e /\
    count e' = count (setCount e (count_plus_step e)) /\
    contains r Forward = true /\ contains r Reverse = false.
Proof.
  intros Hc Ht.
  destruct (transition_entries _ _ _ Ht) as (_ & _ & Hb).
  destruct (poll_step e i c Hc Hb)
    as (e' & r & fx & n' & Hg & Ht' & Hes & Hlo & Hup & Hst & Hm).
  rewrite Ht in Ht'. inversion Ht'; subst n'.
  exists e', r, fx.
  destruct Hm as [(_ & ? & ? & ?) | [(? & _) | (? & _)]]; try lia.
  repeat split; auto.
Qed.

(** A poll whose lookup yields the reverse sentinel. *)
Lemma poll_reverse (e : RotaryEncoder) (i : Inputs) (c : Z) :
  encoderStatus (normalize e) = c ->
  transition (input_index (sampleA i) (sampleB i)) c = Some (-2) ->
  exists e' r fx,
    getStatus e i = Some (e', r, fx) /\
    encoderStatus e' = -2 /\
    lowerLimit e' = lowerLimit e /\ upperLimit e' = upperLimit e /\
    stepWidth e' = stepWidth e /\
    count e' = count (setCount e (count_minus_step e)) /\
    contains r Forward = false /\ contains r Reverse = true.
Proof.
  intros Hc Ht.
  destruct (transition_entries _ _ _ Ht) as (_ & _ & Hb).
  destruct (poll_step e i c Hc Hb)
    as (e' & r & fx & n' & Hg & Ht' & Hes & Hlo & Hup & Hst & Hm).
  rewrite Ht in Ht'. inversion Ht'; subst n'.
  exists e', r, fx.
  destruct Hm as [(? & _) | [(_ & ? & ? & ?) | (_ & ? & _)]]; try lia.
  repeat split; auto.
Qed.

(** The counter [setCount] leaves behind, from the members it reads. *)
Lemma setCount_count (e : RotaryEncoder) (v : Z) :
  (lowerLimit e <= v <= upperLimit e -> count (setCount e v) = v) /\
  (v < lowerLimit e \/ v > upperLimit e -> count (setCount e v) = count e).
Proof.
  split; intros H.
  - rewrite setCount_accepts by exact H. reflexivity.
  - rewrite setCount_rejects by exact H. reflexivity.
Qed.

Lemma setCount_count_ext (e1 e2 : RotaryEncoder) (v : Z) :
  lowerLimit e1 = lowerLimit e2 -> upperLimit e1 = upperLimit e2 ->
  count e1 = count e2 ->
  count (setCount e1 v) = count (setCount e2 v).
Proof.
  intros Hl Hu Hc. unfold setCount. rewrite Hl, Hu.
  destruct (_ && _); simpl; auto.
Qed.

Ltac quiet_poll e i c n e' r fx :=
  let G := fresh "G" in
  let S := fresh "S" in
  let N := fresh "N" in
  let Lo := fresh "Lo" in
  let Up := fresh "Up" in
  let St := fresh "St" in
  let Cn := fresh "Cn" in
  let F := fresh "F" in
  let R := fresh "R" in
  let H1 := fresh "H" in
  let H2 := fresh "H" in
  let H3 := fresh "H" in
  assert (H1 : encoderStatus (normalize e) = c)
    by (try assumption; apply normalize_nonpos; assumption);
  assert (H2 : transition (input_index (sampleA i) (sampleB i)) c = Some n)
    by (match goal with
        | Ha : sampleA i = _, Hb : sampleB i = _ |- _ =>
            rewrite Ha, Hb; reflexivity
        end);
  assert (H3 : 0 <= n) by lia;
  destruct (poll_quiet e i c n H1 H2 H3)
    as (e' & r & fx & G & S & N & Lo & Up & St & Cn & F & R);
  clear H1 H2 H3.

(** The five polls of a forward detent. *)
Lemma forward_detent (e : RotaryEncoder) (i0 i1 i2 i3 i4 : Inputs) :
  encoderStatus e <= 0 ->
  map phases [i0; i1; i2; i3; i4] = forward_cycle ->
  exists e' out,
    polls e [i0; i1; i2; i3; i4] = Some (e', out) /\
    count_flag Forward out = 1%nat /\ count_flag Reverse out = 0%nat /\
    encoderStatus e' = -1 /\
    lowerLimit e' = lowerLimit e /\ upperLimit e' = upperLimit e /\
    stepWidth e' = stepWidth e /\
    count e' = count (setCount e (count_plus_step e)).
Proof.
  intros Hes Hph. unfold forward_cycle in Hph. simpl in Hph.
  assert (A0 : sampleA i0 = false) by (injection Hph; auto).
  assert (B0 : sampleB i0 = false) by (injection Hph; auto).
  assert (A1 : sampleA i1 = true) by (injection Hph; auto).
  assert (B1 : sampleB i1 = false) by (injection Hph; auto).
  assert (A2 : sampleA i2 = true) by (injection Hph; auto).
  assert (B2 : sampleB i2 = true) by (injection Hph; auto).
  assert (A3 : sampleA i3 = false) by (injection Hph; auto).
  assert (B3 : sampleB i3 = true) by (injection Hph; auto).
  assert (A4 : sampleA i4 = false) by (injection Hph; auto).
  assert (B4 : sampleB i4 = false) by (injection Hph; auto).
  quiet_poll e i0 0 0 e1 r0 fx0.
  quiet_poll e1 i1 0 1 e2 r1 fx1.
  quiet_poll e2 i2 1 2 e3 r2 fx2.
  quiet_poll e3 i3 2 3 e4 r3 fx3.
  assert (T4 : transition (input_index (sampleA i4) (sampleB i4)) 3 = Some (-1))
    by (rewrite A4, B4; reflexivity).
  destruct (poll_forward e4 i4 3 N2 T4)
    as (e5 & r4 & fx4 & G3 & S3 & Lo3 & Up3 & St3 & Cn3 & F3 & R3).
  exists e5, [(r0, fx0); (r1, fx1); (r2, fx2); (r3, fx3); (r4, fx4)].
  simpl. rewrite G. simpl. rewrite G0. simpl. rewrite G1. simpl. rewrite G2.
  simpl. rewrite G3.
  unfold count_flag. simpl. rewrite F, F0, F1, F2, F3, R, R0, R1, R2, R3. simpl.
  repeat split; try congruence.
  rewrite Cn3.
  assert (Hp : count_plus_step e4 = count_plus_step e).
  { unfold count_plus_step, getCount. congruence. }
  rewrite Hp. apply setCount_count_ext; congruence.
Qed.

(** The five polls of a reverse detent. *)
Lemma reverse_detent (e : RotaryEncoder) (i0 i1 i2 i3 i4 : Inputs) :
  encoderStatus e <= 0 ->
  map phases [i0; i1; i2; i3; i4] = reverse_cycle ->
  exists e' out,
    polls e [i0; i1; i2; i3; i4] = Some (e', out) /\
    count_flag Forward out = 0%nat /\ count_flag Reverse out = 1%nat /\
    encoderStatus e' = -2 /\
    lowerLimit e' = lowerLimit e /\ upperLimit e' = upperLimit e /\
    stepWidth e' = stepWidth e /\
    count e' = count (setCount e (count_minus_step e)).
Proof.
  intros Hes Hph. unfold reverse_cycle in Hph. simpl in Hph.
  assert (A0 : sampleA i0 = false) by (injection Hph; auto).
  assert (B0 : sampleB i0 = false) by (injection Hph; auto).
  assert (A1 : sampleA i1 = false) by (injection Hph; auto).
  assert (B1 : sampleB i1 = true) by (injection Hph; auto).
  assert (A2 : sampleA i2 = true) by (injection Hph; auto).
  assert (B2 : sampleB i2 = true) by (injection Hph; auto).
  assert (A3 : sampleA i3 = true) by (injection Hph; auto).
  assert (B3 : sampleB i3 = false) by (injection Hph; auto).
  assert (A4 : sampleA i4 = false) by (injection Hph; auto).
  assert (B4 : sampleB i4 = false) by (injection Hph; auto).
  quiet_poll e i0 0 0 e1 r0 fx0.
  quiet_poll e1 i1 0 4 e2 r1 fx1.
  quiet_poll e2 i2 4 5 e3 r2 fx2.
  quiet_poll e3 i3 5 6 e4 r3 fx3.
  assert (T4 : transition (input_index (sampleA i4) (sampleB i4)) 6 = Some (-2))
    by (rewrite A4, B4; reflexivity).
  destruct (poll_reverse e4 i4 6 N2 T4)
    as (e5 & r4 & fx4 & G3 & S3 & Lo3 & Up3 & St3 & Cn3 & F3 & R3).
  exists e5, [(r0, fx0); (r1, fx1); (r2, fx2); (r3, fx3); (r4, fx4)].
  simpl. rewrite G. simpl. rewrite G0. simpl. rewrite G1. simpl. rewrite G2.
  simpl. rewrite G3.
  unfold count_flag. simpl. rewrite F, F0, F1, F2, F3, R, R0, R1, R2, R3. simpl.
  repeat split; try congruence.
  rewrite Cn3.
  assert (Hp : count_minus_step e4 = count_minus_step e).
  { unfold count_minus_step, getCount. congruence. }
  rewrite Hp. apply setCount_count_ext; congruence.
Qed.

Lemma map_length5 {A B : Type} (f : A -> B) (l : list A) (b0 b1 b2 b3 b4 : B) :
  map f l = [b0; b1; b2; b3; b4] ->
  exists i0 i1 i2 i3 i4, l = [i0; i1; i2; i3; i4].
Proof.
  destruct l as [|i0 [|i1 [|i2 [|i3 [|i4 [|i5 l]]]]]]; simpl; intros H;
    try discriminate.
  eauto 6.
Qed.

(** C1 (range check on both sides, no overflow).  From a stored status that
    is 0 (or is reset to 0), the polls of a forward detent (0,0), (1,0),
    (1,1), (0,1), (0,0) are all defined, whatever the switch and the clock
    do; exactly one of them returns a status containing [Forward] and none
    contains [Reverse].  When [count + stepWidth] is representable as an
    [int], the counter ends as [count + stepWidth] if that value lies in
    [lowerLimit..upperLimit] and is unchanged if it lies outside.  The
    mirrored detent (0,0), (0,1), (1,1), (1,0), (0,0) gives exactly one
    [Reverse], no [Forward], and [count - stepWidth] under the same
    conditions. *)
Theorem C1_detent_moves_counter_once (e : RotaryEncoder) (l : list Inputs) :
  encoderStatus e <= 0 ->
  (map phases l = forward_cycle ->
   exists e' out,
     polls e l = Some (e', out) /\
     count_flag Forward out = 1%nat /\ count_flag Reverse out = 0%nat /\
     (in_int_range (count e + stepWidth e) ->
      (lowerLimit e <= count e + stepWidth e <= upperLimit e ->
       count e' = count e + stepWidth e) /\
      (count e + stepWidth e < lowerLimit e \/
       count e + stepWidth e > upperLimit e -> count e' = count e))) /\
  (map phases l = reverse_cycle ->
   exists e' out,
     polls e l = Some (e', out) /\
     count_flag Reverse out = 1%nat /\ count_flag Forward out = 0%nat /\
     (in_int_range (count e - stepWidth e) ->
      (lowerLimit e <= count e - stepWidth e <= upperLimit e ->
       count e' = count e - stepWidth e) /\
      (count e - stepWidth e < lowerLimit e \/
       count e - stepWidth e > upperLimit e -> count e' = count e))).
Proof.
  intros Hes. split; intros Hph.
  - destruct (map_length5 _ _ _ _ _ _ _ Hph) as (i0 & i1 & i2 & i3 & i4 & ->).
    destruct (forward_detent e i0 i1 i2 i3 i4 Hes Hph)
      as (e' & out & Hp & Hf & Hr & _ & _ & _ & _ & Hc).
    exists e', out. split; [exact Hp|]. split; [exact Hf|]. split; [exact Hr|].
    intros Hir. rewrite Hc, (count_plus_step_exact e Hir).
    apply setCount_count.
  - destruct (map_length5 _ _ _ _ _ _ _ Hph) as (i0 & i1 & i2 & i3 & i4 & ->).
    destruct (reverse_detent e i0 i1 i2 i3 i4 Hes Hph)
      as (e' & out & Hp & Hf & Hr & _ & _ & _ & _ & Hc).
    exists e', out. split; [exact Hp|]. split; [exact Hr|]. split; [exact Hf|].
    intros Hir. rewrite Hc, (count_minus_step_exact e Hir).
    apply setCount_count.
Qed.

(** ** The switch *)

Lemma check_switch_steady (s : Z) (i : Inputs) (e : RotaryEncoder) (m : Z) :
  s = switchStatus e ->
  check_switch s i e m =
  if long_press_due s i e
  then (set_timePressed e 0, status_or m ButtonLongPressed)
  else (e, m).
Proof.
  intros ->. unfold check_switch, long_press_due.
  rewrite Z.eqb_refl. cbn [negb].
  destruct (switchStatus e =? HIGH); cbn [andb]; [|reflexivity].
  destruct (negb (timePressed e =? 0)); cbn [andb]; [|reflexivity].
  destruct (negb (timeout e =? 0)); cbn [andb]; reflexivity.
Qed.

Lemma check_switch_edge (s : Z) (i : Inputs) (e : RotaryEncoder) (m : Z) :
  s <> switchStatus e ->
  check_switch s i e m =
  if s =? HIGH
  then (set_switchStatus (set_timePressed e (millis i)) s,
        status_or m ButtonPressed)
  else (set_switchStatus (set_timePressed e 0) s, status_or m ButtonReleased).
Proof.
  intros H. unfold check_switch.
  apply Z.eqb_neq in H. rewrite H. cbn [negb].
  destruct (s =? HIGH); reflexivity.
Qed.

Lemma long_press_due_ext (s : Z) (i : Inputs) (e1 e2 : RotaryEncoder) :
  timePressed e1 = timePressed e2 -> timeout e1 = timeout e2 ->
  long_press_due s i e1 = long_press_due s i e2.
Proof. intros H1 H2. unfold long_press_due. now rewrite H1, H2. Qed.

(** What one poll does about the switch: an edge reports a press or a
    release and sets or clears the press time; a steady level reports a long
    press exactly when the long-press test holds, and then clears the press
    time. *)
Lemma getStatus_switch (e : RotaryEncoder) (i : Inputs)
      (e' : RotaryEncoder) (r : Z) (fx : list effect) :
  getStatus e i = Some (e', r, fx) ->
  exists m,
    In m [St_None; Forward; Reverse] /\ m = movement_of (encoderStatus e') /\
    ((switch_level e i <> switchStatus e /\ switch_level e i = HIGH /\
      r = status_or m ButtonPressed /\ timePressed e' = millis i) \/
     (switch_level e i <> switchStatus e /\ switch_level e i <> HIGH /\
      r = status_or m ButtonReleased /\ timePressed e' = 0) \/
     (switch_level e i = switchStatus e /\
      long_press_due (switch_level e i) i e = true /\
      r = status_or m ButtonLongPressed /\ timePressed e' = 0) \/
     (switch_level e i = switchStatus e /\
      long_press_due (switch_level e i) i e = false /\
      r = m /\ timePressed e' = timePressed e)).
Proof.
  rewrite getStatus_eq.
  destruct (transition _ _) as [n|]; [|discriminate].
  unfold after_transition.
  set (e1 := set_encoderStatus (normalize e) n).
  assert (Hf1 : switchStatus e1 = switchStatus e /\
                timePressed e1 = timePressed e /\ timeout e1 = timeout e).
  { unfold e1, normalize. destruct (encoderStatus e <? 0); simpl; auto. }
  clearbody e1.
  set (s := switch_level e i). clearbody s.
  assert (Hrot : exists e2 m,
             check_rotation e1 = (e2, m) /\ In m [St_None; Forward; Reverse] /\
             m = movement_of (encoderStatus e2) /\
             switchStatus e2 = switchStatus e /\
             timePressed e2 = timePressed e /\ timeout e2 = timeout e).
  { destruct Hf1 as (F1 & F2 & F3).
    destruct (check_rotation_spec e1) as [[Hs Hc] | [[Hs Hc] | (Hs1 & Hs2 & Hc)]];
      rewrite Hc.
    - destruct (setCount_fields e1 (count_plus_step e1))
        as (_ & _ & _ & G0 & G1 & _ & G2 & G3 & _).
      eexists _, _. split; [reflexivity|]. rewrite G0, Hs. simpl.
      intuition congruence.
    - destruct (setCount_fields e1 (count_minus_step e1))
        as (_ & _ & _ & G0 & G1 & _ & G2 & G3 & _).
      eexists _, _. split; [reflexivity|]. rewrite G0, Hs. simpl.
      intuition congruence.
    - eexists _, _. split; [reflexivity|]. unfold movement_of.
      apply Z.eqb_neq in Hs1, Hs2. rewrite Hs1, Hs2. simpl.
      intuition congruence. }
  destruct Hrot as (e2 & m & Hrot & Hm & Hmv & F1 & F2 & F3). rewrite Hrot.
  pose proof (check_switch_frame s i e2 m) as Hfr. simpl in Hfr.
  destruct Hfr as (_ & _ & _ & _ & _ & _ & _ & Hes2 & _).
  intros H. exists m. split; [exact Hm|].
  assert (Hes' : encoderStatus e' = encoderStatus e2).
  { destruct (check_switch s i e2 m) as [e3 r3]. unfold settle in H.
    inversion H; subst. simpl in *. exact Hes2. }
  split; [congruence|].
  destruct (Z.eq_dec s (switchStatus e)) as [Heq|Hne].
  - rewrite check_switch_steady in H by congruence.
    rewrite (long_press_due_ext s i e2 e F2 F3) in H.
    destruct (long_press_due s i e) eqn:Hd; unfold settle in H;
      inversion H; subst; simpl.
    + right; right; left. auto.
    + right; right; right. auto.
  - rewrite check_switch_edge in H by congruence.
    destruct (s =? HIGH) eqn:Hh; bool_to_prop; unfold settle in H;
      inversion H; subst; simpl.
    + left. auto.
    + right; left. auto.
Qed.

Lemma polls_app (l1 l2 : list Inputs) (e : RotaryEncoder) :
  polls e (l1 ++ l2) =
  match polls e l1 with
  | Some (e1, out1) =>
      match polls e1 l2 with
      | Some (e2, out2) => Some (e2, out1 ++ out2)
      | None => None
      end
  | None => None
  end.
Proof.
  revert e. induction l1 as [|i l1 IH]; intros e; simpl.
  - destruct (polls e l2) as [[e2 out2]|]; reflexivity.
  - destruct (getStatus e i) as [[[e' r] fx]|]; [|reflexivity].
    rewrite IH. destruct (polls e' l1) as [[e1 out1]|]; [|reflexivity].
    destruct (polls e1 l2) as [[e2 out2]|]; reflexivity.
Qed.

Lemma switch_level_high (e : RotaryEncoder) (i : Inputs) :
  0 <= switchPin e -> sampleS i = true -> switch_level e i = HIGH.
Proof.
  intros Hp Hs. unfold switch_level. rewrite Z.geb_leb.
  replace (0 <=? switchPin e) with true by (symmetry; apply Z.leb_le; lia).
  rewrite Hs. reflexivity.
Qed.

Lemma status_or_none (m : Z) : status_or m St_None = m.
Proof. unfold status_or. apply Z.lor_0_r. Qed.

Lemma movement_only_flags (m : Z) :
  In m [St_None; Forward; Reverse] ->
  contains m ButtonPressed = false /\ contains m ButtonLongPressed = false /\
  contains m ButtonReleased = false.
Proof. apply movement_no_button. Qed.

(** No long press is reported while no timeout is configured. *)
Lemma no_timeout_no_long_press (e : RotaryEncoder) (i : Inputs)
      (e' : RotaryEncoder) (r : Z) (fx : list effect) :
  timeout e = 0 -> getStatus e i = Some (e', r, fx) ->
  contains r ButtonLongPressed = false /\ timeout e' = 0.
Proof.
  intros Ht Hg. split.
  - destruct (getStatus_switch _ _ _ _ _ Hg) as (m & Hm & _ & Hc).
    assert (Hk : forall k,
               In k [St_None; ButtonPressed; ButtonLongPressed; ButtonReleased] ->
               contains (status_or m k) ButtonLongPressed = (k =? ButtonLongPressed)).
    { intros k Hk. apply (movement_cases m k Hm Hk). }
    destruct Hc as [(_ & _ & -> & _) | [(_ & _ & -> & _) |
                    [(_ & Hd & _) | (_ & _ & -> & _)]]].
    + apply Hk. simpl. auto.
    + apply Hk. simpl. auto.
    + unfold long_press_due in Hd. rewrite Ht in Hd. simpl in Hd.
      rewrite andb_false_r in Hd. discriminate.
    + apply movement_only_flags. exact Hm.
  - destruct (getStatus_inv _ _ _ _ _ Hg)
      as (n & m & k & _ & _ & _ & _ & _ & _ & _ & _ & Hto & _).
    congruence.
Qed.

(** One poll while the switch is held. *)
Lemma pressed_poll (e : RotaryEncoder) (i : Inputs) (t0 T : Z) :
  pressed e t0 T -> sampleS i = true ->
  exists e' r fx,
    getStatus e i = Some (e', r, fx) /\
    ((t0 <> 0 /\ T <> 0 /\ ulong_sub (millis i) t0 > T /\
      contains r ButtonLongPressed = true /\ pressed e' 0 T) \/
     ((t0 = 0 \/ T = 0 \/ ulong_sub (millis i) t0 <= T) /\
      contains r ButtonLongPressed = false /\ pressed e' t0 T)).
Proof.
  intros (H6 & Hpin & Hss & Htp & Hto) Hs.
  destruct (getStatus_defined e i H6) as (e' & r & fx & Hg).
  exists e', r, fx. split; [exact Hg|].
  pose proof (switch_level_high e i Hpin Hs) as Hlvl.
  destruct (getStatus_inv _ _ _ _ _ Hg)
    as (n & m0 & k & Ht & Hes & _ & _ & Hsp & _ & _ & _ & Hto' & Hss' & _).
  assert (Hok : encoderStatus e' <= 6).
  { apply transition_entries in Ht. lia. }
  destruct (getStatus_switch _ _ _ _ _ Hg) as (m & Hm & _ & Hc).
  rewrite Hlvl in Hc, Hss'.
  assert (Hk : forall k,
             In k [St_None; ButtonPressed; ButtonLongPressed; ButtonReleased] ->
             contains (status_or m k) ButtonLongPressed = (k =? ButtonLongPressed)).
  { intros k0 Hk0. apply (movement_cases m k0 Hm Hk0). }
  destruct Hc as [(Hne & _) | [(Hne & _) |
                  [(_ & Hd & -> & Htp') | (_ & Hd & -> & Htp')]]];
    try congruence.
  - left. unfold long_press_due in Hd. rewrite Htp, Hto in Hd.
    bool_to_prop.
    repeat split; try lia; try congruence.
    apply Hk. simpl. auto.
  - right. unfold long_press_due in Hd. rewrite Htp, Hto in Hd.
    split.
    + destruct (Z.eq_dec t0 0) as [|Hn0]; [auto|].
      destruct (Z.eq_dec T 0) as [|HnT]; [auto|].
      right; right.
      apply Z.eqb_neq in Hn0, HnT. rewrite Hn0, HnT in Hd. simpl in Hd.
      rewrite Z.gtb_ltb in Hd. apply Z.ltb_ge in Hd. exact Hd.
    + split; [apply movement_only_flags; exact Hm|].
      repeat split; try lia; congruence.
Qed.

(** Polls while the switch is held and no long press is due. *)
Lemma pressed_polls_quiet (l : list Inputs) (e : RotaryEncoder) (t0 T : Z) :
  pressed e t0 T ->
  Forall (fun j => sampleS j = true) l ->
  Forall (fun j => t0 = 0 \/ T = 0 \/ ulong_sub (millis j) t0 <= T) l ->
  exists e' out,
    polls e l = Some (e', out) /\ pressed e' t0 T /\
    long_press_flags out = repeat false (length l).
Proof.
  revert e. induction l as [|i l IH]; intros e Hp Hs Hq; simpl.
  - exists e, []. auto.
  - inversion Hs as [|? ? Hs1 Hs2]; subst. inversion Hq as [|? ? Hq1 Hq2]; subst.
    destruct (pressed_poll e i t0 T Hp Hs1) as (e1 & r & fx & Hg & Hc).
    rewrite Hg.
    destruct Hc as [(H1 & H2 & H3 & _) | (_ & Hf & Hp1)]; [lia|].
    destruct (IH e1 Hp1 Hs2 Hq2) as (e' & out & Hpo & Hp' & Hfl).
    rewrite Hpo. exists e', ((r, fx) :: out).
    split; [reflexivity|]. split; [exact Hp'|].
    unfold long_press_flags in *. simpl. rewrite Hf, Hfl. reflexivity.
Qed.

(** The poll that sees the switch go down. *)
Lemma press_poll (e : RotaryEncoder) (i : Inputs) :
  encoderStatus e <= 6 -> 0 <= switchPin e -> switchStatus e <> HIGH ->
  sampleS i = true ->
  exists e' r fx,
    getStatus e i = Some (e', r, fx) /\
    contains r ButtonPressed = true /\
    contains r ButtonLongPressed = false /\
    pressed e' (millis i) (timeout e).
Proof.
  intros H6 Hpin Hss Hs.
  destruct (getStatus_defined e i H6) as (e' & r & fx & Hg).
  exists e', r, fx. split; [exact Hg|].
  pose proof (switch_level_high e i Hpin Hs) as Hlvl.
  destruct (getStatus_inv _ _ _ _ _ Hg)
    as (n & m0 & k & Ht & Hes & _ & _ & Hsp & _ & _ & _ & Hto' & Hss' & _).
  assert (Hok : encoderStatus e' <= 6).
  { apply transition_entries in Ht. lia. }
  destruct (getStatus_switch _ _ _ _ _ Hg) as (m & Hm & _ & Hc).
  rewrite Hlvl in Hc, Hss'.
  destruct Hc as [(_ & _ & -> & Htp') | [(_ & Hne & _) |
                  [(Heq & _) | (Heq & _)]]]; try congruence.
  assert (Hbp : In ButtonPressed
                  [St_None; ButtonPressed; ButtonLongPressed; ButtonReleased])
    by (simpl; auto).
  destruct (movement_cases m ButtonPressed Hm Hbp) as (_ & _ & F1 & F2 & _).
  rewrite F1, F2. repeat split; auto; try lia; congruence.
Qed.

Lemma polls_no_timeout (l : list Inputs) (e : RotaryEncoder) :
  timeout e = 0 -> encoderStatus e <= 6 ->
  exists e' out,
    polls e l = Some (e', out) /\
    long_press_flags out = repeat false (length l).
Proof.
  revert e. induction l as [|i l IH]; intros e Ht H6; simpl.
  - exists e, []. auto.
  - destruct (getStatus_defined e i H6) as (e1 & r & fx & Hg). rewrite Hg.
    destruct (no_timeout_no_long_press _ _ _ _ _ Ht Hg) as [Hf Ht1].
    assert (H61 : encoderStatus e1 <= 6).
    { pose proof (getStatus_status_ok _ _ _ _ _ Hg) as Hok.
      unfold status_ok in Hok. lia. }
    destruct (IH e1 Ht1 H61) as (e' & out & Hpo & Hfl).
    rewrite Hpo. exists e', ((r, fx) :: out). split; [reflexivity|].
    unfold long_press_flags in *. simpl. rewrite Hf, Hfl. reflexivity.
Qed.

(** C7 (strictly more than the timeout, press time not 0).
    (1) With timeout 0 no poll of any run reports [ButtonLongPressed].
    (2) With a timeout [T > 0]: the poll that sees the switch go down
    reports [ButtonPressed] and stores the press time; if that time is not
    0 and the switch stays down, [ButtonLongPressed] is reported by exactly
    one later poll, the first at which more than [T] milliseconds (counted
    on [unsigned long]) have passed since the press time, and by no poll
    before or after it.
    (3) While no poll has seen more than [T] milliseconds pass, none
    reports [ButtonLongPressed]. *)
Theorem C7_long_press_once (e : RotaryEncoder) :
  (forall l,
      timeout e = 0 -> encoderStatus e <= 6 ->
      exists e' out,
        polls e l = Some (e', out) /\
        long_press_flags out = repeat false (length l)) /\
  (forall i0 before i after,
      encoderStatus e <= 6 -> 0 <= switchPin e -> switchStatus e <> HIGH ->
      sampleS i0 = true -> 0 < timeout e -> millis i0 <> 0 ->
      Forall (fun j => sampleS j = true) (before ++ i :: after) ->
      Forall (fun j => ulong_sub (millis j) (millis i0) <= timeout e) before ->
      ulong_sub (millis i) (millis i0) > timeout e ->
      exists e0 r0 fx0 e' out,
        getStatus e i0 = Some (e0, r0, fx0) /\
        contains r0 ButtonPressed = true /\
        contains r0 ButtonLongPressed = false /\
        timePressed e0 = millis i0 /\
        polls e0 (before ++ i :: after) = Some (e', out) /\
        long_press_flags out =
        repeat false (length before) ++ true :: repeat false (length after)) /\
  (forall i0 l,
      encoderStatus e <= 6 -> 0 <= switchPin e -> switchStatus e <> HIGH ->
      sampleS i0 = true -> 0 < timeout e ->
      Forall (fun j => sampleS j = true) l ->
      Forall (fun j => ulong_sub (millis j) (millis i0) <= timeout e) l ->
      exists e0 r0 fx0 e' out,
        getStatus e i0 = Some (e0, r0, fx0) /\
        polls e0 l = Some (e', out) /\
        long_press_flags out = repeat false (length l)).
Proof.
  split; [|split].
  - intros l Ht H6. apply polls_no_timeout; assumption.
  - intros i0 before i after H6 Hpin Hss Hs0 HT Ht0 Hheld Hbefore Hdue.
    destruct (press_poll e i0 H6 Hpin Hss Hs0)
      as (e0 & r0 & fx0 & Hg0 & Hbp & Hlp & Hpr).
    exists e0, r0, fx0.
    apply Forall_app in Hheld. destruct Hheld as [Hh1 Hh2].
    inversion Hh2 as [|? ? Hhi Hh3]; subst.
    destruct (pressed_polls_quiet before e0 (millis i0) (timeout e) Hpr Hh1)
      as (e1 & out1 & Hp1 & Hpr1 & Hf1).
    { eapply Forall_impl; [|exact Hbefore]. simpl. auto. }
    destruct (pressed_poll e1 i (millis i0) (timeout e) Hpr1 Hhi)
      as (e2 & r & fx & Hg & Hc).
    destruct Hc as [(_ & _ & _ & Hfl & Hpr2) | ([|[|]] & _)]; try lia.
    destruct (pressed_polls_quiet after e2 0 (timeout e) Hpr2 Hh3)
      as (e3 & out3 & Hp3 & Hpr3 & Hf3).
    { apply Forall_forall. intros; auto. }
    exists e3, (out1 ++ (r, fx) :: out3).
    repeat split; auto.
    + destruct Hpr as (_ & _ & _ & Htp & _). exact Htp.
    + rewrite polls_app, Hp1. simpl. rewrite Hg, Hp3. reflexivity.
    + unfold long_press_flags in *. rewrite map_app. simpl.
      rewrite Hf1, Hf3, Hfl. reflexivity.
  - intros i0 l H6 Hpin Hss Hs0 HT Hheld Hq.
    destruct (press_poll e i0 H6 Hpin Hss Hs0)
      as (e0 & r0 & fx0 & Hg0 & Hbp & Hlp & Hpr).
    destruct (pressed_polls_quiet l e0 (millis i0) (timeout e) Hpr Hheld)
      as (e1 & out1 & Hp1 & Hpr1 & Hf1).
    { eapply Forall_impl; [|exact Hq]. simpl. auto. }
    exists e0, r0, fx0, e1, out1. auto.
Qed.

(** ** Unchanged inputs *)

(** Every row of the table is idempotent once a sentinel is reset. *)
Lemma row_idempotent (a b : bool) (c n : Z) :
  transition (input_index a b) c = Some n ->
  transition (input_index a b) (if n <? 0 then 0 else n) =
  Some (if n <? 0 then 0 else n).
Proof.
  intros H. destruct (transition_entries _ _ _ H) as (_ & _ & Hc).
  assert (Hc' : c = 0 \/ c = 1 \/ c = 2 \/ c = 3 \/ c = 4 \/ c = 5 \/ c = 6)
    by lia.
  destruct a, b;
    destruct Hc' as [-> | [-> | [-> | [-> | [-> | [-> | ->]]]]]];
    vm_compute in H; inversion H; subst n; reflexivity.
Qed.

Lemma level_of_switch_level (e : RotaryEncoder) (i : Inputs) :
  switch_level e i = level_of e (sampleS i).
Proof. reflexivity. Qed.

(** After any poll the object is at rest for the inputs of that poll. *)
Lemma getStatus_steady (e : RotaryEncoder) (i : Inputs)
      (e' : RotaryEncoder) (r : Z) (fx : list effect) :
  getStatus e i = Some (e', r, fx) ->
  steady e' (sampleA i) (sampleB i) (sampleS i).
Proof.
  intros Hg.
  destruct (getStatus_inv _ _ _ _ _ Hg)
    as (n & m & k & Ht & Hes & _ & _ & Hsp & _ & _ & _ & _ & Hss & _).
  destruct (transition_entries _ _ _ Ht) as (Hn & _ & _).
  unfold steady. repeat split.
  - lia.
  - pose proof (row_idempotent _ _ _ _ Ht) as Hi.
    assert (Hnorm : encoderStatus (normalize e') = if n <? 0 then 0 else n).
    { unfold normalize. rewrite Hes. destruct (n <? 0); simpl; auto. }
    rewrite Hnorm. exact Hi.
  - rewrite Hss. unfold switch_level, level_of. rewrite Hsp. reflexivity.
Qed.

(** A poll of an object at rest: the status is the long-press flag or
    nothing, the counter is kept, and the object stays at rest. *)
Lemma steady_poll (e : RotaryEncoder) (i : Inputs) :
  steady e (sampleA i) (sampleB i) (sampleS i) ->
  exists e' r fx,
    getStatus e i = Some (e', r, fx) /\
    steady e' (sampleA i) (sampleB i) (sampleS i) /\
    count e' = count e /\ timeout e' = timeout e /\
    switchPin e' = switchPin e /\
    lastResult e' = r /\
    fx = (if negb (r =? lastResult e) then [Delay 10] else []) /\
    ((long_press_due (level_of e (sampleS i)) i e = true /\
      r = ButtonLongPressed /\ timePressed e' = 0) \/
     (long_press_due (level_of e (sampleS i)) i e = false /\
      r = St_None /\ timePressed e' = timePressed e)).
Proof.
  intros (H6 & Ht & Hss).
  destruct (getStatus_defined e i H6) as (e' & r & fx & Hg).
  exists e', r, fx. split; [exact Hg|].
  split; [eapply getStatus_steady; exact Hg|].
  destruct (getStatus_inv _ _ _ _ _ Hg)
    as (n & m0 & k & Ht' & Hes & _ & _ & Hsp & _ & _ & _ & Hto & _ & Hlr & Hfx
        & _ & _ & _ & Hc).
  rewrite Ht in Ht'. inversion Ht' as [Hn]. clear Ht'.
  destruct (normalize_status e) as (Hn0 & _ & _).
  assert (Hcnt : count e' = count e).
  { destruct Hc as [(? & _) | [(? & _) | (_ & _ & _ & ?)]]; auto; lia. }
  destruct (getStatus_switch _ _ _ _ _ Hg) as (m & Hm & Hmv & Hsw).
  assert (Hm0 : m = St_None).
  { rewrite Hmv, Hes. unfold movement_of.
    replace (n =? -1) with false by (symmetry; apply Z.eqb_neq; lia).
    replace (n =? -2) with false by (symmetry; apply Z.eqb_neq; lia).
    reflexivity. }
  clear Hmv. subst m.
  rewrite level_of_switch_level in Hsw.
  repeat split; auto.
  destruct Hsw as [(Hne & _) | [(Hne & _) |
                   [(_ & Hd & -> & Htp) | (_ & Hd & -> & Htp)]]];
    try congruence.
  - left. auto.
  - right. auto.
Qed.

Lemma no_long_press_pending_not_due (e : RotaryEncoder) (i : Inputs) :
  no_long_press_pending e (sampleS i) ->
  long_press_due (level_of e (sampleS i)) i e = false.
Proof.
  unfold no_long_press_pending, long_press_due.
  intros [H | [H | H]].
  - apply Z.eqb_neq in H. rewrite H. reflexivity.
  - rewrite H. simpl. rewrite andb_false_r. reflexivity.
  - rewrite H. simpl. rewrite andb_false_r. reflexivity.
Qed.

Lemma steady_poll_level (e e' : RotaryEncoder) (s : bool) :
  switchPin e' = switchPin e -> level_of e' s = level_of e s.
Proof. intros H. unfold level_of. now rewrite H. Qed.

(** Polls of an object at rest when no long press can become due: every
    poll returns [None] and keeps the counter; once the previous status is
    [None] no poll performs the delay. *)
Lemma steady_polls_quiet (a b s : bool) (l : list Inputs) (e : RotaryEncoder) :
  steady e a b s -> no_long_press_pending e s ->
  Forall (fun j => phases j = (a, b) /\ sampleS j = s) l ->
  exists e' out,
    polls e l = Some (e', out) /\
    steady e' a b s /\ no_long_press_pending e' s /\
    count e' = count e /\
    Forall (fun o => fst o = St_None) out /\
    delays_follow (lastResult e) out /\
    (lastResult e = St_None -> out = repeat (St_None, []) (length l)).
Proof.
  revert e. induction l as [|i l IH]; intros e Hst Hq Hl; simpl.
  - exists e, []. simpl.
    split; [reflexivity|]. split; [exact Hst|]. split; [exact Hq|].
    repeat split; auto.
  - apply Forall_cons_iff in Hl. destruct Hl as [[Hph Hs] Hl'].
    unfold phases in Hph. injection Hph as Ha Hb.
    assert (Hsti : steady e (sampleA i) (sampleB i) (sampleS i))
      by (rewrite Ha, Hb, Hs; exact Hst).
    assert (Hqi : no_long_press_pending e (sampleS i))
      by (rewrite Hs; exact Hq).
    destruct (steady_poll e i Hsti)
      as (e1 & r & fx & Hg & Hst1 & Hc1 & Hto1 & Hsp1 & Hlr1 & Hfx & Hd).
    rewrite (no_long_press_pending_not_due e i Hqi) in Hd.
    destruct Hd as [(Hd & _) | (_ & -> & Htp)]; [discriminate|].
    rewrite Ha, Hb, Hs in Hst1.
    assert (Hq1 : no_long_press_pending e1 s).
    { unfold no_long_press_pending in *.
      rewrite (steady_poll_level e e1 _ Hsp1), Hto1, Htp. exact Hq. }
    destruct (IH e1 Hst1 Hq1 Hl')
      as (e' & out & Hp & Hst' & Hq' & Hc' & Hall & Hdel & Hrep).
    rewrite Hg, Hp. exists e', ((St_None, fx) :: out).
    split; [reflexivity|]. split; [exact Hst'|]. split; [exact Hq'|].
    split; [congruence|]. split; [constructor; auto|]. split; [split|].
    + exact Hfx.
    + rewrite <- Hlr1. exact Hdel.
    + intros Hlast. rewrite Hlast in Hfx. simpl in Hfx. subst fx.
      rewrite (Hrep Hlr1). reflexivity.
Qed.

Lemma count_flag_cons (f : Z) (r : Z) (fx : list effect)
      (out : list (Z * list effect)) :
  count_flag f ((r, fx) :: out) =
  ((if contains r f then 1 else 0) + count_flag f out)%nat.
Proof. unfold count_flag. simpl. destruct (contains r f); reflexivity. Qed.

Lemma count_flag_none (out : list (Z * list effect)) :
  Forall (fun o => fst o = St_None) out ->
  count_flag ButtonLongPressed out = 0%nat.
Proof.
  induction 1 as [|[r fx] out Hr _ IH]; [reflexivity|].
  simpl in Hr. subst r. rewrite count_flag_cons, IH. reflexivity.
Qed.

(** Polls of an object at rest: the counter is kept, every status is
    [None] or [ButtonLongPressed], and [ButtonLongPressed] is returned at
    most once. *)
Lemma steady_polls (a b s : bool) (l : list Inputs) (e : RotaryEncoder) :
  steady e a b s ->
  Forall (fun j => phases j = (a, b) /\ sampleS j = s) l ->
  exists e' out,
    polls e l = Some (e', out) /\
    count e' = count e /\
    Forall (fun o => fst o = St_None \/ fst o = ButtonLongPressed) out /\
    (count_flag ButtonLongPressed out <= 1)%nat /\
    delays_follow (lastResult e) out.
Proof.
  revert e. induction l as [|i l IH]; intros e Hst Hl; simpl.
  - exists e, []. simpl. repeat split; auto.
  - apply Forall_cons_iff in Hl. destruct Hl as [[Hph Hs] Hl'].
    unfold phases in Hph. injection Hph as Ha Hb.
    assert (Hsti : steady e (sampleA i) (sampleB i) (sampleS i))
      by (rewrite Ha, Hb, Hs; exact Hst).
    destruct (steady_poll e i Hsti)
      as (e1 & r & fx & Hg & Hst1 & Hc1 & Hto1 & Hsp1 & Hlr1 & Hfx & Hd).
    rewrite Ha, Hb, Hs in Hst1. rewrite Hg.
    destruct Hd as [(_ & -> & Htp) | (_ & -> & Htp)].
    + assert (Hq1 : no_long_press_pending e1 s)
        by (unfold no_long_press_pending; auto).
      destruct (steady_polls_quiet a b s l e1 Hst1 Hq1 Hl')
        as (e' & out & Hp & _ & _ & Hc' & Hall & Hdel & _).
      rewrite Hp. exists e', ((ButtonLongPressed, fx) :: out).
      split; [reflexivity|]. split; [congruence|].
      split; [constructor; [right; reflexivity|]|].
      { eapply Forall_impl; [|exact Hall]. simpl. auto. }
      split.
      { rewrite count_flag_cons, (count_flag_none out Hall). simpl. lia. }
      split; [exact Hfx|]. rewrite <- Hlr1. exact Hdel.
    + destruct (IH e1 Hst1 Hl') as (e' & out & Hp & Hc' & Hall & Hcnt & Hdel).
      rewrite Hp. exists e', ((St_None, fx) :: out).
      split; [reflexivity|]. split; [congruence|].
      split; [constructor; [left; reflexivity|exact Hall]|].
      split.
      { rewrite count_flag_cons. simpl. exact Hcnt. }
      split; [exact Hfx|]. rewrite <- Hlr1. exact Hdel.
Qed.

(** C2 (long press set apart).  Take an object whose stored status is at
    most 6 and polls that all read the same phase levels and the same switch
    input.  After the first poll and one more, every poll keeps the counter
    and returns [None], except that a pending long press is still reported
    by one poll, once, as [ButtonLongPressed]; every poll performs the delay
    exactly when its status differs from the one before.  When the switch is
    not held down or no timeout is configured, the second poll returns
    [None] and every later poll returns [None] without a delay. *)
Theorem C2_unchanged_input_is_quiet
        (e : RotaryEncoder) (a b s : bool) (i1 i2 : Inputs) (l : list Inputs) :
  encoderStatus e <= 6 ->
  Forall (fun j => phases j = (a, b) /\ sampleS j = s) (i1 :: i2 :: l) ->
  exists e1 r1 fx1 e2 r2 fx2 e' out,
    getStatus e i1 = Some (e1, r1, fx1) /\
    getStatus e1 i2 = Some (e2, r2, fx2) /\
    polls e2 l = Some (e', out) /\
    count e2 = count e1 /\ count e' = count e1 /\
    Forall (fun o => fst o = St_None \/ fst o = ButtonLongPressed)
      ((r2, fx2) :: out) /\
    (count_flag ButtonLongPressed ((r2, fx2) :: out) <= 1)%nat /\
    delays_follow (lastResult e) ((r1, fx1) :: (r2, fx2) :: out) /\
    (level_of e s <> HIGH \/ timeout e = 0 ->
     r2 = St_None /\ out = repeat (St_None, []) (length l)).
Proof.
  intros H6 Hl.
  apply Forall_cons_iff in Hl. destruct Hl as [[Hph1 Hs1] Hl].
  unfold phases in Hph1. injection Hph1 as Ha1 Hb1.
  destruct (getStatus_defined e i1 H6) as (e1 & r1 & fx1 & Hg1).
  pose proof (getStatus_steady _ _ _ _ _ Hg1) as Hst1.
  rewrite Ha1, Hb1, Hs1 in Hst1.
  destruct (getStatus_inv _ _ _ _ _ Hg1)
    as (n & m & k & _ & _ & _ & _ & Hsp1 & _ & _ & _ & Hto1 & _ & Hlr1 & Hfx1 & _).
  destruct (steady_polls a b s (i2 :: l) e1 Hst1 Hl)
    as (e' & out' & Hp & Hc' & Hall & Hcnt & Hdel).
  simpl in Hp.
  destruct (getStatus e1 i2) as [[[e2 r2] fx2]|] eqn:Hg2; [|discriminate].
  destruct (polls e2 l) as [[e'' out]|] eqn:Hp2; [|discriminate].
  inversion Hp; subst e'' out'. clear Hp.
  exists e1, r1, fx1, e2, r2, fx2, e', out.
  split; [exact Hg1|]. split; [exact Hg2|]. split; [exact Hp2|].
  assert (Hc2 : count e2 = count e1).
  { apply Forall_cons_iff in Hl. destruct Hl as [[Hph2 Hs2] _].
    unfold phases in Hph2. injection Hph2 as Ha2 Hb2.
    assert (Hsti : steady e1 (sampleA i2) (sampleB i2) (sampleS i2))
      by (rewrite Ha2, Hb2, Hs2; exact Hst1).
    destruct (steady_poll e1 i2 Hsti) as (x & y & z & Hg & _ & Hc & _).
    rewrite Hg2 in Hg. inversion Hg; subst. exact Hc. }
  split; [exact Hc2|]. split; [exact Hc'|]. split; [exact Hall|].
  split; [exact Hcnt|]. split.
  { simpl. split; [exact Hfx1|]. rewrite <- Hlr1. exact Hdel. }
  intros Hquiet.
  assert (Hq1 : no_long_press_pending e1 s).
  { unfold no_long_press_pending.
    rewrite (steady_poll_level e e1 s Hsp1), Hto1. tauto. }
  destruct (steady_polls_quiet a b s (i2 :: l) e1 Hst1 Hq1 Hl)
    as (y' & out' & Hp & _ & _ & _ & Hnone & _ & _).
  simpl in Hp. rewrite Hg2, Hp2 in Hp. inversion Hp; subst y' out'. clear Hp.
  apply Forall_cons_iff in Hnone. destruct Hnone as [Hr2 _]. simpl in Hr2.
  split; [exact Hr2|].
  apply Forall_cons_iff in Hl. destruct Hl as [[Hph2 Hs2] Hl2].
  unfold phases in Hph2. injection Hph2 as Ha2 Hb2.
  assert (Hsti : steady e1 (sampleA i2) (sampleB i2) (sampleS i2))
    by (rewrite Ha2, Hb2, Hs2; exact Hst1).
  destruct (steady_poll e1 i2 Hsti)
    as (x & y & z & Hg & Hst2 & _ & Hto2 & Hsp2 & Hlr2 & _ & Hd).
  rewrite Hg2 in Hg. inversion Hg; subst x y z. clear Hg.
  rewrite Ha2, Hb2, Hs2 in Hst2.
  assert (Hq2 : no_long_press_pending e2 s).
  { unfold no_long_press_pending.
    rewrite (steady_poll_level e1 e2 s Hsp2), Hto2.
    rewrite (steady_poll_level e e1 s Hsp1), Hto1. tauto. }
  destruct (steady_polls_quiet a b s l e2 Hst2 Hq2 Hl2)
    as (y' & out' & Hp & _ & _ & _ & _ & _ & Hrep).
  rewrite Hp2 in Hp. inversion Hp; subst y' out'.
  apply Hrep. congruence.
Qed.

(** ** A detent with dwell

    A poll loop reads every phase of a detent many times.  The polls that
    read a phase again change nothing, so a detent moves the counter once
    however long the knob rests in each phase. *)

Lemma count_flag_app (f : Z) (o1 o2 : list (Z * list effect)) :
  count_flag f (o1 ++ o2) = (count_flag f o1 + count_flag f o2)%nat.
Proof. unfold count_flag. rewrite filter_app, length_app. reflexivity. Qed.

Lemma same_counter_trans (e1 e2 e3 : RotaryEncoder) :
  same_counter e1 e2 -> same_counter e2 e3 -> same_counter e1 e3.
Proof. unfold same_counter. intuition congruence. Qed.

(** Polls that read again the phase the object rests in. *)
Lemma dwell_polls (a b : bool) (l : list Inputs) (e : RotaryEncoder) (c : Z) :
  encoderStatus (normalize e) = c ->
  transition (input_index a b) c = Some c ->
  dwell (a, b) l ->
  exists e' out,
    polls e l = Some (e', out) /\
    count_flag Forward out = 0%nat /\ count_flag Reverse out = 0%nat /\
    same_counter e e' /\ encoderStatus (normalize e') = c.
Proof.
  revert e. induction l as [|i l IH]; intros e Hc Ht Hd; simpl.
  - exists e, []. unfold same_counter. repeat split; auto.
  - apply Forall_cons_iff in Hd. destruct Hd as [Hph Hd].
    unfold phases in Hph. injection Hph as Ha Hb.
    destruct (transition_entries _ _ _ Ht) as (_ & _ & Hb6).
    assert (Hti : transition (input_index (sampleA i) (sampleB i)) c = Some c)
      by (rewrite Ha, Hb; exact Ht).
    destruct (poll_quiet e i c c Hc Hti (proj1 Hb6))
      as (e1 & r & fx & Hg & _ & Hn1 & Hlo & Hup & Hst & Hcn & Hf & Hr).
    destruct (IH e1 Hn1 Ht Hd) as (e' & out & Hp & Hf' & Hr' & Hsame & Hc').
    rewrite Hg, Hp. exists e', ((r, fx) :: out).
    split; [reflexivity|].
    rewrite !count_flag_cons, Hf, Hr, Hf', Hr'.
    split; [reflexivity|]. split; [reflexivity|]. split; [|exact Hc'].
    apply (same_counter_trans e e1 e'); [|exact Hsame].
    unfold same_counter. auto.
Qed.

(** A poll that moves to the state [n], followed by polls that read the
    same phase again. *)
Lemma move_then_dwell (i : Inputs) (l : list Inputs) (e : RotaryEncoder)
      (c n : Z) :
  encoderStatus (normalize e) = c ->
  transition (input_index (sampleA i) (sampleB i)) c = Some n ->
  0 <= n ->
  dwell (phases i) l ->
  exists e' out,
    polls e (i :: l) = Some (e', out) /\
    count_flag Forward out = 0%nat /\ count_flag Reverse out = 0%nat /\
    same_counter e e' /\ encoderStatus (normalize e') = n.
Proof.
  intros Hc Ht Hn Hd.
  destruct (poll_quiet e i c n Hc Ht Hn)
    as (e1 & r & fx & Hg & _ & Hn1 & Hlo & Hup & Hst & Hcn & Hf & Hr).
  assert (Hidem : transition (input_index (sampleA i) (sampleB i)) n = Some n).
  { pose proof (row_idempotent _ _ _ _ Ht) as Hi.
    replace (n <? 0) with false in Hi by (symmetry; apply Z.ltb_ge; lia).
    exact Hi. }
  destruct (dwell_polls (sampleA i) (sampleB i) l e1 n Hn1 Hidem Hd)
    as (e' & out & Hp & Hf' & Hr' & Hsame & Hc').
  simpl. rewrite Hg, Hp. exists e', ((r, fx) :: out).
  split; [reflexivity|].
  rewrite !count_flag_cons, Hf, Hr, Hf', Hr'.
  split; [reflexivity|]. split; [reflexivity|]. split; [|exact Hc'].
  apply (same_counter_trans e e1 e'); [|exact Hsame].
  unfold same_counter. auto.
Qed.

Lemma polls_seq (l1 l2 : list Inputs) (e e1 e2 : RotaryEncoder)
      (o1 o2 : list (Z * list effect)) :
  polls e l1 = Some (e1, o1) -> polls e1 l2 = Some (e2, o2) ->
  polls e (l1 ++ l2) = Some (e2, o1 ++ o2).
Proof. intros H1 H2. rewrite polls_app, H1, H2. reflexivity. Qed.

(** X9.  A forward detent in which the knob rests in every phase for any number
    of polls: exactly one poll reports [Forward], none reports [Reverse],
    and the counter is the one a single [setCount(getCount()+stepWidth)]
    leaves. *)
Theorem forward_detent_with_dwell
        (e : RotaryEncoder) (i1 i2 i3 i4 : Inputs) (l0 l1 l2 l3 l4 : list Inputs) :
  encoderStatus e <= 0 ->
  dwell (false, false) l0 ->
  phases i1 = (true, false) -> dwell (true, false) l1 ->
  phases i2 = (true, true) -> dwell (true, true) l2 ->
  phases i3 = (false, true) -> dwell (false, true) l3 ->
  phases i4 = (false, false) -> dwell (false, false) l4 ->
  exists e' out,
    polls e (l0 ++ (i1 :: l1) ++ (i2 :: l2) ++ (i3 :: l3) ++ i4 :: l4)
    = Some (e', out) /\
    count_flag Forward out = 1%nat /\ count_flag Reverse out = 0%nat /\
    lowerLimit e' = lowerLimit e /\ upperLimit e' = upperLimit e /\
    stepWidth e' = stepWidth e /\
    count e' = count (setCount e (count_plus_step e)).
Proof.
  intros Hes D0 P1 D1 P2 D2 P3 D3 P4 D4.
  pose proof P1 as Q1. pose proof P2 as Q2. pose proof P3 as Q3.
  pose proof P4 as Q4.
  unfold phases in Q1, Q2, Q3, Q4.
  injection Q1 as A1 B1. injection Q2 as A2 B2.
  injection Q3 as A3 B3. injection Q4 as A4 B4.
  destruct (dwell_polls false false l0 e 0 (normalize_nonpos e Hes) eq_refl D0)
    as (e0 & o0 & Hp0 & F0 & R0 & S0 & N0).
  destruct (move_then_dwell i1 l1 e0 0 1 N0) as (e1 & o1 & Hp1 & F1 & R1 & S1 & N1);
    [rewrite A1, B1; reflexivity | lia | rewrite P1; exact D1 |].
  destruct (move_then_dwell i2 l2 e1 1 2 N1) as (e2 & o2 & Hp2 & F2 & R2 & S2 & N2);
    [rewrite A2, B2; reflexivity | lia | rewrite P2; exact D2 |].
  destruct (move_then_dwell i3 l3 e2 2 3 N2) as (e3 & o3 & Hp3 & F3 & R3 & S3 & N3);
    [rewrite A3, B3; reflexivity | lia | rewrite P3; exact D3 |].
  assert (T4 : transition (input_index (sampleA i4) (sampleB i4)) 3 = Some (-1))
    by (rewrite A4, B4; reflexivity).
  destruct (poll_forward e3 i4 3 N3 T4)
    as (e4 & r4 & fx4 & G4 & Es4 & Lo4 & Up4 & St4 & Cn4 & F4 & R4).
  assert (N4 : encoderStatus (normalize e4) = 0)
    by (apply normalize_nonpos; lia).
  destruct (dwell_polls false false l4 e4 0 N4 eq_refl D4)
    as (e5 & o5 & Hp5 & F5 & R5 & S5 & N5).
  assert (Hp4 : polls e3 (i4 :: l4) = Some (e5, (r4, fx4) :: o5))
    by (simpl; rewrite G4, Hp5; reflexivity).
  exists e5, (o0 ++ o1 ++ o2 ++ o3 ++ (r4, fx4) :: o5).
  split.
  { apply (polls_seq _ _ _ _ _ _ _ Hp0).
    apply (polls_seq _ _ _ _ _ _ _ Hp1).
    apply (polls_seq _ _ _ _ _ _ _ Hp2).
    apply (polls_seq _ _ _ _ _ _ _ Hp3). exact Hp4. }
  rewrite !count_flag_app, !count_flag_cons.
  rewrite F0, F1, F2, F3, F4, F5, R0, R1, R2, R3, R4, R5.
  split; [reflexivity|]. split; [reflexivity|].
  pose proof (same_counter_trans _ _ _ (same_counter_trans _ _ _
               (same_counter_trans _ _ _ S0 S1) S2) S3) as (Lo & Up & St & Cn).
  destruct S5 as (Lo5 & Up5 & St5 & Cn5).
  split; [congruence|]. split; [congruence|]. split; [congruence|].
  rewrite Cn5, Cn4.
  assert (Hp : count_plus_step e3 = count_plus_step e).
  { unfold count_plus_step, getCount. congruence. }
  rewrite Hp. apply setCount_count_ext; congruence.
Qed.

(** X10.  A reverse detent in which the knob rests in every phase for any number
    of polls: exactly one poll reports [Reverse], none reports [Forward],
    and the counter is the one a single [setCount(getCount()-stepWidth)]
    leaves. *)
Theorem reverse_detent_with_dwell
        (e : RotaryEncoder) (i1 i2 i3 i4 : Inputs) (l0 l1 l2 l3 l4 : list Inputs) :
  encoderStatus e <= 0 ->
  dwell (false, false) l0 ->
  phases i1 = (false, true) -> dwell (false, true) l1 ->
  phases i2 = (true, true) -> dwell (true, true) l2 ->
  phases i3 = (true, false) -> dwell (true, false) l3 ->
  phases i4 = (false, false) -> dwell (false, false) l4 ->
  exists e' out,
    polls e (l0 ++ (i1 :: l1) ++ (i2 :: l2) ++ (i3 :: l3) ++ i4 :: l4)
    = Some (e', out) /\
    count_flag Forward out = 0%nat /\ count_flag Reverse out = 1%nat /\
    lowerLimit e' = lowerLimit e /\ upperLimit e' = upperLimit e /\
    stepWidth e' = stepWidth e /\
    count e' = count (setCount e (count_minus_step e)).
Proof.
  intros Hes D0 P1 D1 P2 D2 P3 D3 P4 D4.
  pose proof P1 as Q1. pose proof P2 as Q2. pose proof P3 as Q3.
  pose proof P4 as Q4.
  unfold phases in Q1, Q2, Q3, Q4.
  injection Q1 as A1 B1. injection Q2 as A2 B2.
  injection Q3 as A3 B3. injection Q4 as A4 B4.
  destruct (dwell_polls false false l0 e 0 (normalize_nonpos e Hes) eq_refl D0)
    as (e0 & o0 & Hp0 & F0 & R0 & S0 & N0).
  destruct (move_then_dwell i1 l1 e0 0 4 N0) as (e1 & o1 & Hp1 & F1 & R1 & S1 & N1);
    [rewrite A1, B1; reflexivity | lia | rewrite P1; exact D1 |].
  destruct (move_then_dwell i2 l2 e1 4 5 N1) as (e2 & o2 & Hp2 & F2 & R2 & S2 & N2);
    [rewrite A2, B2; reflexivity | lia | rewrite P2; exact D2 |].
  destruct (move_then_dwell i3 l3 e2 5 6 N2) as (e3 & o3 & Hp3 & F3 & R3 & S3 & N3);
    [rewrite A3, B3; reflexivity | lia | rewrite P3; exact D3 |].
  assert (T4 : transition (input_index (sampleA i4) (sampleB i4)) 6 = Some (-2))
    by (rewrite A4, B4; reflexivity).
  destruct (poll_reverse e3 i4 6 N3 T4)
    as (e4 & r4 & fx4 & G4 & Es4 & Lo4 & Up4 & St4 & Cn4 & F4 & R4).
  assert (N4 : encoderStatus (normalize e4) = 0)
    by (apply normalize_nonpos; lia).
  destruct (dwell_polls false false l4 e4 0 N4 eq_refl D4)
    as (e5 & o5 & Hp5 & F5 & R5 & S5 & N5).
  assert (Hp4 : polls e3 (i4 :: l4) = Some (e5, (r4, fx4) :: o5))
    by (simpl; rewrite G4, Hp5; reflexivity).
  exists e5, (o0 ++ o1 ++ o2 ++ o3 ++ (r4, fx4) :: o5).
  split.
  { apply (polls_seq _ _ _ _ _ _ _ Hp0).
    apply (polls_seq _ _ _ _ _ _ _ Hp1).
    apply (polls_seq _ _ _ _ _ _ _ Hp2).
    apply (polls_seq _ _ _ _ _ _ _ Hp3). exact Hp4. }
  rewrite !count_flag_app, !count_flag_cons.
  rewrite F0, F1, F2, F3, F4, F5, R0, R1, R2, R3, R4, R5.
  split; [reflexivity|]. split; [reflexivity|].
  pose proof (same_counter_trans _ _ _ (same_counter_trans _ _ _
               (same_counter_trans _ _ _ S0 S1) S2) S3) as (Lo & Up & St & Cn).
  destruct S5 as (Lo5 & Up5 & St5 & Cn5).
  split; [congruence|]. split; [congruence|]. split; [congruence|].
  rewrite Cn5, Cn4.
  assert (Hp : count_minus_step e3 = count_minus_step e).
  { unfold count_minus_step, getCount. congruence. }
  rewrite Hp. apply setCount_count_ext; congruence.
Qed.

(** ** [waitForStatus] returns at the first event *)

(** When the polls on [before] all return [None] and the next poll returns
    a status [r] other than [None], [waitForStatus] returns [r] at that
    poll, whatever samples would follow. *)
Lemma waitForStatus_returns (before : list Inputs) (i : Inputs)
      (after : list Inputs) (e e1 e2 : RotaryEncoder)
      (out : list (Z * list effect)) (r : Z) (fx : list effect) :
  polls e before = Some (e1, out) ->
  Forall (fun o => fst o = St_None) out ->
  getStatus e1 i = Some (e2, r, fx) ->
  r <> St_None ->
  exists fx',
    waitForStatus e (before ++ i :: after) = Some (Returned e2 r, fx').
Proof.
  revert e out. induction before as [|j before IH]; intros e out Hp Hall Hg Hr.
  - simpl in Hp. inversion Hp; subst e1 out. simpl. rewrite Hg.
    apply Z.eqb_neq in Hr. rewrite Hr. eauto.
  - simpl in Hp.
    destruct (getStatus e j) as [[[e' s] fxj]|] eqn:Hj; [|discriminate].
    destruct (polls e' before) as [[e'' out']|] eqn:Hp'; [|discriminate].
    inversion Hp; subst e'' out. clear Hp.
    apply Forall_cons_iff in Hall. destruct Hall as [Hs Hall]. simpl in Hs.
    destruct (IH e' out' Hp' Hall Hg Hr) as (fx' & Hw).
    simpl. rewrite Hj. subst s. rewrite Z.eqb_refl, Hw. eauto.
Qed.

(** * Further properties of the code *)

(** ** [operator |] on [encoderStatus_t] *)

(** X23.  The flags of [X | Y] are the flags of [X] together with those of [Y];
    [None] is neutral, and the operator is commutative and idempotent. *)
Theorem status_or_flags (X Y f : Z) :
  contains (status_or X Y) f = contains X f || contains Y f /\
  status_or X St_None = X /\
  status_or X Y = status_or Y X /\
  status_or X X = X.
Proof.
  unfold contains, status_or. repeat split.
  - rewrite Z.land_lor_distr_l.
    destruct (Z.land X f =? 0) eqn:E1; destruct (Z.land Y f =? 0) eqn:E2;
      bool_to_prop; simpl.
    + rewrite E1, E2. reflexivity.
    + apply negb_true_iff, Z.eqb_neq. intros H.
      apply Z.lor_eq_0_iff in H. tauto.
    + apply negb_true_iff, Z.eqb_neq. intros H.
      apply Z.lor_eq_0_iff in H. tauto.
    + apply negb_true_iff, Z.eqb_neq. intros H.
      apply Z.lor_eq_0_iff in H. tauto.
  - apply Z.lor_0_r.
  - apply Z.lor_comm.
  - apply Z.lor_diag.
Qed.

(** ** What a poll can return *)

(** X2.  A poll never reports [Forward] together with [Reverse], never two
    button flags together, and its status is below 32. *)
Theorem getStatus_flags_exclusive (e : RotaryEncoder) (i : Inputs)
        (e' : RotaryEncoder) (r : Z) (fx : list effect) :
  getStatus e i = Some (e', r, fx) ->
  0 <= r < 32 /\
  contains r Forward && contains r Reverse = false /\
  contains r ButtonPressed && contains r ButtonLongPressed = false /\
  contains r ButtonPressed && contains r ButtonReleased = false /\
  contains r ButtonLongPressed && contains r ButtonReleased = false.
Proof.
  intros Hg. destruct (getStatus_valid_status _ _ _ _ _ Hg) as (m & k & -> & Hm & Hk).
  simpl in Hm, Hk.
  destruct Hm as [<- | [<- | [<- | []]]];
    destruct Hk as [<- | [<- | [<- | [<- | []]]]]; vm_compute;
    repeat split; try reflexivity; discriminate.
Qed.

Lemma sentinel_only_in_row_0 (a b : bool) (c n : Z) :
  transition (input_index a b) c = Some n -> n < 0 -> a = false /\ b = false.
Proof.
  intros H Hn. destruct (transition_entries _ _ _ H) as (_ & _ & Hc).
  assert (Hc' : c = 0 \/ c = 1 \/ c = 2 \/ c = 3 \/ c = 4 \/ c = 5 \/ c = 6)
    by lia.
  destruct a, b; auto;
    destruct Hc' as [-> | [-> | [-> | [-> | [-> | [-> | ->]]]]]];
    vm_compute in H; inversion H; subst n; lia.
Qed.

(** X1.  A poll reports a movement only when it reads both phases low, changes
    the counter only when it reports a movement, and never touches the
    pins, the limits, the step width or the timeout. *)
Theorem getStatus_moves_only_at_rest (e : RotaryEncoder) (i : Inputs)
        (e' : RotaryEncoder) (r : Z) (fx : list effect) :
  getStatus e i = Some (e', r, fx) ->
  (contains r Forward = true \/ contains r Reverse = true ->
   sampleA i = false /\ sampleB i = false) /\
  (count e' <> count e ->
   contains r Forward = true \/ contains r Reverse = true) /\
  phaseAPin e' = phaseAPin e /\ phaseBPin e' = phaseBPin e /\
  switchPin e' = switchPin e /\ lowerLimit e' = lowerLimit e /\
  upperLimit e' = upperLimit e /\ stepWidth e' = stepWidth e /\
  timeout e' = timeout e.
Proof.
  intros Hg.
  destruct (getStatus_inv _ _ _ _ _ Hg)
    as (n & m & k & Ht & _ & Hpa & Hpb & Hsp & Hlo & Hup & Hst & Hto & _ & _ & _
        & Hr & Hk & _ & Hc).
  assert (Hm : In m [St_None; Forward; Reverse]).
  { destruct Hc as [(_ & -> & _) | [(_ & -> & _) | (_ & _ & -> & _)]];
      simpl; auto. }
  destruct (movement_cases m k Hm Hk) as (Mf & Mr & _).
  rewrite Hr, Mf, Mr.
  split; [|split; [|repeat split; assumption]].
  - intros Hmove.
    destruct Hc as [(Hn & _) | [(Hn & _) | (_ & _ & -> & _)]].
    + apply (sentinel_only_in_row_0 _ _ _ _ Ht). lia.
    + apply (sentinel_only_in_row_0 _ _ _ _ Ht). lia.
    + vm_compute in Hmove. destruct Hmove; discriminate.
  - intros Hne.
    destruct Hc as [(_ & -> & _) | [(_ & -> & _) | (_ & _ & _ & Hcnt)]].
    + left. reflexivity.
    + right. reflexivity.
    + congruence.
Qed.

(** ** The switch: presses and releases are reported at edges only *)

(** X3.  A poll reports [ButtonPressed] exactly when the level it reads is high
    and differs from the stored one, and [ButtonReleased] exactly when the
    level is not high and differs from the stored one; an edge never reports
    a long press.  The poll stores the level it read, the clock at a press,
    and 0 at a release. *)
Theorem getStatus_reports_edges (e : RotaryEncoder) (i : Inputs)
        (e' : RotaryEncoder) (r : Z) (fx : list effect) :
  getStatus e i = Some (e', r, fx) ->
  contains r ButtonPressed =
    negb (switch_level e i =? switchStatus e) && (switch_level e i =? HIGH) /\
  contains r ButtonReleased =
    negb (switch_level e i =? switchStatus e)
    && negb (switch_level e i =? HIGH) /\
  (switch_level e i <> switchStatus e ->
   contains r ButtonLongPressed = false /\
   timePressed e' = if switch_level e i =? HIGH then millis i else 0) /\
  switchStatus e' = switch_level e i.
Proof.
  intros Hg.
  destruct (getStatus_inv _ _ _ _ _ Hg)
    as (_ & _ & _ & _ & _ & _ & _ & _ & _ & _ & _ & _ & Hss & _).
  destruct (getStatus_switch _ _ _ _ _ Hg) as (m & Hm & _ & Hc).
  assert (Hk : forall k,
             In k [St_None; ButtonPressed; ButtonLongPressed; ButtonReleased] ->
             contains (status_or m k) ButtonPressed = (k =? ButtonPressed) /\
             contains (status_or m k) ButtonLongPressed = (k =? ButtonLongPressed) /\
             contains (status_or m k) ButtonReleased = (k =? ButtonReleased)).
  { intros k Hk. destruct (movement_cases m k Hm Hk) as (_ & _ & H1 & H2 & H3 & _).
    auto. }
  destruct Hc as [(Hne & Hh & -> & Htp) | [(Hne & Hh & -> & Htp) |
                  [(Heq & _ & -> & _) | (Heq & _ & -> & _)]]].
  - destruct (Hk ButtonPressed) as (K1 & K2 & K3); [simpl; auto|].
    rewrite K1, K2, K3.
    apply Z.eqb_neq in Hne. rewrite Hne. rewrite Hh. simpl.
    repeat split; auto; congruence.
  - destruct (Hk ButtonReleased) as (K1 & K2 & K3); [simpl; auto|].
    rewrite K1, K2, K3.
    pose proof Hne as Hne'. apply Z.eqb_neq in Hne'. rewrite Hne'.
    pose proof Hh as Hh'. apply Z.eqb_neq in Hh'. rewrite Hh'. simpl.
    repeat split; auto; congruence.
  - destruct (Hk ButtonLongPressed) as (K1 & K2 & K3); [simpl; auto|].
    rewrite K1, K3. rewrite Heq, Z.eqb_refl. simpl.
    repeat split; auto; intros; congruence.
  - destruct (movement_only_flags m Hm) as (K1 & K2 & K3).
    rewrite K1, K3. rewrite Heq, Z.eqb_refl. simpl.
    repeat split; auto; intros; congruence.
Qed.

(** The button flags and the stored press time of a poll, as functions of
    the level read, the stored level and the long-press test. *)
Lemma getStatus_button_flags (e : RotaryEncoder) (i : Inputs)
      (e' : RotaryEncoder) (r : Z) (fx : list effect) :
  getStatus e i = Some (e', r, fx) ->
  let lvl := switch_level e i in
  let edge := negb (lvl =? switchStatus e) in
  contains r ButtonPressed = edge && (lvl =? HIGH) /\
  contains r ButtonReleased = edge && negb (lvl =? HIGH) /\
  contains r ButtonLongPressed = negb edge && long_press_due lvl i e /\
  timePressed e' =
    (if edge then if lvl =? HIGH then millis i else 0
     else if long_press_due lvl i e then 0 else timePressed e).
Proof.
  intros Hg. cbv zeta.
  destruct (getStatus_switch _ _ _ _ _ Hg) as (m & Hm & _ & Hc).
  assert (Hk : forall k,
             In k [St_None; ButtonPressed; ButtonLongPressed; ButtonReleased] ->
             contains (status_or m k) ButtonPressed = (k =? ButtonPressed) /\
             contains (status_or m k) ButtonLongPressed = (k =? ButtonLongPressed) /\
             contains (status_or m k) ButtonReleased = (k =? ButtonReleased)).
  { intros k Hk. destruct (movement_cases m k Hm Hk) as (_ & _ & H1 & H2 & H3 & _).
    auto. }
  destruct Hc as [(Hne & Hh & -> & Htp) | [(Hne & Hh & -> & Htp) |
                  [(Heq & Hd & -> & Htp) | (Heq & Hd & -> & Htp)]]].
  - destruct (Hk ButtonPressed) as (K1 & K2 & K3); [simpl; auto|].
    rewrite K1, K2, K3, Htp.
    apply Z.eqb_neq in Hne. rewrite Hne. rewrite Hh. simpl. auto.
  - destruct (Hk ButtonReleased) as (K1 & K2 & K3); [simpl; auto|].
    rewrite K1, K2, K3, Htp.
    apply Z.eqb_neq in Hne. rewrite Hne.
    apply Z.eqb_neq in Hh. rewrite Hh. simpl. auto.
  - destruct (Hk ButtonLongPressed) as (K1 & K2 & K3); [simpl; auto|].
    rewrite K1, K2, K3, Htp, Hd.
    rewrite <- Heq. rewrite Z.eqb_refl. simpl. auto.
  - destruct (movement_only_flags m Hm) as (K1 & K2 & K3).
    rewrite K1, K2, K3, Htp, Hd.
    rewrite <- Heq. rewrite Z.eqb_refl. simpl. auto.
Qed.

(** ** The two halves of a poll do not influence each other *)

(** X4.  Two polls of the same object that read the same phase levels store the
    same quadrature status and the same counter and report the same
    movement, whatever the switch input and the clock are. *)
Theorem movement_ignores_switch_and_clock
        (e : RotaryEncoder) (i i' : Inputs)
        (e1 e2 : RotaryEncoder) (r1 r2 : Z) (fx1 fx2 : list effect) :
  sampleA i = sampleA i' -> sampleB i = sampleB i' ->
  getStatus e i = Some (e1, r1, fx1) ->
  getStatus e i' = Some (e2, r2, fx2) ->
  encoderStatus e1 = encoderStatus e2 /\ count e1 = count e2 /\
  contains r1 Forward = contains r2 Forward /\
  contains r1 Reverse = contains r2 Reverse.
Proof.
  intros Ha Hb Hg1 Hg2.
  destruct (getStatus_inv _ _ _ _ _ Hg1)
    as (n1 & m1 & k1 & Ht1 & Hes1 & _ & _ & _ & _ & _ & _ & _ & _ & _ & _
        & Hr1 & Hk1 & _ & Hc1).
  destruct (getStatus_inv _ _ _ _ _ Hg2)
    as (n2 & m2 & k2 & Ht2 & Hes2 & _ & _ & _ & _ & _ & _ & _ & _ & _ & _
        & Hr2 & Hk2 & _ & Hc2).
  rewrite <- Ha, <- Hb, Ht1 in Ht2. injection Ht2 as Hn12.
  assert (Hm1 : In m1 [St_None; Forward; Reverse]).
  { destruct Hc1 as [(_ & -> & _) | [(_ & -> & _) | (_ & _ & -> & _)]];
      simpl; auto. }
  assert (Hm2 : In m2 [St_None; Forward; Reverse]).
  { destruct Hc2 as [(_ & -> & _) | [(_ & -> & _) | (_ & _ & -> & _)]];
      simpl; auto. }
  destruct (movement_cases m1 k1 Hm1 Hk1) as (F1 & R1 & _).
  destruct (movement_cases m2 k2 Hm2 Hk2) as (F2 & R2 & _).
  rewrite Hr1, Hr2, F1, R1, F2, R2, Hes1, Hes2.
  destruct Hc1 as [(N1 & -> & C1) | [(N1 & -> & C1) | (N1 & N1' & -> & C1)]];
    destruct Hc2 as [(N2 & -> & C2) | [(N2 & -> & C2) | (N2 & N2' & -> & C2)]];
    try lia; repeat split; congruence.
Qed.

(** X5.  Two polls of the same object that read the same switch level at the
    same time report the same button flags and store the same switch level
    and press time, whatever the phase levels are. *)
Theorem switch_ignores_phases
        (e : RotaryEncoder) (i i' : Inputs)
        (e1 e2 : RotaryEncoder) (r1 r2 : Z) (fx1 fx2 : list effect) :
  sampleS i = sampleS i' -> clock i = clock i' ->
  getStatus e i = Some (e1, r1, fx1) ->
  getStatus e i' = Some (e2, r2, fx2) ->
  contains r1 ButtonPressed = contains r2 ButtonPressed /\
  contains r1 ButtonReleased = contains r2 ButtonReleased /\
  contains r1 ButtonLongPressed = contains r2 ButtonLongPressed /\
  switchStatus e1 = switchStatus e2 /\ timePressed e1 = timePressed e2.
Proof.
  intros Hs Hc Hg1 Hg2.
  pose proof (getStatus_button_flags _ _ _ _ _ Hg1) as B1.
  pose proof (getStatus_button_flags _ _ _ _ _ Hg2) as B2.
  cbv zeta in B1, B2.
  destruct B1 as (P1 & Q1 & L1 & T1). destruct B2 as (P2 & Q2 & L2 & T2).
  destruct (getStatus_inv _ _ _ _ _ Hg1)
    as (_ & _ & _ & _ & _ & _ & _ & _ & _ & _ & _ & _ & S1 & _).
  destruct (getStatus_inv _ _ _ _ _ Hg2)
    as (_ & _ & _ & _ & _ & _ & _ & _ & _ & _ & _ & _ & S2 & _).
  assert (Hl : switch_level e i' = switch_level e i)
    by (unfold switch_level; rewrite Hs; reflexivity).
  assert (Hm : millis i' = millis i) by (unfold millis; rewrite Hc; reflexivity).
  assert (Hd : long_press_due (switch_level e i) i' e =
               long_press_due (switch_level e i) i e)
    by (unfold long_press_due; rewrite Hm; reflexivity).
  rewrite Hl in P2, Q2, L2, T2, S2. rewrite Hm, Hd in T2. rewrite Hd in L2.
  repeat split; congruence.
Qed.

(** ** A detent commits to its direction *)

Lemma polls_defined (l : list Inputs) (e : RotaryEncoder) :
  encoderStatus e <= 6 ->
  exists e' out, polls e l = Some (e', out) /\ encoderStatus e' <= 6.
Proof.
  revert e. induction l as [|i l IH]; intros e H6; simpl.
  - eauto.
  - destruct (getStatus_defined e i H6) as (e1 & r & fx & Hg). rewrite Hg.
    pose proof (getStatus_status_ok _ _ _ _ _ Hg) as Hok. unfold status_ok in Hok.
    destruct (IH e1) as (e' & out & Hp & H6'); [lia|].
    rewrite Hp. eauto.
Qed.

Lemma forward_half_closed (a b : bool) (c n : Z) :
  1 <= c <= 3 -> transition (input_index a b) c = Some n ->
  1 <= n <= 3 \/ n = -1.
Proof.
  intros Hc H.
  assert (Hc' : c = 1 \/ c = 2 \/ c = 3) by lia.
  destruct a, b; destruct Hc' as [-> | [-> | ->]];
    vm_compute in H; inversion H; lia.
Qed.

Lemma reverse_half_closed (a b : bool) (c n : Z) :
  4 <= c <= 6 -> transition (input_index a b) c = Some n ->
  4 <= n <= 6 \/ n = -2.
Proof.
  intros Hc H.
  assert (Hc' : c = 4 \/ c = 5 \/ c = 6) by lia.
  destruct a, b; destruct Hc' as [-> | [-> | ->]];
    vm_compute in H; inversion H; lia.
Qed.

(** X6.  Once a forward detent has begun (stored status 1, 2 or 3), whatever the
    samples are: as long as no poll has reported [Forward], no poll reports
    [Reverse], the counter is unchanged and the status stays in 1..3.  The
    same holds with the directions exchanged from the statuses 4, 5, 6. *)
Theorem detent_commits_to_direction (l : list Inputs) (e : RotaryEncoder) :
  (1 <= encoderStatus e <= 3 ->
   exists e' out,
     polls e l = Some (e', out) /\
     (count_flag Forward out = 0%nat ->
      count_flag Reverse out = 0%nat /\ count e' = count e /\
      1 <= encoderStatus e' <= 3)) /\
  (4 <= encoderStatus e <= 6 ->
   exists e' out,
     polls e l = Some (e', out) /\
     (count_flag Reverse out = 0%nat ->
      count_flag Forward out = 0%nat /\ count e' = count e /\
      4 <= encoderStatus e' <= 6)).
Proof.
  revert e. induction l as [|i l IH]; intros e; split; intros Hes; simpl.
  - exists e, []. split; [reflexivity|]. intros _. auto.
  - exists e, []. split; [reflexivity|]. intros _. auto.
  - assert (Hn : encoderStatus (normalize e) = encoderStatus e)
      by (apply normalize_nonneg; lia).
    destruct (poll_step e i (encoderStatus e) Hn ltac:(lia))
      as (e1 & r & fx & n & Hg & Ht & Hes1 & _ & _ & _ & Hm).
    rewrite Hg.
    destruct (forward_half_closed _ _ _ _ Hes Ht) as [Hin | Hfwd].
    + destruct (proj1 (IH e1)) as (e' & out & Hp & Hrest); [lia|].
      rewrite Hp. exists e', ((r, fx) :: out). split; [reflexivity|].
      destruct Hm as [(? & _) | [(? & _) | (_ & _ & Hf & Hr & Hc)]]; try lia.
      rewrite !count_flag_cons, Hf, Hr. simpl. intros H0.
      destruct (Hrest H0) as (R0 & C0 & E0). repeat split; try lia; congruence.
    + destruct (polls_defined l e1) as (e' & out & Hp & _); [lia|].
      rewrite Hp. exists e', ((r, fx) :: out). split; [reflexivity|].
      destruct Hm as [(_ & Hf & _) | [(? & _) | (? & _)]]; try lia.
      rewrite count_flag_cons, Hf. simpl. discriminate.
  - assert (Hn : encoderStatus (normalize e) = encoderStatus e)
      by (apply normalize_nonneg; lia).
    destruct (poll_step e i (encoderStatus e) Hn ltac:(lia))
      as (e1 & r & fx & n & Hg & Ht & Hes1 & _ & _ & _ & Hm).
    rewrite Hg.
    destruct (reverse_half_closed _ _ _ _ Hes Ht) as [Hin | Hrev].
    + destruct (proj2 (IH e1)) as (e' & out & Hp & Hrest); [lia|].
      rewrite Hp. exists e', ((r, fx) :: out). split; [reflexivity|].
      destruct Hm as [(? & _) | [(? & _) | (_ & _ & Hf & Hr & Hc)]]; try lia.
      rewrite !count_flag_cons, Hf, Hr. simpl. intros H0.
      destruct (Hrest H0) as (R0 & C0 & E0). repeat split; try lia; congruence.
    + destruct (polls_defined l e1) as (e' & out & Hp & _); [lia|].
      rewrite Hp. exists e', ((r, fx) :: out). split; [reflexivity|].
      destruct Hm as [(? & _) | [(_ & _ & Hr & _) | (_ & ? & _)]]; try lia.
      rewrite count_flag_cons, Hr. simpl. discriminate.
Qed.

(** ** A phase that never goes high *)

Lemma normalize_cases (e : RotaryEncoder) :
  (encoderStatus e < 0 /\ encoderStatus (normalize e) = 0) \/
  (0 <= encoderStatus e /\ encoderStatus (normalize e) = encoderStatus e).
Proof.
  destruct (Z_lt_le_dec (encoderStatus e) 0) as [H|H].
  - left. split; [exact H|]. apply normalize_nonpos. lia.
  - right. split; [exact H|]. apply normalize_nonneg. exact H.
Qed.

Lemma rest_or_first_forward_state (a : bool) (c n : Z) :
  0 <= c <= 1 -> transition (input_index a false) c = Some n -> 0 <= n <= 1.
Proof.
  intros Hc H. assert (Hc' : c = 0 \/ c = 1) by lia.
  destruct a; destruct Hc' as [-> | ->]; vm_compute in H; inversion H; lia.
Qed.

Lemma rest_or_first_reverse_state (b : bool) (c n : Z) :
  c = 0 \/ c = 4 -> transition (input_index false b) c = Some n ->
  n = 0 \/ n = 4.
Proof.
  intros Hc H.
  destruct b; destruct Hc as [-> | ->]; vm_compute in H; inversion H; lia.
Qed.

Lemma polls_phase_B_low (l : list Inputs) (e : RotaryEncoder) :
  encoderStatus e <= 1 ->
  Forall (fun i => sampleB i = false) l ->
  exists e' out,
    polls e l = Some (e', out) /\
    count_flag Forward out = 0%nat /\ count_flag Reverse out = 0%nat /\
    count e' = count e.
Proof.
  revert e. induction l as [|i l IH]; intros e Hes Hl; simpl.
  - exists e, []. auto.
  - apply Forall_cons_iff in Hl. destruct Hl as [Hb Hl].
    assert (Hc : 0 <= encoderStatus (normalize e) <= 1)
      by (destruct (normalize_cases e) as [[? ->] | [? ->]]; lia).
    destruct (transition_defined (input_index (sampleA i) (sampleB i))
                (encoderStatus (normalize e))) as [n Ht];
      [apply input_index_bounds | lia |].
    assert (Hn : 0 <= n <= 1).
    { rewrite Hb in Ht. exact (rest_or_first_forward_state _ _ _ Hc Ht). }
    destruct (poll_quiet e i _ n eq_refl Ht (proj1 Hn))
      as (e1 & r & fx & Hg & Hes1 & _ & _ & _ & _ & Hcn & Hf & Hr).
    destruct (IH e1) as (e' & out & Hp & Hf' & Hr' & Hc'); [lia | exact Hl |].
    rewrite Hg, Hp. exists e', ((r, fx) :: out).
    rewrite !count_flag_cons, Hf, Hr, Hf', Hr'. repeat split; congruence.
Qed.

Lemma polls_phase_A_low (l : list Inputs) (e : RotaryEncoder) :
  encoderStatus e <= 0 \/ encoderStatus e = 4 ->
  Forall (fun i => sampleA i = false) l ->
  exists e' out,
    polls e l = Some (e', out) /\
    count_flag Forward out = 0%nat /\ count_flag Reverse out = 0%nat /\
    count e' = count e.
Proof.
  revert e. induction l as [|i l IH]; intros e Hes Hl; simpl.
  - exists e, []. auto.
  - apply Forall_cons_iff in Hl. destruct Hl as [Ha Hl].
    assert (Hc : encoderStatus (normalize e) = 0 \/
                 encoderStatus (normalize e) = 4)
      by (destruct (normalize_cases e) as [[? ->] | [? ->]]; lia).
    destruct (transition_defined (input_index (sampleA i) (sampleB i))
                (encoderStatus (normalize e))) as [n Ht];
      [apply input_index_bounds | lia |].
    assert (Hn : n = 0 \/ n = 4).
    { rewrite Ha in Ht. exact (rest_or_first_reverse_state _ _ _ Hc Ht). }
    destruct (poll_quiet e i _ n eq_refl Ht ltac:(lia))
      as (e1 & r & fx & Hg & Hes1 & _ & _ & _ & _ & Hcn & Hf & Hr).
    destruct (IH e1) as (e' & out & Hp & Hf' & Hr' & Hc'); [lia | exact Hl |].
    rewrite Hg, Hp. exists e', ((r, fx) :: out).
    rewrite !count_flag_cons, Hf, Hr, Hf', Hr'. repeat split; congruence.
Qed.

(** X8.  From rest (stored status 0 or negative), when one of the two phase
    inputs never reads high, no poll ever reports a movement and the counter
    is never changed, whatever the other phase does. *)
Theorem stuck_phase_reports_no_movement (l : list Inputs) (e : RotaryEncoder) :
  encoderStatus e <= 0 ->
  Forall (fun i => sampleB i = false) l \/
  Forall (fun i => sampleA i = false) l ->
  exists e' out,
    polls e l = Some (e', out) /\
    count_flag Forward out = 0%nat /\ count_flag Reverse out = 0%nat /\
    count e' = count e.
Proof.
  intros Hes [Hb | Ha].
  - apply polls_phase_B_low; [lia | exact Hb].
  - apply polls_phase_A_low; [left; exact Hes | exact Ha].
Qed.

(** ** Detents one after the other *)

(** X11.  [k] forward detents from a counter inside the range, with a step width
    [s > 0] and no overflow: every detent reports [Forward] once, and the
    counter advances by [s] as long as the next value does not pass
    [upperLimit]; it stops at [count + s * ((upperLimit - count) / s)], which
    is below [upperLimit] when the distance is not a multiple of [s]. *)
Theorem forward_detents_stop_below_upper_limit
        (ls : list (list Inputs)) (e : RotaryEncoder) :
  encoderStatus e <= 0 ->
  Forall (fun l => map phases l = forward_cycle) ls ->
  lowerLimit e <= count e <= upperLimit e ->
  0 < stepWidth e ->
  INT_MIN <= lowerLimit e -> upperLimit e + stepWidth e <= INT_MAX ->
  exists e' out,
    polls e (concat ls) = Some (e', out) /\
    count_flag Forward out = length ls /\ count_flag Reverse out = 0%nat /\
    count e' =
      count e +
      stepWidth e * Z.min (Z.of_nat (length ls))
                      ((upperLimit e - count e) / stepWidth e).
Proof.
  revert e. induction ls as [|l ls IH]; intros e Hes Hls Hin Hs Hlo Hup.
  - simpl. exists e, []. repeat split; auto.
    assert (0 <= (upperLimit e - count e) / stepWidth e)
      by (apply Z.div_pos; lia).
    rewrite Z.min_l by lia. lia.
  - apply Forall_cons_iff in Hls. destruct Hls as [Hl Hls].
    destruct (map_length5 _ _ _ _ _ _ _ Hl) as (i0 & i1 & i2 & i3 & i4 & ->).
    destruct (forward_detent e i0 i1 i2 i3 i4 Hes Hl)
      as (e1 & o1 & Hp1 & F1 & R1 & Hes1 & Lo1 & Up1 & St1 & Cn1).
    assert (Hir : in_int_range (count e + stepWidth e))
      by (unfold in_int_range; lia).
    rewrite (count_plus_step_exact e Hir) in Cn1.
    destruct (setCount_count e (count e + stepWidth e)) as [Hacc Hrej].
    destruct (Z_le_gt_dec (count e + stepWidth e) (upperLimit e)) as [Hle|Hgt].
    + rewrite Hacc in Cn1 by lia.
      destruct (IH e1) as (e' & out & Hp & F & R & Cn); try lia; try exact Hls.
      exists e', (o1 ++ out).
      split; [simpl concat; apply (polls_seq _ _ _ _ _ _ _ Hp1 Hp)|].
      rewrite !count_flag_app, F1, R1, F, R.
      split; [reflexivity|]. split; [reflexivity|].
      rewrite Cn, Cn1, Up1, St1.
      replace (upperLimit e - (count e + stepWidth e))
        with (upperLimit e - count e + (-1) * stepWidth e) by lia.
      rewrite Z.div_add by lia.
      simpl length. rewrite Nat2Z.inj_succ.
      set (q := (upperLimit e - count e) / stepWidth e).
      set (k := Z.of_nat (length ls)).
      replace (Z.min (Z.succ k) q) with (Z.min k (q + -1) + 1) by lia.
      ring.
    + rewrite Hrej in Cn1 by lia.
      destruct (IH e1) as (e' & out & Hp & F & R & Cn); try lia; try exact Hls.
      exists e', (o1 ++ out).
      split; [simpl concat; apply (polls_seq _ _ _ _ _ _ _ Hp1 Hp)|].
      rewrite !count_flag_app, F1, R1, F, R.
      split; [reflexivity|]. split; [reflexivity|].
      rewrite Cn, Cn1, Up1, St1.
      rewrite (Z.div_small (upperLimit e - count e) (stepWidth e)) by lia.
      rewrite !Z.min_r by lia. reflexivity.
Qed.

(** X12.  [k] reverse detents from a counter inside the range, with a step width
    [s > 0] and no overflow: every detent reports [Reverse] once, and the
    counter goes down by [s] as long as the next value does not pass
    [lowerLimit]; it stops at [count - s * ((count - lowerLimit) / s)]. *)
Theorem reverse_detents_stop_above_lower_limit
        (ls : list (list Inputs)) (e : RotaryEncoder) :
  encoderStatus e <= 0 ->
  Forall (fun l => map phases l = reverse_cycle) ls ->
  lowerLimit e <= count e <= upperLimit e ->
  0 < stepWidth e ->
  INT_MIN <= lowerLimit e - stepWidth e -> upperLimit e <= INT_MAX ->
  exists e' out,
    polls e (concat ls) = Some (e', out) /\
    count_flag Reverse out = length ls /\ count_flag Forward out = 0%nat /\
    count e' =
      count e -
      stepWidth e * Z.min (Z.of_nat (length ls))
                      ((count e - lowerLimit e) / stepWidth e).
Proof.
  revert e. induction ls as [|l ls IH]; intros e Hes Hls Hin Hs Hlo Hup.
  - simpl. exists e, []. repeat split; auto.
    assert (0 <= (count e - lowerLimit e) / stepWidth e)
      by (apply Z.div_pos; lia).
    rewrite Z.min_l by lia. lia.
  - apply Forall_cons_iff in Hls. destruct Hls as [Hl Hls].
    destruct (map_length5 _ _ _ _ _ _ _ Hl) as (i0 & i1 & i2 & i3 & i4 & ->).
    destruct (reverse_detent e i0 i1 i2 i3 i4 Hes Hl)
      as (e1 & o1 & Hp1 & F1 & R1 & Hes1 & Lo1 & Up1 & St1 & Cn1).
    assert (Hir : in_int_range (count e - stepWidth e))
      by (unfold in_int_range; lia).
    rewrite (count_minus_step_exact e Hir) in Cn1.
    destruct (setCount_count e (count e - stepWidth e)) as [Hacc Hrej].
    destruct (Z_le_gt_dec (lowerLimit e) (count e - stepWidth e)) as [Hle|Hgt].
    + rewrite Hacc in Cn1 by lia.
      destruct (IH e1) as (e' & out & Hp & R & F & Cn); try lia; try exact Hls.
      exists e', (o1 ++ out).
      split; [simpl concat; apply (polls_seq _ _ _ _ _ _ _ Hp1 Hp)|].
      rewrite !count_flag_app, F1, R1, F, R.
      split; [reflexivity|]. split; [reflexivity|].
      rewrite Cn, Cn1, Lo1, St1.
      replace (count e - stepWidth e - lowerLimit e)
        with (count e - lowerLimit e + (-1) * stepWidth e) by lia.
      rewrite Z.div_add by lia.
      simpl length. rewrite Nat2Z.inj_succ.
      set (q := (count e - lowerLimit e) / stepWidth e).
      set (k := Z.of_nat (length ls)).
      replace (Z.min (Z.succ k) q) with (Z.min k (q + -1) + 1) by lia.
      ring.
    + rewrite Hrej in Cn1 by lia.
      destruct (IH e1) as (e' & out & Hp & R & F & Cn); try lia; try exact Hls.
      exists e', (o1 ++ out).
      split; [simpl concat; apply (polls_seq _ _ _ _ _ _ _ Hp1 Hp)|].
      rewrite !count_flag_app, F1, R1, F, R.
      split; [reflexivity|]. split; [reflexivity|].
      rewrite Cn, Cn1, Lo1, St1.
      rewrite (Z.div_small (count e - lowerLimit e) (stepWidth e)) by lia.
      rewrite !Z.min_r by lia. reflexivity.
Qed.

(** X13.  A forward detent followed by a reverse detent.  When the forward step
    is accepted the counter is back at its old value; when the forward step
    is rejected at the upper limit and the reverse step is accepted, the
    pair leaves the counter one step lower. *)
Theorem forward_then_reverse_detent
        (e : RotaryEncoder) (lf lr : list Inputs) :
  encoderStatus e <= 0 ->
  map phases lf = forward_cycle -> map phases lr = reverse_cycle ->
  lowerLimit e <= count e <= upperLimit e ->
  0 <= stepWidth e ->
  in_int_range (count e - stepWidth e) ->
  in_int_range (count e + stepWidth e) ->
  exists e' out,
    polls e (lf ++ lr) = Some (e', out) /\
    count_flag Forward out = 1%nat /\ count_flag Reverse out = 1%nat /\
    (count e + stepWidth e <= upperLimit e -> count e' = count e) /\
    (count e + stepWidth e > upperLimit e ->
     lowerLimit e <= count e - stepWidth e ->
     count e' = count e - stepWidth e).
Proof.
  intros Hes Hf Hr Hin Hs Hlo Hup.
  destruct (map_length5 _ _ _ _ _ _ _ Hf) as (i0 & i1 & i2 & i3 & i4 & ->).
  destruct (map_length5 _ _ _ _ _ _ _ Hr) as (j0 & j1 & j2 & j3 & j4 & ->).
  destruct (forward_detent e i0 i1 i2 i3 i4 Hes Hf)
    as (e1 & o1 & Hp1 & F1 & R1 & Hes1 & Lo1 & Up1 & St1 & Cn1).
  destruct (reverse_detent e1 j0 j1 j2 j3 j4 ltac:(lia) Hr)
    as (e2 & o2 & Hp2 & F2 & R2 & Hes2 & Lo2 & Up2 & St2 & Cn2).
  exists e2, (o1 ++ o2).
  split; [apply (polls_seq _ _ _ _ _ _ _ Hp1 Hp2)|].
  rewrite !count_flag_app, F1, R1, F2, R2.
  split; [reflexivity|]. split; [reflexivity|].
  rewrite (count_plus_step_exact e Hup) in Cn1.
  destruct (setCount_count e (count e + stepWidth e)) as [Hacc Hrej].
  destruct (setCount_count e1 (count e1 - stepWidth e1)) as [Hacc1 Hrej1].
  unfold in_int_range in *.
  split.
  - intros Hle. rewrite Hacc in Cn1 by lia.
    assert (Hir : in_int_range (count e1 - stepWidth e1))
      by (unfold in_int_range; rewrite Cn1, St1; lia).
    rewrite (count_minus_step_exact e1 Hir) in Cn2.
    rewrite Hacc1 in Cn2 by (rewrite Lo1, Up1, Cn1, St1; lia).
    rewrite Cn2, Cn1, St1. lia.
  - intros Hgt Hle. rewrite Hrej in Cn1 by lia.
    assert (Hir : in_int_range (count e1 - stepWidth e1))
      by (unfold in_int_range; rewrite Cn1, St1; lia).
    rewrite (count_minus_step_exact e1 Hir) in Cn2.
    rewrite Hacc1 in Cn2 by (rewrite Lo1, Up1, Cn1, St1; lia).
    rewrite Cn2, Cn1, St1. reflexivity.
Qed.

(** ** An inverted range freezes the counter *)

Lemma setCount_inverted_range (e : RotaryEncoder) (v : Z) :
  lowerLimit e > upperLimit e -> setCount e v = e.
Proof. intros H. apply setCount_rejects. lia. Qed.

(** X15.  While [lowerLimit > upperLimit], no operation other than [setRange]
    changes the counter: every [setCount] and every detent is rejected.
    The program runs without an undefined lookup. *)
Theorem inverted_range_freezes_counter (ops : list Op) (e : RotaryEncoder) :
  lowerLimit e > upperLimit e ->
  encoderStatus e <= 6 ->
  Forall no_setRange ops ->
  exists e',
    run ops e = Some e' /\
    count e' = count e /\
    lowerLimit e' = lowerLimit e /\ upperLimit e' = upperLimit e.
Proof.
  intros Hinv H6 Hops.
  destruct (run_invariant
              (fun x => encoderStatus x <= 6 /\ count x = count e /\
                        lowerLimit x = lowerLimit e /\
                        upperLimit x = upperLimit e)
              no_setRange (fun _ => True)) with (ops := ops) (e := e)
    as (e' & Hrun & _ & Hc & Hl & Hu).
  - intros x (H & _). exact H.
  - intros x i x' r fx (Hx6 & Hxc & Hxl & Hxu) Hg. split; [|exact I].
    pose proof (getStatus_status_ok _ _ _ _ _ Hg) as Hok. unfold status_ok in Hok.
    destruct (getStatus_inv _ _ _ _ _ Hg)
      as (n & m & k & _ & _ & _ & _ & _ & Hlo & Hup & _ & _ & _ & _ & _ & _ & _
          & _ & Hcases).
    assert (Hxinv : lowerLimit x > upperLimit x) by lia.
    rewrite !(setCount_inverted_range x _ Hxinv) in Hcases.
    repeat split; try lia; congruence.
  - intros x (Hx6 & Hxc & Hxl & Hxu). simpl. repeat split; auto; lia.
  - intros x t Hx. exact Hx.
  - intros x l u s Hq _. destruct Hq.
  - intros x v (Hx6 & Hxc & Hxl & Hxu).
    rewrite (setCount_inverted_range x v) by lia. auto.
  - exact Hops.
  - auto.
  - exists e'. auto.
Qed.

(** ** A step width of 0 *)

(** X14.  With [stepWidth = 0] every run of polls is defined and no poll
    changes the counter, whatever detents the polls complete. *)
Theorem zero_step_keeps_counter (l : list Inputs) (e : RotaryEncoder) :
  stepWidth e = 0 -> in_int_range (count e) -> encoderStatus e <= 6 ->
  exists e' out, polls e l = Some (e', out) /\ count e' = count e.
Proof.
  revert e. induction l as [|i l IH]; intros e Hs Hir H6; simpl.
  - eauto.
  - destruct (getStatus_defined e i H6) as (e1 & r & fx & Hg). rewrite Hg.
    pose proof (getStatus_status_ok _ _ _ _ _ Hg) as Hok. unfold status_ok in Hok.
    destruct (getStatus_inv _ _ _ _ _ Hg)
      as (n & m & k & _ & _ & _ & _ & _ & _ & _ & Hst & _ & _ & _ & _ & _ & _
          & _ & Hcases).
    assert (Hplus : count_plus_step e = count e).
    { rewrite count_plus_step_exact; rewrite Hs, Z.add_0_r; auto. }
    assert (Hminus : count_minus_step e = count e).
    { rewrite count_minus_step_exact; rewrite Hs, Z.sub_0_r; auto. }
    assert (Hset : count (setCount e (count e)) = count e).
    { unfold setCount. destruct (_ && _); reflexivity. }
    rewrite Hplus, Hminus, Hset in Hcases.
    assert (Hc1 : count e1 = count e).
    { destruct Hcases as [(_ & _ & ?) | [(_ & _ & ?) | (_ & _ & _ & ?)]]; auto. }
    destruct (IH e1) as (e' & out & Hp & Hc'); try lia; try congruence.
    rewrite Hp. exists e', ((r, fx) :: out). split; [reflexivity|]. congruence.
Qed.

(** ** [begin] *)

(** X17.  [begin] forgets a half-done detent and the stored switch level and
    keeps the counter: whatever the object was, the first poll after [begin]
    is defined, reports no movement, no release and no long press, leaves
    the counter alone, and reports [ButtonPressed] exactly when a switch pin
    is configured and reads high, also when the switch was already down
    before [begin]. *)
Theorem begin_restarts_decoding (e : RotaryEncoder) (i : Inputs) :
  exists e' r fx,
    getStatus (fst (begin e)) i = Some (e', r, fx) /\
    contains r Forward = false /\ contains r Reverse = false /\
    contains r ButtonReleased = false /\
    contains r ButtonLongPressed = false /\
    contains r ButtonPressed = (switchPin e >=? 0) && sampleS i /\
    count e' = count e.
Proof.
  assert (H0 : encoderStatus (fst (begin e)) = 0) by reflexivity.
  assert (Hss : switchStatus (fst (begin e)) = 0) by reflexivity.
  assert (Hsp : switchPin (fst (begin e)) = switchPin e) by reflexivity.
  assert (Hcn : count (fst (begin e)) = count e) by reflexivity.
  generalize dependent (fst (begin e)). intros b H0 Hss Hsp Hcn.
  assert (Hn : encoderStatus (normalize b) = 0) by (apply normalize_nonpos; lia).
  destruct (transition_defined (input_index (sampleA i) (sampleB i)) 0)
    as [n Ht]; [apply input_index_bounds | lia |].
  assert (Hn0 : 0 <= n).
  { destruct (sampleA i), (sampleB i); vm_compute in Ht; inversion Ht; lia. }
  destruct (poll_quiet b i 0 n Hn Ht Hn0)
    as (e' & r & fx & Hg & _ & _ & _ & _ & _ & Hc & Hf & Hr).
  exists e', r, fx. split; [exact Hg|].
  destruct (getStatus_button_flags _ _ _ _ _ Hg) as (P & Q & L & _).
  cbv zeta in P, Q, L.
  rewrite P, Q, L, Hf, Hr, Hss.
  unfold switch_level, long_press_due. rewrite Hsp.
  destruct (switchPin e >=? 0); destruct (sampleS i); simpl;
    repeat split; congruence.
Qed.

(** ** Long-press timing across a wrap of [millis()] *)

Lemma long_modulus_pos : 0 < long_modulus.
Proof. unfold long_modulus. apply Z.pow_pos_nonneg; lia. Qed.

Lemma ulong_sub_millis (i i0 : Inputs) :
  0 <= clock i - clock i0 < long_modulus ->
  ulong_sub (millis i) (millis i0) = clock i - clock i0.
Proof.
  intros H. unfold ulong_sub, millis.
  rewrite Zminus_mod_idemp_l, Zminus_mod_idemp_r.
  apply Z.mod_small. exact H.
Qed.

(** X18.  While the switch is held after a press stored at the poll [i0] (press
    time not 0, timeout [T] not 0): a poll taken less than a full period of
    [millis()] after [i0] reports [ButtonLongPressed] exactly when more than
    [T] milliseconds of the real clock have passed, also when [millis()] has
    wrapped around in between. *)
Theorem long_press_timing_survives_wrap
        (e : RotaryEncoder) (i0 i : Inputs) (T : Z) :
  pressed e (millis i0) T -> millis i0 <> 0 -> T <> 0 ->
  sampleS i = true ->
  0 <= clock i - clock i0 < long_modulus ->
  exists e' r fx,
    getStatus e i = Some (e', r, fx) /\
    contains r ButtonLongPressed = (clock i - clock i0 >? T) /\
    timePressed e' = (if clock i - clock i0 >? T then 0 else millis i0).
Proof.
  intros Hp Ht0 HT Hs Hclk.
  destruct (pressed_poll e i (millis i0) T Hp Hs) as (e' & r & fx & Hg & Hc).
  exists e', r, fx. split; [exact Hg|].
  rewrite (ulong_sub_millis i i0 Hclk) in Hc.
  destruct Hc as [(_ & _ & Hgt & Hf & Hp') | ([|[|Hle]] & Hf & Hp')];
    try congruence.
  - replace (clock i - clock i0 >? T) with true
      by (symmetry; rewrite Z.gtb_ltb; apply Z.ltb_lt; lia).
    split; [exact Hf|]. destruct Hp' as (_ & _ & _ & Htp & _). exact Htp.
  - replace (clock i - clock i0 >? T) with false
      by (symmetry; rewrite Z.gtb_ltb; apply Z.ltb_ge; lia).
    split; [exact Hf|]. destruct Hp' as (_ & _ & _ & Htp & _). exact Htp.
Qed.

(** X19.  Once the long press of a press has been reported (the press time is
    cleared), no poll reports it again while the switch stays down, whatever
    timeout is set in between. *)
Theorem reported_long_press_is_not_repeated
        (e : RotaryEncoder) (T T' : Z) (l : list Inputs) :
  pressed e 0 T ->
  Forall (fun j => sampleS j = true) l ->
  exists e' out,
    polls (setSwitchTimeout e T') l = Some (e', out) /\
    long_press_flags out = repeat false (length l).
Proof.
  intros (H6 & Hpin & Hss & Htp & Hto) Hl.
  assert (Hp : pressed (setSwitchTimeout e T') 0 T').
  { unfold pressed. simpl. auto. }
  destruct (pressed_polls_quiet l _ 0 T' Hp Hl) as (e' & out & Hpo & _ & Hf).
  { apply Forall_forall. intros; auto. }
  eauto.
Qed.

(** ** The settling delay along a run *)

Lemma last_cons_default {A : Type} (l : list A) (a d : A) :
  last (a :: l) d = last l a.
Proof.
  revert a d. induction l as [|b l IH]; intros a d; [reflexivity|].
  change (last (a :: b :: l) d) with (last (b :: l) d).
  rewrite (IH b d), (IH b a). reflexivity.
Qed.

(** X20.  In every run of polls, a poll performs one [delay(10)] when its status
    differs from the status of the poll before it (from the stored
    [lastResult] for the first poll) and performs nothing otherwise; the
    object remembers the status of the last poll. *)
Theorem polls_delay_on_change (l : list Inputs) (e e' : RotaryEncoder)
        (out : list (Z * list effect)) :
  polls e l = Some (e', out) ->
  delays_follow (lastResult e) out /\
  lastResult e' = last (map fst out) (lastResult e) /\
  length out = length l.
Proof.
  revert e out. induction l as [|i l IH]; intros e out Hp; simpl in Hp.
  - inversion Hp; subst. simpl. auto.
  - destruct (getStatus e i) as [[[e1 r] fx]|] eqn:Hg; [|discriminate].
    destruct (polls e1 l) as [[e2 out1]|] eqn:Hp1; [|discriminate].
    inversion Hp; subst e2 out. clear Hp.
    destruct (getStatus_inv _ _ _ _ _ Hg)
      as (n & m & k & _ & _ & _ & _ & _ & _ & _ & _ & _ & _ & Hlr & Hfx & _).
    destruct (IH e1 out1 Hp1) as (Hd & Hl & Hlen).
    rewrite Hlr in Hd, Hl.
    split; [simpl; auto|]. split; [|simpl; congruence].
    rewrite Hl. cbn [map fst]. symmetry. apply last_cons_default.
Qed.

(** ** [waitForStatus] *)

(** X21.  [waitForStatus] returns at the first poll whose status is not [None],
    with that status and the object that poll leaves; it has called
    [yield()] once after every poll before, and does not read the samples
    that follow. *)
Theorem waitForStatus_returns_first_event
        (before : list Inputs) (i : Inputs) (after : list Inputs)
        (e e1 e2 : RotaryEncoder) (out : list (Z * list effect))
        (r : Z) (fx : list effect) :
  polls e before = Some (e1, out) ->
  Forall (fun o => fst o = St_None) out ->
  getStatus e1 i = Some (e2, r, fx) ->
  r <> St_None ->
  waitForStatus e (before ++ i :: after) =
  Some (Returned e2 r, yielding out ++ fx).
Proof.
  revert e out. induction before as [|j before IH]; intros e out Hp Hall Hg Hr.
  - simpl in Hp. inversion Hp; subst e1 out. simpl. rewrite Hg.
    apply Z.eqb_neq in Hr. rewrite Hr. reflexivity.
  - simpl in Hp.
    destruct (getStatus e j) as [[[e' s] fxj]|] eqn:Hj; [|discriminate].
    destruct (polls e' before) as [[e'' out']|] eqn:Hp'; [|discriminate].
    inversion Hp; subst e'' out. clear Hp.
    apply Forall_cons_iff in Hall. destruct Hall as [Hs Hall]. simpl in Hs.
    simpl. rewrite Hj. subst s. rewrite Z.eqb_refl.
    rewrite (IH e' out' Hp' Hall Hg Hr).
    unfold yielding. simpl. rewrite <- !app_assoc. reflexivity.
Qed.

(** X22.  As long as every poll returns [None], [waitForStatus] does not return:
    it has polled every sample, yielded after each poll, and left the object
    the polls leave. *)
Theorem waitForStatus_blocks_without_event
        (l : list Inputs) (e e' : RotaryEncoder) (out : list (Z * list effect)) :
  polls e l = Some (e', out) ->
  Forall (fun o => fst o = St_None) out ->
  waitForStatus e l = Some (Polling e', yielding out).
Proof.
  revert e out. induction l as [|i l IH]; intros e out Hp Hall; simpl in Hp.
  - inversion Hp; subst. reflexivity.
  - destruct (getStatus e i) as [[[e1 s] fx]|] eqn:Hg; [|discriminate].
    destruct (polls e1 l) as [[e2 out1]|] eqn:Hp1; [|discriminate].
    inversion Hp; subst e2 out. clear Hp.
    apply Forall_cons_iff in Hall. destruct Hall as [Hs Hall]. simpl in Hs.
    simpl. rewrite Hg. subst s. rewrite Z.eqb_refl.
    rewrite (IH e1 out1 Hp1 Hall).
    unfold yielding. simpl. rewrite <- !app_assoc. reflexivity.
Qed.

(** ** An aborted detent is not forgotten *)



(** ** [setRange] twice *)

(** X16.  Calling [setRange] again with the same arguments changes nothing. *)
Theorem setRange_idempotent (e : RotaryEncoder) (l u s : Z) :
  setRange (setRange e l u s) l u s = setRange e l u s.
Proof.
  destruct (Z_le_gt_dec l u) as [H|H].
  - rewrite (setRange_ordered (setRange e l u s) l u s H).
    rewrite (setRange_ordered e l u s H). cbn. f_equal. lia.
  - rewrite (setRange_inverted (setRange e l u s) l u s H).
    rewrite (setRange_inverted e l u s H). cbn. reflexivity.
Qed.

End Platform.

(** * Examples on the Arduino Uno *)

(** A forward detent from the constructed object counts to 1; a reverse
    detent from counter 4 counts to 3. *)
Lemma C1_detent_witness :
  encoderStatus (constructor 2 3 (-1)) <= 0 /\
  (exists e' out,
      polls uno_int_bits uno_long_bits (constructor 2 3 (-1)) forward_samples
      = Some (e', out) /\
      count_flag Forward out = 1%nat /\ count e' = 1) /\
  (exists e' out,
      polls uno_int_bits uno_long_bits (setCount (constructor 2 3 (-1)) 4)
        reverse_samples
      = Some (e', out) /\
      count_flag Reverse out = 1%nat /\ count e' = 3).
Proof.
  split; [simpl; lia|]. split.
  - destruct (proj1 (C1_detent_moves_counter_once uno_int_bits uno_long_bits
                       (constructor 2 3 (-1)) forward_samples
                       ltac:(simpl; lia)) eq_refl)
      as (e' & out & Hp & Hf & _ & Hc).
    exists e', out. split; [exact Hp|]. split; [exact Hf|].
    assert (Hir : in_int_range uno_int_bits
                    (count (constructor 2 3 (-1)) +
                     stepWidth (constructor 2 3 (-1))))
      by (vm_compute; split; discriminate).
    destruct (Hc Hir) as [Hin _]. rewrite Hin; [reflexivity|simpl; lia].
  - destruct (proj2 (C1_detent_moves_counter_once uno_int_bits uno_long_bits
                       (setCount (constructor 2 3 (-1)) 4) reverse_samples
                       ltac:(simpl; lia)) eq_refl)
      as (e' & out & Hp & Hr & _ & Hc).
    exists e', out. split; [exact Hp|]. split; [exact Hr|].
    assert (Hir : in_int_range uno_int_bits
                    (count (setCount (constructor 2 3 (-1)) 4) -
                     stepWidth (setCount (constructor 2 3 (-1)) 4)))
      by (vm_compute; split; discriminate).
    destruct (Hc Hir) as [Hin _]. rewrite Hin; [reflexivity|simpl; lia].
Defined.

(** With the range inverted to 5..3 the constructed counter 0 lies below
    [lowerLimit]; a forward detent reports [Forward] once, the new value 1
    does not exceed [upperLimit], and still the counter is not changed. *)
Lemma C1_counterexample_below_lower_limit :
  let e := setRange (constructor 2 3 (-1)) 5 3 1 in
  encoderStatus e = 0 /\
  map phases forward_samples = forward_cycle /\
  count e + stepWidth e <= upperLimit e /\
  exists e' out,
    polls uno_int_bits uno_long_bits e forward_samples = Some (e', out) /\
    count_flag Forward out = 1%nat /\
    count e' = count e /\
    count e' <> count e + stepWidth e.
Proof.
  cbv zeta. split; [reflexivity|]. split; [reflexivity|].
  split; [vm_compute; discriminate|].
  eexists _, _. split; [vm_compute; reflexivity|].
  split; [reflexivity|]. split; [reflexivity|]. vm_compute. discriminate.
Qed.

(** On a 16-bit [int] a step width of 65535 wraps: a forward detent from
    counter 5 in the range 0..10 stores 4. *)
Example forward_step_wraps_on_uno :
  let e := setCount (setRange (constructor 2 3 (-1)) 0 10 65535) 5 in
  exists e' out,
    polls uno_int_bits uno_long_bits e forward_samples = Some (e', out) /\
    count e' = 4.
Proof. eexists _, _. split; vm_compute; reflexivity. Qed.

(** Three polls of the idle knob after construction: nothing is reported,
    nothing is delayed. *)
Lemma C2_unchanged_input_witness :
  exists e1 r1 fx1 e2 r2 fx2 e' out,
    getStatus uno_int_bits uno_long_bits (constructor 2 3 4) (idle_at 0)
    = Some (e1, r1, fx1) /\
    getStatus uno_int_bits uno_long_bits e1 (idle_at 1) = Some (e2, r2, fx2) /\
    polls uno_int_bits uno_long_bits e2 [idle_at 2; idle_at 3] = Some (e', out) /\
    count e' = count e1 /\
    r2 = St_None /\ out = [(St_None, []); (St_None, [])].
Proof.
  destruct (C2_unchanged_input_is_quiet uno_int_bits uno_long_bits
              (constructor 2 3 4) false false false (idle_at 0) (idle_at 1)
              [idle_at 2; idle_at 3])
    as (e1 & r1 & fx1 & e2 & r2 & fx2 & e' & out & H1 & H2 & H3 & _ & Hc & _
        & _ & _ & Hq).
  - simpl. lia.
  - repeat constructor.
  - exists e1, r1, fx1, e2, r2, fx2, e', out.
    destruct Hq as [Hr2 Hout]; [left; vm_compute; discriminate|].
    repeat split; assumption.
Defined.

(** The switch went down at 1000 ms with a timeout of 500 ms and is held
    while the knob rests.  Four further polls read the same phase levels and
    the same switch level: the object has state 0, the first three return
    [None], and the fourth returns [ButtonLongPressed] and performs the delay
    once more. *)
Lemma C2_counterexample_long_press :
  exists e r fx e',
    getStatus uno_int_bits uno_long_bits
      (setSwitchTimeout (constructor 2 3 4) 500) (held_at 1000)
    = Some (e, r, fx) /\
    encoderStatus e = 0 /\ switchStatus e = HIGH /\
    polls uno_int_bits uno_long_bits e
      [held_at 1100; held_at 1200; held_at 1300; held_at 1800]
    = Some (e', [ (St_None, [Delay 10]); (St_None, []); (St_None, []);
                  (ButtonLongPressed, [Delay 10]) ]) /\
    ButtonLongPressed <> St_None.
Proof.
  do 4 eexists. split; [vm_compute; reflexivity|].
  split; [reflexivity|]. split; [reflexivity|].
  split; [vm_compute; reflexivity|]. discriminate.
Qed.

(** A stored status of -1 and the input (1, 0): the poll is the poll from
    status 0, and moves to state 1. *)
Lemma C3_negative_status_witness :
  let e := set_encoderStatus (constructor 2 3 4) (-1) in
  let i := mkInputs true false false 0 in
  encoderStatus e < 0 /\
  getStatus uno_int_bits uno_long_bits e i =
  getStatus uno_int_bits uno_long_bits (set_encoderStatus e 0) i /\
  exists e' r fx,
    getStatus uno_int_bits uno_long_bits e i = Some (e', r, fx) /\
    encoderStatus e' = 1 /\ valid_status r.
Proof.
  cbv zeta.
  assert (Hneg : encoderStatus (set_encoderStatus (constructor 2 3 4) (-1)) < 0)
    by (simpl; lia).
  split; [exact Hneg|].
  destruct (C3_negative_status_heals uno_int_bits uno_long_bits
              (set_encoderStatus (constructor 2 3 4) (-1))
              (mkInputs true false false 0) Hneg)
    as (Heq & _ & n & e' & r & fx & Ht & Hg & Hes & Hv).
  split; [exact Heq|].
  exists e', r, fx. split; [exact Hg|]. split; [|exact Hv].
  rewrite Hes. simpl in Ht. inversion Ht. reflexivity.
Defined.

(** A stored status of 7 is not reset: with the input (1, 1) the lookup
    [transition[3][7]] lies outside the table, while the same poll from
    status 0 is defined. *)
Lemma C3_counterexample_status_above_6 :
  let e := set_encoderStatus (constructor 2 3 4) 7 in
  let i := mkInputs true true false 0 in
  encoderStatus (normalize e) = 7 /\
  transition (input_index (sampleA i) (sampleB i)) (encoderStatus (normalize e))
  = None /\
  getStatus uno_int_bits uno_long_bits e i = None /\
  getStatus uno_int_bits uno_long_bits (set_encoderStatus e 0) i <> None.
Proof.
  cbv zeta. repeat split; try reflexivity. vm_compute. discriminate.
Qed.

(** A program with ordered ranges: after its first three operations the
    counter lies within the limits. *)
Lemma C4_count_within_limits_witness :
  let ops := [ OpSetRange 2 8 3; OpGetStatus (idle_at 0); OpSetCount 20;
               OpWaitForStatus forward_samples; OpSetRange (-4) (-1) 1 ] in
  Forall range_ok ops /\
  exists e,
    run uno_int_bits uno_long_bits (firstn 3 ops) (constructor 2 3 4) = Some e /\
    lowerLimit e <= count e <= upperLimit e.
Proof.
  cbv zeta.
  assert (Hops : Forall range_ok
                   [ OpSetRange 2 8 3; OpGetStatus (idle_at 0); OpSetCount 20;
                     OpWaitForStatus forward_samples; OpSetRange (-4) (-1) 1 ])
    by (repeat constructor; simpl; lia).
  split; [exact Hops|].
  exact (C4_count_within_limits uno_int_bits uno_long_bits 2 3 4 _ 3%nat Hops).
Defined.

(** On the constructed object (range 0..10): 11 is rejected, 7 is stored. *)
Lemma C5_setCount_witness :
  setCount (constructor 2 3 4) 11 = constructor 2 3 4 /\
  count (setCount (constructor 2 3 4) 7) = 7.
Proof.
  split.
  - apply (proj1 (C5_setCount_rejects_or_stores (constructor 2 3 4) 11)).
    right. simpl. lia.
  - rewrite (proj2 (C5_setCount_rejects_or_stores (constructor 2 3 4) 7));
      [reflexivity | simpl; lia].
Defined.

(** [setRange(3, 7, 2)] on the constructed counter 0 moves it up to 3,
    [setRange(-5, -2, 1)] moves it down to -2, and [setRange(-4, 20, 1)]
    leaves it at 0. *)
Lemma C6_setRange_witness :
  3 <= 7 /\
  lowerLimit (setRange (constructor 2 3 4) 3 7 2) = 3 /\
  upperLimit (setRange (constructor 2 3 4) 3 7 2) = 7 /\
  stepWidth (setRange (constructor 2 3 4) 3 7 2) = 2 /\
  count (setRange (constructor 2 3 4) 3 7 2) = 3 /\
  count (setRange (constructor 2 3 4) (-5) (-2) 1) = -2 /\
  count (setRange (constructor 2 3 4) (-4) 20 1) = 0.
Proof.
  assert (H37 : 3 <= 7) by lia.
  assert (H52 : -5 <= -2) by lia.
  assert (H420 : -4 <= 20) by lia.
  split; [exact H37|].
  destruct (C6_setRange_reclamps (constructor 2 3 4) 3 7 2 H37)
    as (Hl & Hu & Hs & Hlow & _).
  destruct (C6_setRange_reclamps (constructor 2 3 4) (-5) (-2) 1 H52)
    as (_ & _ & _ & _ & Hhigh & _).
  destruct (C6_setRange_reclamps (constructor 2 3 4) (-4) 20 1 H420)
    as (_ & _ & _ & _ & _ & Hin & _).
  split; [exact Hl|]. split; [exact Hu|]. split; [exact Hs|].
  split; [apply Hlow; simpl; lia|].
  split; [apply Hhigh; simpl; lia|].
  apply Hin. simpl. lia.
Defined.

(** A press at 1000 ms with a timeout of 500 ms: polls at 1200 and 1500 do
    not report the long press, the poll at 1501 does, the polls at 2000 and
    3000 do not.  Without a timeout no poll of the same run reports it. *)
Lemma C7_long_press_witness :
  (exists e' out,
      polls uno_int_bits uno_long_bits (constructor 2 3 4)
        [held_at 1000; held_at 1200; held_at 1501; held_at 2000]
      = Some (e', out) /\
      long_press_flags out = [false; false; false; false]) /\
  (exists e0 r0 fx0 e' out,
      getStatus uno_int_bits uno_long_bits
        (setSwitchTimeout (constructor 2 3 4) 500) (held_at 1000)
      = Some (e0, r0, fx0) /\
      contains r0 ButtonPressed = true /\
      polls uno_int_bits uno_long_bits e0
        [held_at 1200; held_at 1500; held_at 1501; held_at 2000; held_at 3000]
      = Some (e', out) /\
      long_press_flags out = [false; false; true; false; false]) /\
  (exists e0 r0 fx0 e' out,
      getStatus uno_int_bits uno_long_bits
        (setSwitchTimeout (constructor 2 3 4) 500) (held_at 1000)
      = Some (e0, r0, fx0) /\
      polls uno_int_bits uno_long_bits e0 [held_at 1200; held_at 1500]
      = Some (e', out) /\
      long_press_flags out = [false; false]).
Proof.
  split; [|split].
  - apply (proj1 (C7_long_press_once uno_int_bits uno_long_bits
                    (constructor 2 3 4))
             [held_at 1000; held_at 1200; held_at 1501; held_at 2000]).
    + reflexivity.
    + simpl. lia.
  - destruct (proj1 (proj2 (C7_long_press_once uno_int_bits uno_long_bits
                              (setSwitchTimeout (constructor 2 3 4) 500)))
                (held_at 1000) [held_at 1200; held_at 1500] (held_at 1501)
                [held_at 2000; held_at 3000])
      as (e0 & r0 & fx0 & e' & out & Hg & Hbp & _ & _ & Hp & Hf).
    + simpl. lia.
    + simpl. lia.
    + simpl. unfold HIGH. lia.
    + reflexivity.
    + simpl. lia.
    + vm_compute. discriminate.
    + repeat constructor.
    + repeat constructor; vm_compute; discriminate.
    + vm_compute. reflexivity.
    + exists e0, r0, fx0, e', out. repeat split; assumption.
  - apply (proj2 (proj2 (C7_long_press_once uno_int_bits uno_long_bits
                           (setSwitchTimeout (constructor 2 3 4) 500)))
             (held_at 1000) [held_at 1200; held_at 1500]).
    + simpl. lia.
    + simpl. lia.
    + simpl. unfold HIGH. lia.
    + reflexivity.
    + simpl. lia.
    + repeat constructor.
    + repeat constructor; vm_compute; discriminate.
Defined.

(** A press at 1000 ms with a timeout of 500 ms: at the poll at 1500 ms
    the 500 ms of the timeout have elapsed, and [ButtonLongPressed] is not
    reported; it is reported one millisecond later. *)
Lemma C7_counterexample_exactly_timeout :
  let e := setSwitchTimeout (constructor 2 3 4) 500 in
  exists e0 r0 fx0 e1 r1 fx1 e2 r2 fx2,
    getStatus uno_int_bits uno_long_bits e (held_at 1000) = Some (e0, r0, fx0) /\
    contains r0 ButtonPressed = true /\ timePressed e0 = 1000 /\
    getStatus uno_int_bits uno_long_bits e0 (held_at 1500) = Some (e1, r1, fx1) /\
    1500 - timePressed e0 >= timeout e /\
    contains r1 ButtonLongPressed = false /\
    getStatus uno_int_bits uno_long_bits e1 (held_at 1501) = Some (e2, r2, fx2) /\
    contains r2 ButtonLongPressed = true.
Proof.
  cbv zeta. do 9 eexists.
  split; [vm_compute; reflexivity|]. split; [reflexivity|].
  split; [reflexivity|]. split; [vm_compute; reflexivity|].
  split; [vm_compute; discriminate|]. split; [reflexivity|].
  split; [vm_compute; reflexivity|]. reflexivity.
Qed.

(** A press seen by the poll at 0 ms stores the press time 0, which is also
    the mark for no press: the long press is never reported, however long
    the switch is held. *)
Example press_at_time_zero_reports_no_long_press :
  let e := setSwitchTimeout (constructor 2 3 4) 500 in
  exists e' out,
    polls uno_int_bits uno_long_bits e
      [held_at 0; held_at 400; held_at 501; held_at 5000]
    = Some (e', out) /\
    long_press_flags out = [false; false; false; false].
Proof. cbv zeta. eexists _, _. split; vm_compute; reflexivity. Qed.

(** [setRange(5, 3, 1)] on the constructed object: the limits are stored
    and the counter stays 0, outside both. *)
Lemma C9_setRange_inverted_witness :
  5 > 3 /\
  lowerLimit (setRange (constructor 2 3 4) 5 3 1) = 5 /\
  upperLimit (setRange (constructor 2 3 4) 5 3 1) = 3 /\
  stepWidth (setRange (constructor 2 3 4) 5 3 1) = 1 /\
  count (setRange (constructor 2 3 4) 5 3 1) = 0.
Proof.
  assert (H53 : 5 > 3) by lia.
  split; [exact H53|].
  destruct (C9_setRange_inverted_keeps_count (constructor 2 3 4) 5 3 1 H53)
    as (Hl & Hu & Hs & Hc & _).
  split; [exact Hl|]. split; [exact Hu|]. split; [exact Hs|]. exact Hc.
Defined.

(** [waitForStatus] returns as soon as a poll reports an event: on the
    samples of a forward detent it returns [Forward] after four yields. *)
Example waitForStatus_returns_forward :
  exists e' fx,
    waitForStatus uno_int_bits uno_long_bits (constructor 2 3 (-1))
      forward_samples
    = Some (Returned e' Forward, fx) /\
    fx = [Yield; Yield; Yield; Yield; Delay 10] /\ count e' = 1.
Proof. eexists _, _. split; [vm_compute; reflexivity|]. split; reflexivity. Qed.

(** * Examples for the further properties *)

Ltac eval_prop := vm_compute; repeat split; first [reflexivity | discriminate].

(** The poll that sees the switch go down on the constructed object. *)
Lemma getStatus_flags_exclusive_witness :
  exists e' r fx,
    getStatus uno_int_bits uno_long_bits (constructor 2 3 4) (held_at 1000)
    = Some (e', r, fx) /\
    0 <= r < 32 /\
    contains r Forward && contains r Reverse = false /\
    contains r ButtonPressed && contains r ButtonReleased = false.
Proof.
  destruct (getStatus uno_int_bits uno_long_bits (constructor 2 3 4)
              (held_at 1000)) as [[[e' r] fx]|] eqn:Hg;
    [|vm_compute in Hg; discriminate].
  exists e', r, fx. split; [reflexivity|].
  destruct (getStatus_flags_exclusive _ _ _ _ _ _ _ Hg) as (H1 & H2 & _ & H4 & _).
  auto.
Defined.

(** The poll that completes a forward detent reads both phases low and
    keeps the step width. *)
Lemma getStatus_moves_only_at_rest_witness :
  exists e' r fx,
    getStatus uno_int_bits uno_long_bits
      (set_encoderStatus (constructor 2 3 4) 3) (idle_at 0)
    = Some (e', r, fx) /\
    contains r Forward = true /\
    sampleA (idle_at 0) = false /\ sampleB (idle_at 0) = false /\
    stepWidth e' = 1.
Proof.
  destruct (getStatus uno_int_bits uno_long_bits
              (set_encoderStatus (constructor 2 3 4) 3) (idle_at 0))
    as [[[e' r] fx]|] eqn:Hg; [|vm_compute in Hg; discriminate].
  exists e', r, fx. split; [reflexivity|].
  assert (Hf : contains r Forward = true)
    by (vm_compute in Hg; inversion Hg; reflexivity).
  destruct (getStatus_moves_only_at_rest _ _ _ _ _ _ _ Hg)
    as (Hrest & _ & _ & _ & _ & _ & _ & Hst & _).
  destruct (Hrest (or_introl Hf)) as [Ha Hb].
  split; [exact Hf|]. split; [exact Ha|]. split; [exact Hb|]. exact Hst.
Defined.

(** A press on the constructed object at 1000 ms. *)
Lemma getStatus_reports_edges_witness :
  exists e' r fx,
    getStatus uno_int_bits uno_long_bits (constructor 2 3 4) (held_at 1000)
    = Some (e', r, fx) /\
    contains r ButtonPressed = true /\ contains r ButtonReleased = false /\
    contains r ButtonLongPressed = false /\
    timePressed e' = 1000 /\ switchStatus e' = HIGH.
Proof.
  destruct (getStatus uno_int_bits uno_long_bits (constructor 2 3 4)
              (held_at 1000)) as [[[e' r] fx]|] eqn:Hg;
    [|vm_compute in Hg; discriminate].
  exists e', r, fx. split; [reflexivity|].
  destruct (getStatus_reports_edges _ _ _ _ _ _ _ Hg) as (Hp & Hr & Hedge & Hss).
  destruct Hedge as [Hl Ht]; [vm_compute; discriminate|].
  rewrite Hp, Hr, Hl, Ht, Hss. repeat split; reflexivity.
Defined.

(** The poll that completes a forward detent, with the switch up at 0 ms
    and with the switch down at 777 ms. *)
Lemma movement_ignores_switch_and_clock_witness :
  exists e1 r1 fx1 e2 r2 fx2,
    getStatus uno_int_bits uno_long_bits
      (set_encoderStatus (constructor 2 3 4) 3) (idle_at 0)
    = Some (e1, r1, fx1) /\
    getStatus uno_int_bits uno_long_bits
      (set_encoderStatus (constructor 2 3 4) 3) (held_at 777)
    = Some (e2, r2, fx2) /\
    encoderStatus e1 = encoderStatus e2 /\ count e1 = count e2 /\
    contains r1 Forward = contains r2 Forward.
Proof.
  destruct (getStatus uno_int_bits uno_long_bits
              (set_encoderStatus (constructor 2 3 4) 3) (idle_at 0))
    as [[[e1 r1] fx1]|] eqn:Hg1; [|vm_compute in Hg1; discriminate].
  destruct (getStatus uno_int_bits uno_long_bits
              (set_encoderStatus (constructor 2 3 4) 3) (held_at 777))
    as [[[e2 r2] fx2]|] eqn:Hg2; [|vm_compute in Hg2; discriminate].
  exists e1, r1, fx1, e2, r2, fx2.
  split; [reflexivity|]. split; [reflexivity|].
  destruct (movement_ignores_switch_and_clock uno_int_bits uno_long_bits _
              (idle_at 0) (held_at 777) _ _ _ _ _ _
              eq_refl eq_refl Hg1 Hg2) as (H1 & H2 & H3 & _).
  auto.
Defined.

(** A press at 5 ms, read with the knob at rest and with both phases
    high. *)
Lemma switch_ignores_phases_witness :
  exists e1 r1 fx1 e2 r2 fx2,
    getStatus uno_int_bits uno_long_bits (constructor 2 3 4) (held_at 5)
    = Some (e1, r1, fx1) /\
    getStatus uno_int_bits uno_long_bits (constructor 2 3 4)
      (mkInputs true true true 5)
    = Some (e2, r2, fx2) /\
    contains r1 ButtonPressed = contains r2 ButtonPressed /\
    timePressed e1 = timePressed e2.
Proof.
  destruct (getStatus uno_int_bits uno_long_bits (constructor 2 3 4) (held_at 5))
    as [[[e1 r1] fx1]|] eqn:Hg1; [|vm_compute in Hg1; discriminate].
  destruct (getStatus uno_int_bits uno_long_bits (constructor 2 3 4)
              (mkInputs true true true 5))
    as [[[e2 r2] fx2]|] eqn:Hg2; [|vm_compute in Hg2; discriminate].
  exists e1, r1, fx1, e2, r2, fx2.
  split; [reflexivity|]. split; [reflexivity|].
  destruct (switch_ignores_phases uno_int_bits uno_long_bits _
              (held_at 5) (mkInputs true true true 5) _ _ _ _ _ _
              eq_refl eq_refl Hg1 Hg2) as (H1 & _ & _ & _ & H5).
  auto.
Defined.

(** From status 1 (a forward detent has begun) the samples of a whole
    reverse detent report nothing and leave status 2; from status 4 the
    samples of a forward detent report nothing. *)
Lemma detent_commits_to_direction_witness :
  (exists e' out,
      polls uno_int_bits uno_long_bits
        (set_encoderStatus (constructor 2 3 4) 1) reverse_samples
      = Some (e', out) /\
      count_flag Reverse out = 0%nat /\ count e' = 0 /\
      1 <= encoderStatus e' <= 3) /\
  (exists e' out,
      polls uno_int_bits uno_long_bits
        (set_encoderStatus (constructor 2 3 4) 4) forward_samples
      = Some (e', out) /\
      count_flag Forward out = 0%nat /\ count e' = 0 /\
      4 <= encoderStatus e' <= 6).
Proof.
  split.
  - destruct (proj1 (detent_commits_to_direction uno_int_bits uno_long_bits
                       reverse_samples
                       (set_encoderStatus (constructor 2 3 4) 1)))
      as (e' & out & Hp & Himp); [simpl; lia|].
    exists e', out. split; [exact Hp|].
    apply Himp. vm_compute in Hp. inversion Hp. reflexivity.
  - destruct (proj2 (detent_commits_to_direction uno_int_bits uno_long_bits
                       forward_samples
                       (set_encoderStatus (constructor 2 3 4) 4)))
      as (e' & out & Hp & Himp); [simpl; lia|].
    exists e', out. split; [exact Hp|].
    apply Himp. vm_compute in Hp. inversion Hp. reflexivity.
Defined.

(** Phase A bouncing while phase B stays low. *)
Lemma stuck_phase_witness :
  exists e' out,
    polls uno_int_bits uno_long_bits (constructor 2 3 4)
      [ mkInputs true false false 0; mkInputs false false false 1;
        mkInputs true false false 2; mkInputs false false false 3 ]
    = Some (e', out) /\
    count_flag Forward out = 0%nat /\ count_flag Reverse out = 0%nat /\
    count e' = 0.
Proof.
  apply (stuck_phase_reports_no_movement uno_int_bits uno_long_bits
           [ mkInputs true false false 0; mkInputs false false false 1;
             mkInputs true false false 2; mkInputs false false false 3 ]
           (constructor 2 3 4)).
  - simpl. lia.
  - left. repeat constructor.
Defined.

(** Range 0..10 with step 3: five forward detents from 0 stop at 9. *)
Lemma forward_detents_witness :
  exists e' out,
    polls uno_int_bits uno_long_bits (setRange (constructor 2 3 (-1)) 0 10 3)
      (concat (repeat forward_samples 5))
    = Some (e', out) /\
    count_flag Forward out = 5%nat /\ count e' = 9.
Proof.
  destruct (forward_detents_stop_below_upper_limit uno_int_bits uno_long_bits
              (repeat forward_samples 5) (setRange (constructor 2 3 (-1)) 0 10 3))
    as (e' & out & Hp & Hf & _ & Hc).
  - eval_prop.
  - repeat constructor.
  - eval_prop.
  - eval_prop.
  - eval_prop.
  - eval_prop.
  - exists e', out. split; [exact Hp|]. split; [exact Hf|].
    rewrite Hc. vm_compute. reflexivity.
Defined.

(** Range 0..10 with step 3: five reverse detents from 10 stop at 1. *)
Lemma reverse_detents_witness :
  exists e' out,
    polls uno_int_bits uno_long_bits
      (setCount (setRange (constructor 2 3 (-1)) 0 10 3) 10)
      (concat (repeat reverse_samples 5))
    = Some (e', out) /\
    count_flag Reverse out = 5%nat /\ count e' = 1.
Proof.
  destruct (reverse_detents_stop_above_lower_limit uno_int_bits uno_long_bits
              (repeat reverse_samples 5)
              (setCount (setRange (constructor 2 3 (-1)) 0 10 3) 10))
    as (e' & out & Hp & Hr & _ & Hc).
  - eval_prop.
  - repeat constructor.
  - eval_prop.
  - eval_prop.
  - eval_prop.
  - eval_prop.
  - exists e', out. split; [exact Hp|]. split; [exact Hr|].
    rewrite Hc. vm_compute. reflexivity.
Defined.

(** From 0 a forward and a reverse detent lead back to 0; from 10, the
    upper limit, they lead to 9. *)
Lemma forward_then_reverse_witness :
  (exists e' out,
      polls uno_int_bits uno_long_bits (constructor 2 3 (-1))
        (forward_samples ++ reverse_samples)
      = Some (e', out) /\ count e' = 0) /\
  (exists e' out,
      polls uno_int_bits uno_long_bits (setCount (constructor 2 3 (-1)) 10)
        (forward_samples ++ reverse_samples)
      = Some (e', out) /\ count e' = 9).
Proof.
  split.
  - destruct (forward_then_reverse_detent uno_int_bits uno_long_bits
                (constructor 2 3 (-1)) forward_samples reverse_samples)
      as (e' & out & Hp & _ & _ & Hback & _); try eval_prop.
    exists e', out. split; [exact Hp|]. rewrite Hback; [reflexivity|eval_prop].
  - destruct (forward_then_reverse_detent uno_int_bits uno_long_bits
                (setCount (constructor 2 3 (-1)) 10) forward_samples
                reverse_samples)
      as (e' & out & Hp & _ & _ & _ & Hdown); try eval_prop.
    exists e', out. split; [exact Hp|].
    rewrite Hdown; [reflexivity|eval_prop|eval_prop].
Defined.

(** After [setRange(5, 3, 1)] neither [setCount(4)] nor a forward detent
    nor [begin] moves the counter from 0. *)
Lemma inverted_range_witness :
  exists e',
    run uno_int_bits uno_long_bits
      [ OpSetCount 4; OpWaitForStatus forward_samples; OpGetStatus (idle_at 9);
        OpBegin; OpSetSwitchTimeout 5 ]
      (setRange (constructor 2 3 4) 5 3 1)
    = Some e' /\
    count e' = 0.
Proof.
  destruct (inverted_range_freezes_counter uno_int_bits uno_long_bits
              [ OpSetCount 4; OpWaitForStatus forward_samples;
                OpGetStatus (idle_at 9); OpBegin; OpSetSwitchTimeout 5 ]
              (setRange (constructor 2 3 4) 5 3 1))
    as (e' & Hrun & Hc & _).
  - eval_prop.
  - eval_prop.
  - repeat constructor.
  - exists e'. split; [exact Hrun|]. rewrite Hc. reflexivity.
Defined.

(** Step width 0: a forward detent from 5 leaves 5. *)
Lemma zero_step_witness :
  exists e' out,
    polls uno_int_bits uno_long_bits
      (setCount (setRange (constructor 2 3 4) 0 10 0) 5) forward_samples
    = Some (e', out) /\
    count e' = 5.
Proof.
  destruct (zero_step_keeps_counter uno_int_bits uno_long_bits forward_samples
              (setCount (setRange (constructor 2 3 4) 0 10 0) 5))
    as (e' & out & Hp & Hc).
  - reflexivity.
  - eval_prop.
  - eval_prop.
  - exists e', out. split; [exact Hp|]. rewrite Hc. reflexivity.
Defined.

(** A press 100 ms before [millis()] wraps around, with a timeout of
    500 ms, polled 601 ms later (501 ms after the wrap): the long press is
    reported. *)
Lemma long_press_timing_witness :
  exists e0 r0 fx0 e' r fx,
    getStatus uno_int_bits uno_long_bits
      (setSwitchTimeout (constructor 2 3 4) 500) (held_at 4294967196)
    = Some (e0, r0, fx0) /\
    getStatus uno_int_bits uno_long_bits e0 (held_at 4294967797)
    = Some (e', r, fx) /\
    contains r ButtonLongPressed = true /\ timePressed e' = 0.
Proof.
  destruct (getStatus uno_int_bits uno_long_bits
              (setSwitchTimeout (constructor 2 3 4) 500) (held_at 4294967196))
    as [[[e0 r0] fx0]|] eqn:Hg0; [|vm_compute in Hg0; discriminate].
  pose proof Hg0 as Hv. vm_compute in Hv. inversion Hv; subst e0 r0 fx0.
  clear Hv.
  match type of Hg0 with
  | _ = Some (?e0, _, _) =>
      destruct (long_press_timing_survives_wrap uno_int_bits uno_long_bits
                  e0 (held_at 4294967196) (held_at 4294967797) 500)
        as (e' & r & fx & Hg & Hf & Ht);
      [ | | | | | do 6 eexists; split; [reflexivity|]; split; [exact Hg|];
                split; [rewrite Hf; reflexivity | rewrite Ht; reflexivity] ]
  end.
  - eval_prop.
  - eval_prop.
  - eval_prop.
  - reflexivity.
  - eval_prop.
Defined.

(** A long press reported at 1600 ms; the timeout is then set to 100 ms
    and the switch stays down: no further long press. *)
Lemma reported_long_press_witness :
  exists e out0 e' out,
    polls uno_int_bits uno_long_bits
      (setSwitchTimeout (constructor 2 3 4) 500) [held_at 1000; held_at 1600]
    = Some (e, out0) /\
    long_press_flags out0 = [false; true] /\
    polls uno_int_bits uno_long_bits (setSwitchTimeout e 100)
      [held_at 1700; held_at 5000]
    = Some (e', out) /\
    long_press_flags out = [false; false].
Proof.
  destruct (polls uno_int_bits uno_long_bits
              (setSwitchTimeout (constructor 2 3 4) 500)
              [held_at 1000; held_at 1600])
    as [[e out0]|] eqn:Hp0; [|vm_compute in Hp0; discriminate].
  pose proof Hp0 as Hv. vm_compute in Hv. inversion Hv; subst e out0. clear Hv.
  match type of Hp0 with
  | _ = Some (?e, _) =>
      destruct (reported_long_press_is_not_repeated uno_int_bits uno_long_bits
                  e 500 100 [held_at 1700; held_at 5000])
        as (e' & out & Hp & Hf);
      [ | | do 4 eexists; split; [reflexivity|]; split; [reflexivity|];
            split; [exact Hp | exact Hf] ]
  end.
  - eval_prop.
  - repeat constructor.
Defined.

(** A press and two further polls: the press poll and the poll after it
    delay, the third does not. *)
Lemma polls_delay_witness :
  exists e' out,
    polls uno_int_bits uno_long_bits (constructor 2 3 4)
      [held_at 1000; held_at 1100; held_at 1200]
    = Some (e', out) /\
    delays_follow St_None out /\
    lastResult e' = last (map fst out) St_None /\
    length out = 3%nat.
Proof.
  destruct (polls uno_int_bits uno_long_bits (constructor 2 3 4)
              [held_at 1000; held_at 1100; held_at 1200])
    as [[e' out]|] eqn:Hp; [|vm_compute in Hp; discriminate].
  exists e', out. split; [reflexivity|].
  exact (polls_delay_on_change uno_int_bits uno_long_bits _ _ _ _ Hp).
Defined.

(** On the samples of a forward detent followed by one more sample,
    [waitForStatus] returns [Forward] at the fifth poll after four
    yields. *)
Lemma waitForStatus_returns_witness :
  exists e2,
    waitForStatus uno_int_bits uno_long_bits (constructor 2 3 (-1))
      (firstn 4 forward_samples ++ idle_at 4 :: [idle_at 9])
    = Some (Returned e2 Forward, [Yield; Yield; Yield; Yield; Delay 10]) /\
    count e2 = 1.
Proof.
  destruct (polls uno_int_bits uno_long_bits (constructor 2 3 (-1))
              (firstn 4 forward_samples))
    as [[e1 out]|] eqn:Hp; [|vm_compute in Hp; discriminate].
  pose proof Hp as Hv. vm_compute in Hv. inversion Hv; subst e1 out. clear Hv.
  match type of Hp with
  | _ = Some (?e1, _) =>
      destruct (getStatus uno_int_bits uno_long_bits e1 (idle_at 4))
        as [[[e2 r] fx]|] eqn:Hg; [|vm_compute in Hg; discriminate]
  end.
  pose proof Hg as Hv. vm_compute in Hv. inversion Hv; subst e2 r fx. clear Hv.
  eexists. split.
  - apply (waitForStatus_returns_first_event uno_int_bits uno_long_bits
             (firstn 4 forward_samples) (idle_at 4) [idle_at 9]
             _ _ _ _ _ _ Hp).
    + repeat constructor.
    + exact Hg.
    + discriminate.
  - reflexivity.
Defined.

(** Three polls without an event: [waitForStatus] is still polling and has
    yielded three times. *)
Lemma waitForStatus_blocks_witness :
  exists e',
    waitForStatus uno_int_bits uno_long_bits (constructor 2 3 (-1))
      [idle_at 0; idle_at 1; mkInputs true false false 2]
    = Some (Polling e', [Yield; Yield; Yield]) /\
    encoderStatus e' = 1.
Proof.
  destruct (polls uno_int_bits uno_long_bits (constructor 2 3 (-1))
              [idle_at 0; idle_at 1; mkInputs true false false 2])
    as [[e' out]|] eqn:Hp; [|vm_compute in Hp; discriminate].
  pose proof Hp as Hv. vm_compute in Hv. inversion Hv; subst e' out. clear Hv.
  eexists. split.
  - apply (waitForStatus_blocks_without_event uno_int_bits uno_long_bits
             _ _ _ _ Hp).
    repeat constructor.
  - reflexivity.
Defined.


(** A forward detent polled three times in every phase. *)
Lemma forward_detent_with_dwell_witness :
  exists e' out,
    polls uno_int_bits uno_long_bits (constructor 2 3 (-1))
      (repeat (mkInputs false false false 0) 2
       ++ (mkInputs true false false 1 :: repeat (mkInputs true false false 1) 2)
       ++ (mkInputs true true false 2 :: repeat (mkInputs true true false 2) 2)
       ++ (mkInputs false true false 3 :: repeat (mkInputs false true false 3) 2)
       ++ mkInputs false false false 4 :: repeat (mkInputs false false false 4) 2)
    = Some (e', out) /\
    count_flag Forward out = 1%nat /\ count_flag Reverse out = 0%nat /\
    count e' = 1.
Proof.
  destruct (forward_detent_with_dwell uno_int_bits uno_long_bits
              (constructor 2 3 (-1))
              (mkInputs true false false 1) (mkInputs true true false 2)
              (mkInputs false true false 3) (mkInputs false false false 4)
              (repeat (mkInputs false false false 0) 2)
              (repeat (mkInputs true false false 1) 2)
              (repeat (mkInputs true true false 2) 2)
              (repeat (mkInputs false true false 3) 2)
              (repeat (mkInputs false false false 4) 2))
    as (e' & out & Hp & Hf & Hr & _ & _ & _ & Hc);
    try reflexivity; try (repeat constructor); try eval_prop.
  exists e', out. split; [exact Hp|]. split; [exact Hf|]. split; [exact Hr|].
  rewrite Hc. vm_compute. reflexivity.
Defined.

(** A reverse detent polled three times in every phase, from counter 4. *)
Lemma reverse_detent_with_dwell_witness :
  exists e' out,
    polls uno_int_bits uno_long_bits (setCount (constructor 2 3 (-1)) 4)
      (repeat (mkInputs false false false 0) 2
       ++ (mkInputs false true false 1 :: repeat (mkInputs false true false 1) 2)
       ++ (mkInputs true true false 2 :: repeat (mkInputs true true false 2) 2)
       ++ (mkInputs true false false 3 :: repeat (mkInputs true false false 3) 2)
       ++ mkInputs false false false 4 :: repeat (mkInputs false false false 4) 2)
    = Some (e', out) /\
    count_flag Forward out = 0%nat /\ count_flag Reverse out = 1%nat /\
    count e' = 3.
Proof.
  destruct (reverse_detent_with_dwell uno_int_bits uno_long_bits
              (setCount (constructor 2 3 (-1)) 4)
              (mkInputs false true false 1) (mkInputs true true false 2)
              (mkInputs true false false 3) (mkInputs false false false 4)
              (repeat (mkInputs false false false 0) 2)
              (repeat (mkInputs false true false 1) 2)
              (repeat (mkInputs true true false 2) 2)
              (repeat (mkInputs true false false 3) 2)
              (repeat (mkInputs false false false 4) 2))
    as (e' & out & Hp & Hf & Hr & _ & _ & _ & Hc);
    try reflexivity; try (repeat constructor); try eval_prop.
  exists e', out. split; [exact Hp|]. split; [exact Hf|]. split; [exact Hr|].
  rewrite Hc. vm_compute. reflexivity.
Defined.
